(** * Portfolio manager backend: a shallow embedding and its properties

    The development follows the Python sources:
    - [backend/app/services/image_service.py]  (module [ImageService])
    - [backend/app/providers/github/github_provider.py] (module [GitHubProvider])
    - [backend/app/routers/projects.py] (module [ProjectsRouter])
    - [backend/index.py] (module [Index])

    Python [str] values are modelled as [string] (8-bit characters; the
    case mapping and the character classes below are the ASCII ones),
    dictionaries and sets as stdpp's [gmap] and [gset]. *)

From Stdlib Require Import ZArith QArith Qround Qpower Qabs Lia Lqa Ascii String.
From stdpp Require Import base option list gmap strings sorting pretty.

Local Open Scope string_scope.
Local Open Scope Z_scope.

(** ** Python string primitives *)

Module PyStr.

Definition char_between (lo hi c : ascii) : bool :=
  ((N_of_ascii lo <=? N_of_ascii c) && (N_of_ascii c <=? N_of_ascii hi))%N.

Definition is_upper (c : ascii) : bool := char_between "A" "Z" c.
Definition is_lower (c : ascii) : bool := char_between "a" "z" c.
Definition is_digit (c : ascii) : bool := char_between "0" "9" c.

Definition lower_char (c : ascii) : ascii :=
  if is_upper c then ascii_of_N (N_of_ascii c + 32) else c.

(** [s.lower()] *)
Fixpoint lower (s : string) : string :=
  match s with
  | EmptyString => EmptyString
  | String c s' => String (lower_char c) (lower s')
  end.

(** [re.sub(r'[^...]', '', s)] for a character class given as a predicate *)
Fixpoint keep (p : ascii -> bool) (s : string) : string :=
  match s with
  | EmptyString => EmptyString
  | String c s' => if p c then String c (keep p s') else keep p s'
  end.

(** [re.sub(r'c+', 'c', s)]: every maximal run of [c] becomes one [c] *)
Fixpoint squeeze (c : ascii) (s : string) : string :=
  match s with
  | EmptyString => EmptyString
  | String a s' =>
      if Ascii.eqb a c then
        match s' with
        | String b _ => if Ascii.eqb b c then squeeze c s' else String a (squeeze c s')
        | EmptyString => String a EmptyString
        end
      else String a (squeeze c s')
  end.

(** [re.sub(r'[^...]+', r, s)]: every maximal run of characters outside
    the class [p] becomes one [r] *)
Fixpoint replace_runs (p : ascii -> bool) (r : ascii) (s : string) : string :=
  match s with
  | EmptyString => EmptyString
  | String a s' =>
      if p a then String a (replace_runs p r s')
      else
        match s' with
        | String b _ => if p b then String r (replace_runs p r s') else replace_runs p r s'
        | EmptyString => String r EmptyString
        end
  end.

Fixpoint lstrip (c : ascii) (s : string) : string :=
  match s with
  | String a s' => if Ascii.eqb a c then lstrip c s' else s
  | EmptyString => EmptyString
  end.

Fixpoint rev_onto (s acc : string) : string :=
  match s with
  | EmptyString => acc
  | String a s' => rev_onto s' (String a acc)
  end.

Definition rev (s : string) : string := rev_onto s EmptyString.

Definition rstrip (c : ascii) (s : string) : string := rev (lstrip c (rev s)).

(** [s.strip(c)] for a one-character argument *)
Definition strip (c : ascii) (s : string) : string := rstrip c (lstrip c s).

(** [s[:n]] *)
Definition take (n : nat) (s : string) : string := substring 0 n s.

(** [s.startswith(p)] *)
Definition startswith (p s : string) : bool := String.prefix p s.

(** [s.split(c)[-1]]: what follows the last [c], or all of [s] *)
Fixpoint last_segment_from (c : ascii) (s cur : string) : string :=
  match s with
  | EmptyString => rev cur
  | String a s' =>
      if Ascii.eqb a c then last_segment_from c s' EmptyString
      else last_segment_from c s' (String a cur)
  end.

Definition last_segment (c : ascii) (s : string) : string :=
  last_segment_from c s EmptyString.

(** truth value of a string: [bool(s)] *)
Definition truthy (s : string) : bool :=
  match s with EmptyString => false | _ => true end.

(** [needle in s] *)
Fixpoint contains (needle s : string) : bool :=
  String.prefix needle s
  || match s with
     | EmptyString => false
     | String _ s' => contains needle s'
     end.

(** [s] cut before its last [c]: what precedes it, and the rest from
    that [c] on *)
Fixpoint split_last (c : ascii) (s : string) : option (string * string) :=
  match s with
  | EmptyString => None
  | String a s' =>
      match split_last c s' with
      | Some (pre, suf) => Some (String a pre, suf)
      | None => if Ascii.eqb a c then Some (EmptyString, s) else None
      end
  end.

(** [os.path.splitext(p)[1]]: the extension starts at the last dot of
    the last path component, unless only dots precede it there *)
Definition splitext_ext (p : string) : string :=
  match split_last "." (last_segment "/" p) with
  | Some (stem, ext) => if truthy (lstrip "." stem) then ext else EmptyString
  | None => EmptyString
  end.

(** [s] cut at its first [c]: what precedes it and what follows it *)
Fixpoint cut (c : ascii) (s : string) : option (string * string) :=
  match s with
  | EmptyString => None
  | String a s' =>
      if Ascii.eqb a c then Some (EmptyString, s')
      else match cut c s' with
           | Some (x, rest) => Some (String a x, rest)
           | None => None
           end
  end.

(** [s.split(c, n)]: at most [n] cuts, from the left *)
Fixpoint split_max (c : ascii) (n : nat) (s : string) : list string :=
  match n with
  | O => [s]
  | Datatypes.S n' =>
      match cut c s with
      | Some (x, rest) => x :: split_max c n' rest
      | None => [s]
      end
  end.

End PyStr.

(** ** Python [float]: IEEE 754 binary64, round to nearest even

    A finite float is the rational it denotes.  [RN] rounds a rational to
    the nearest number with a 53-bit significand, ties to even; the
    exponent range is not bounded, which agrees with binary64 wherever no
    overflow or underflow occurs (every quantity below stays between
    2^-1000 and 2^1000 in magnitude). *)

Module Binary64.

Definition prec : Z := 53.

Definition pow2 (e : Z) : Q := Qpower 2 e.

(** floor of the base-2 logarithm of a positive rational *)
Definition ilog2 (x : Q) : Z :=
  let k := Z.log2 (Qnum x) - Z.log2 (Zpos (Qden x)) in
  if Qle_bool (pow2 k) x then k else k - 1.

(** nearest integer, ties to even *)
Definition rnd_even (q : Q) : Z :=
  let f := Qfloor q in
  match Qcompare (q - inject_Z f) (1 # 2) with
  | Lt => f
  | Gt => f + 1
  | Eq => if Z.even f then f else f + 1
  end.

Definition RNpos (x : Q) : Q :=
  let e := ilog2 x - (prec - 1) in
  inject_Z (rnd_even (x / pow2 e)) * pow2 e.

Definition RN (x : Q) : Q :=
  match Qcompare x 0 with
  | Eq => 0
  | Gt => RNpos x
  | Lt => - RNpos (- x)
  end.

(** [float(n)] *)
Definition of_int (n : Z) : Q := RN (inject_Z n).
(** [a / b] on two [int]s: the correctly rounded quotient *)
Definition int_truediv (a b : Z) : Q := RN (inject_Z a / inject_Z b).
(** [x * y] and [x / y] on floats *)
Definition mul (x y : Q) : Q := RN (x * y).
Definition div (x y : Q) : Q := RN (x / y).
(** [int(x)]: truncation towards zero *)
Definition to_int (x : Q) : Z :=
  if Qle_bool 0 x then Qfloor x else - Qfloor (- x).

(** a number with a significand of at most 53 bits *)
Definition representable (f : Q) : Prop :=
  exists M E : Z, Z.abs M <= 2 ^ 53 /\ (f == inject_Z M * pow2 E)%Q.

End Binary64.

(** ** The [secrets] module as an entropy source

    Each call consumes one draw; the state is the number of draws made so
    far.  The source decides what every draw returns. *)

Record entropy := {
  token_urlsafe : nat -> nat -> string;  (* draw index, nbytes *)
  token_hex : nat -> nat -> string       (* draw index, nbytes *)
}.

Definition rand (A : Type) : Type := nat -> A * nat.

Definition rand_ret {A} (a : A) : rand A := fun n => (a, n).
Definition rand_bind {A B} (m : rand A) (k : A -> rand B) : rand B :=
  fun n => let (a, n') := m n in k a n'.

Declare Scope rand_scope.
Delimit Scope rand_scope with rand.
Notation "x <- m ;; k" := (rand_bind m (fun x => k))
  (at level 100, m at next level, right associativity) : rand_scope.

Definition draw_urlsafe (src : entropy) (nbytes : nat) : rand string :=
  fun n => (token_urlsafe src n nbytes, S n).
Definition draw_hex (src : entropy) (nbytes : nat) : rand string :=
  fun n => (token_hex src n nbytes, S n).

(** ** JSON values and Python dictionaries

    A parsed JSON document.  An object is the list of its items; a Python
    [dict] has each key once, and lookup takes the first item with the
    key.  [None] is [JNull]. *)

#[warnings="-register-all"]
Inductive json :=
| JNull
| JBool (b : bool)
| JNum (n : Z)
| JStr (s : string)
| JArr (items : list json)
| JObj (fields : list (string * json)).

(** ** Exceptions *)

Inductive exn :=
| HTTPException (status_code : Z) (detail : string)   (* fastapi *)
| GitHubError (message : string)                      (* app.exceptions *)
| HTTPStatusError (status_code : Z)                   (* httpx, raise_for_status *)
| RequestError                                        (* httpx, transport failure *)
| AttributeError
| KeyError (key : string)
| TypeError
| ValueError (message : string)
| DecodeError                                         (* binascii, UnicodeDecodeError *)
| JSONDecodeError
| NotFound.                                           (* google.api_core *)

Inductive result (A : Type) :=
| Ok (a : A)
| Raise (e : exn).
Arguments Ok {A} a.
Arguments Raise {A} e.

Module Py.

Fixpoint assoc (k : string) (fields : list (string * json)) : option json :=
  match fields with
  | [] => None
  | (k', v) :: rest => if String.eqb k' k then Some v else assoc k rest
  end.

(** [d.get(k, dflt)]; an object without a [get] attribute raises *)
Definition get (d : json) (k : string) (dflt : json) : result json :=
  match d with
  | JObj fields => Ok (default dflt (assoc k fields))
  | _ => Raise AttributeError
  end.

(** [d[k]] *)
Definition item (d : json) (k : string) : result json :=
  match d with
  | JObj fields =>
      match assoc k fields with Some v => Ok v | None => Raise (KeyError k) end
  | _ => Raise TypeError
  end.

(** [d[k] = v] on a dictionary: replaces the item in place or appends it *)
Fixpoint set_item (fields : list (string * json)) (k : string) (v : json)
    : list (string * json) :=
  match fields with
  | [] => [(k, v)]
  | (k', v') :: rest =>
      if String.eqb k' k then (k, v) :: rest else (k', v') :: set_item rest k v
  end.

(** [bool(v)] *)
Definition truthy (v : json) : bool :=
  match v with
  | JNull => false
  | JBool b => b
  | JNum n => negb (n =? 0)
  | JStr s => PyStr.truthy s
  | JArr l => match l with [] => false | _ => true end
  | JObj l => match l with [] => false | _ => true end
  end.

(** [isinstance(v, list)] *)
Definition is_list (v : json) : bool :=
  match v with JArr _ => true | _ => false end.

End Py.

(** ** Library functions the code calls

    [base64], [json] and PIL are not part of the repository; the code is
    parametric in them. *)

Inductive image_mode := RGB | RGBA | LA | P | L | OtherMode (name : string).

(** a decoded [PIL.Image]: mode and size; the pixels play no role *)
Record image := { mode : image_mode; width : Z; height : Z }.

Inductive image_format := WEBP.

(** the arguments of [Image.save] *)
Record save_args := {
  save_format : image_format;
  save_quality : Z;
  save_image : image
}.

Record pylib := {
  b64encode : string -> string;
  b64decode : string -> option string;             (* [None]: raises *)
  json_dumps : Z -> json -> string;                (* indent, value *)
  json_loads : string -> option json;              (* [None]: raises JSONDecodeError *)
  Image_open : string -> option image;             (* [None]: raises *)
  Image_save : save_args -> string                 (* the encoded bytes *)
}.

(** [fastapi.UploadFile] *)
Record UploadFile := {
  filename : option string;
  content_type : option string;
  file_content : string                            (* what [read()] returns *)
}.

(** [len(s)] *)
Definition len (s : string) : Z := Z.of_nat (String.length s).

(** ** HTTP exchanges with the file host *)

Inductive http_method := GET | PUT | DELETE.

Record request := {
  req_method : http_method;
  req_repo : string;
  req_path : string;
  req_ref : option string;      (* the [?ref=] query parameter *)
  req_json : json               (* request body, [JNull] when there is none *)
}.

Record response := {
  status_code : Z;
  resp_json : json
}.

(** A server answers a request from its state; [None] is a transport
    failure.  The client's world is the server state, the exchanges made
    so far (latest last) and the number of random draws made. *)
Record server (S : Type) := {
  serve : request -> S -> option response * S
}.
Arguments serve {S} _ _ _.

Record world (S : Type) := {
  remote : S;
  trace : list (request * option response);
  draws : nat
}.
Arguments remote {S} _.
Arguments trace {S} _.
Arguments draws {S} _.
Arguments Build_world {S} _ _ _.

Definition M (S A : Type) : Type := world S -> result A * world S.

Definition ret {S A} (a : A) : M S A := fun w => (Ok a, w).
Definition raise {S A} (e : exn) : M S A := fun w => (Raise e, w).
Definition bind {S A B} (m : M S A) (k : A -> M S B) : M S B :=
  fun w => match m w with
           | (Ok a, w') => k a w'
           | (Raise e, w') => (Raise e, w')
           end.
(** [try: m except Exception as e: h e] *)
Definition catch {S A} (m : M S A) (h : exn -> M S A) : M S A :=
  fun w => match m w with
           | (Ok a, w') => (Ok a, w')
           | (Raise e, w') => h e w'
           end.
Definition lift {S A} (r : result A) : M S A := fun w => (r, w).
Definition lift_rand {S A} (m : rand A) : M S A :=
  fun w => let (a, n) := m (draws w) in
           (Ok a, Build_world (remote w) (trace w) n).

Declare Scope M_scope.
Delimit Scope M_scope with M.
Notation "x <~ m ;; k" := (bind m (fun x => k))
  (at level 100, m at next level, right associativity) : M_scope.
Notation "m ;;; k" := (bind m (fun _ => k))
  (at level 100, right associativity) : M_scope.

(** one exchange: [await client.get/put/delete(...)] *)
Definition send {S} (srv : server S) (req : request) : M S response :=
  fun w =>
    let (r, s') := serve srv req (remote w) in
    let w' := Build_world s' (trace w ++ [(req, r)]) (draws w) in
    match r with
    | Some resp => (Ok resp, w')
    | None => (Raise RequestError, w')
    end.

(** [await client.delete(url, headers=..., json=data)]: the [delete] of
    httpx takes no [json] argument (a request body needs
    [client.request("DELETE", ...)]), so the call raises [TypeError] when
    it is made and nothing is sent: the request stays unused *)
Definition delete_with_json {S} (srv : server S) (req : request) : M S response :=
  raise TypeError.

(** [for x in xs: body x] *)
Fixpoint for_each {S A} (xs : list A) (body : A -> M S unit) : M S unit :=
  match xs with
  | [] => ret tt
  | x :: rest => (body x ;;; for_each rest body)%M
  end.

(** ** The file host as faithful storage

    The contents API as the code uses it, for one branch: a file is kept
    under its repository and path with the payload it was written with;
    its revision is determined by its content; a write or a delete of an
    existing file goes through only with the current revision.  A path
    under which files are kept lists as a directory. *)

Module GitHub.

Record state := {
  tree : gmap (string * string) string;
  commits : nat
}.

Definition blob_sha (content : string) : string := "blob:" +:+ content.
Definition commit_sha (n : nat) : string := "commit:" +:+ pretty n.

Definition is_sha (sha : json) (content : string) : bool :=
  match sha with
  | JStr s => String.eqb s (blob_sha content)
  | _ => false
  end.

Definition file_json (path content : string) : json :=
  JObj [("name", JStr (PyStr.last_segment "/" path));
        ("path", JStr path);
        ("sha", JStr (blob_sha content));
        ("type", JStr "file");
        ("encoding", JStr "base64");
        ("content", JStr content)].

Definition entry_json (dir name kind sha : string) : json :=
  JObj [("name", JStr name);
        ("path", JStr (dir +:+ "/" +:+ name));
        ("sha", JStr sha);
        ("type", JStr kind)].

(** [s] without the prefix [p], when it starts with it *)
Fixpoint strip_prefix (p s : string) : option string :=
  match p, s with
  | EmptyString, _ => Some s
  | String a p', String b s' => if Ascii.eqb a b then strip_prefix p' s' else None
  | String _ _, EmptyString => None
  end.

(** what precedes the first [c] of [s], when there is one *)
Fixpoint before (c : ascii) (s : string) : option string :=
  match s with
  | EmptyString => None
  | String a s' =>
      if Ascii.eqb a c then Some EmptyString
      else String a <$> before c s'
  end.

(** the name under [dir] that the file at [path] is reached through:
    the file itself ([inl]) or a subdirectory ([inr]) *)
Definition child (dir path : string) : option (string + string) :=
  match strip_prefix (dir +:+ "/") path with
  | None => None
  | Some rest =>
      match before "/" rest with
      | None => Some (inl rest)
      | Some sub => Some (inr sub)
      end
  end.

Definition file_entries (st : state) (repo dir : string) : list json :=
  omap (fun kv : (string * string) * string =>
          let '((r, path), content) := kv in
          if String.eqb r repo then
            match child dir path with
            | Some (inl name) => Some (entry_json dir name "file" (blob_sha content))
            | _ => None
            end
          else None)
       (map_to_list (tree st)).

Definition subdirectories (st : state) (repo dir : string) : gset string :=
  list_to_set
    (omap (fun kv : (string * string) * string =>
             let '((r, path), _) := kv in
             if String.eqb r repo then
               match child dir path with
               | Some (inr sub) => Some sub
               | _ => None
               end
             else None)
          (map_to_list (tree st))).

Definition listing (st : state) (repo dir : string) : list json :=
  file_entries st repo dir
  ++ map (fun sub => entry_json dir sub "dir" ("tree:" +:+ dir +:+ "/" +:+ sub))
         (elements (subdirectories st repo dir)).

Definition message (status : Z) (text : string) : response :=
  {| status_code := status; resp_json := JObj [("message", JStr text)] |}.

Definition committed (status : Z) (content : json) (n : nat) : response :=
  {| status_code := status;
     resp_json := JObj [("content", content);
                        ("commit", JObj [("sha", JStr (commit_sha n))])] |}.

Definition get (st : state) (repo path : string) : response :=
  match tree st !! (repo, path) with
  | Some content => {| status_code := 200; resp_json := file_json path content |}
  | None =>
      match listing st repo path with
      | [] => message 404 "Not Found"
      | entries => {| status_code := 200; resp_json := JArr entries |}
      end
  end.

Definition put (st : state) (repo path : string) (data : json) : response * state :=
  match data with
  | JObj fields =>
      match Py.assoc "content" fields with
      | Some (JStr content) =>
          let sha := default JNull (Py.assoc "sha" fields) in
          let written := {| tree := <[(repo, path) := content]> (tree st);
                            commits := Datatypes.S (commits st) |} in
          match tree st !! (repo, path) with
          | Some current =>
              if is_sha sha current then
                (committed 200 (file_json path content) (commits st), written)
              else
                match sha with
                | JNull => (message 422 "Invalid request. sha wasn't supplied.", st)
                | _ => (message 409 "sha does not match", st)
                end
          | None =>
              match sha with
              | JNull => (committed 201 (file_json path content) (commits st), written)
              | _ => (message 422 "sha supplied for a new file", st)
              end
          end
      | _ => (message 422 "Invalid request. content wasn't supplied.", st)
      end
  | _ => (message 422 "Invalid request", st)
  end.

Definition delete (st : state) (repo path : string) (data : json) : response * state :=
  match data with
  | JObj fields =>
      let sha := default JNull (Py.assoc "sha" fields) in
      match tree st !! (repo, path) with
      | Some current =>
          if is_sha sha current then
            (committed 200 JNull (commits st),
             {| tree := base.delete (repo, path) (tree st);
                commits := Datatypes.S (commits st) |})
          else
            match sha with
            | JNull => (message 422 "Invalid request. sha wasn't supplied.", st)
            | _ => (message 409 "sha does not match", st)
            end
      | None => (message 404 "Not Found", st)
      end
  | _ => (message 422 "Invalid request", st)
  end.

Definition host : server state := {|
  serve req st :=
    match req_method req with
    | GET => (Some (get st (req_repo req) (req_path req)), st)
    | PUT => let (r, st') := put st (req_repo req) (req_path req) (req_json req) in
             (Some r, st')
    | DELETE => let (r, st') := delete st (req_repo req) (req_path req) (req_json req) in
                (Some r, st')
    end
|}.

End GitHub.

(** ** The document database

    Documents are kept under their collection and id; a document is a
    finite map from field names to values.  A [datetime] is the number of
    microseconds since the epoch. *)

#[warnings="-register-all"]
Inductive value :=
| VNull
| VStr (s : string)
| VTime (t : Z)                       (* a [datetime] *)
| VIso (t : Z)                        (* the [isoformat()] text of a [datetime] *)
| VMap (fields : list (string * value)).

Module Firestore.

Abbreviation db := (gmap (string * string) (gmap string value)).

(** [doc_ref.set(fields)]: the document becomes exactly [fields] *)
Definition set (coll id : string) (fields : list (string * value)) (d : db) : db :=
  <[(coll, id) := list_to_map fields]> d.

(** [doc_ref.update(fields)]: the fields given are written, the others
    are kept; a missing document is an error *)
Definition update (coll id : string) (fields : list (string * value)) (d : db)
    : result unit * db :=
  match d !! (coll, id) with
  | Some doc => (Ok tt, <[(coll, id) := list_to_map fields ∪ doc]> d)
  | None => (Raise NotFound, d)
  end.

(** [collection.add(fields)] under a new id: the id must be free *)
Definition add (coll id : string) (fields : list (string * value)) (d : db)
    : result unit * db :=
  match d !! (coll, id) with
  | Some _ => (Raise (ValueError "document already exists"), d)
  | None => (Ok tt, <[(coll, id) := list_to_map fields]> d)
  end.

(** [doc_ref.delete()] *)
Definition delete (coll id : string) (d : db) : db := base.delete (coll, id) d.

(** a query on one collection: equality filters, one descending order,
    a limit *)
Record query := {
  q_collection : string;
  q_where : list (string * value);
  q_order_by_desc : option string;
  q_limit : option nat
}.

Definition collection (coll : string) : query :=
  {| q_collection := coll; q_where := []; q_order_by_desc := None; q_limit := None |}.
Definition where_ (field : string) (v : value) (q : query) : query :=
  {| q_collection := q_collection q; q_where := q_where q ++ [(field, v)];
     q_order_by_desc := q_order_by_desc q; q_limit := q_limit q |}.
Definition order_by_desc (field : string) (q : query) : query :=
  {| q_collection := q_collection q; q_where := q_where q;
     q_order_by_desc := Some field; q_limit := q_limit q |}.
Definition limit (n : nat) (q : query) : query :=
  {| q_collection := q_collection q; q_where := q_where q;
     q_order_by_desc := q_order_by_desc q; q_limit := Some n |}.

Definition value_eqb (a b : value) : bool :=
  match a, b with
  | VNull, VNull => true
  | VStr x, VStr y => String.eqb x y
  | VTime x, VTime y => x =? y
  | _, _ => false
  end.

Definition matches (doc : gmap string value) (cond : string * value) : bool :=
  match doc !! cond.1 with
  | Some v => value_eqb v cond.2
  | None => false
  end.

(** position of a value in the order of the database: by type first
    (null, then timestamps, then text); timestamps by time.  Values of
    the other types are not told apart. *)
Definition sort_key (v : value) : Z * Z :=
  match v with
  | VNull => (0, 0)
  | VTime t => (1, t)
  | VStr _ | VIso _ => (2, 0)
  | VMap _ => (3, 0)
  end.

Definition key_le (a b : Z * Z) : Prop :=
  a.1 < b.1 \/ (a.1 = b.1 /\ a.2 <= b.2).

#[global] Instance key_le_dec a b : Decision (key_le a b).
Proof. unfold key_le. apply _. Defined.

(** [a] comes no later than [b] in descending order of [field] *)
Definition desc_by (field : string) (a b : string * gmap string value) : Prop :=
  key_le (sort_key (default VNull (b.2 !! field)))
         (sort_key (default VNull (a.2 !! field))).

#[global] Instance desc_by_dec field a b : Decision (desc_by field a b).
Proof. unfold desc_by. apply _. Defined.

(** the documents of a collection with their ids *)
Definition documents (coll : string) (d : db) : list (string * gmap string value) :=
  omap (fun kv : (string * string) * gmap string value =>
          if String.eqb kv.1.1 coll then Some (kv.1.2, kv.2) else None)
       (map_to_list d).

(** [query.stream()]: the documents that pass every filter; with an
    order, those that have the field, sorted; at most the limit *)
Definition stream (q : query) (d : db) : list (string * gmap string value) :=
  let docs := documents (q_collection q) d in
  let docs := filter (fun doc => forallb (matches doc.2) (q_where q) = true) docs in
  let docs :=
    match q_order_by_desc q with
    | Some field =>
        merge_sort (desc_by field)
                   (filter (fun doc => is_Some (doc.2 !! field)) docs)
    | None => docs
    end in
  match q_limit q with
  | Some n => take n docs
  | None => docs
  end.

End Firestore.

(** ** backend/app/services/image_service.py *)

Module ImageService.

Definition UID_LENGTH : nat := 8.

(** [generate_random_uid]: [secrets.token_urlsafe(length)[:length]] *)
Definition generate_random_uid (src : entropy) (length : nat) : rand string :=
  (t <- draw_urlsafe src length ;; rand_ret (PyStr.take length t))%rand.

Definition name_char (c : ascii) : bool :=
  PyStr.is_lower c || PyStr.is_digit c || Ascii.eqb c "_" || Ascii.eqb c "-".

(** [sanitize_filename] *)
Definition sanitize_filename (name : string) : string :=
  let name := PyStr.lower name in
  let name := PyStr.keep name_char name in
  let name := PyStr.squeeze "_" name in
  let name := PyStr.strip "_" name in
  if PyStr.truthy name then name else "project".

Definition filename_of (sanitized_name uid : string) : string :=
  sanitized_name +:+ "_" +:+ uid +:+ ".webp".

(** the [for attempt in range(10)] loop; [None] when it falls through *)
Fixpoint attempts (src : entropy) (k : nat) (sanitized_name : string)
    (existing_names_set : gset string) : rand (option string) :=
  match k with
  | O => rand_ret None
  | S k' =>
      (uid <- generate_random_uid src UID_LENGTH ;;
       let filename := filename_of sanitized_name uid in
       if decide (filename ∈ existing_names_set)
       then attempts src k' sanitized_name existing_names_set
       else rand_ret (Some filename))%rand
  end.

(** [generate_unique_filename] *)
Definition generate_unique_filename (src : entropy) (project_name : string)
    (existing_filenames : list string) : rand string :=
  let sanitized_name := sanitize_filename project_name in
  let existing_names_set : gset string := list_to_set existing_filenames in
  (r <- attempts src 10 sanitized_name existing_names_set ;;
   match r with
   | Some filename => rand_ret filename
   | None =>
       uid <- draw_hex src 8 ;;
       rand_ret (filename_of sanitized_name uid)
   end)%rand.

(** the name tried at the [i]-th attempt when [n] draws were made before *)
Definition candidate (src : entropy) (project_name : string) (n i : nat) : string :=
  filename_of (sanitize_filename project_name)
              (PyStr.take UID_LENGTH (token_urlsafe src (n + i) UID_LENGTH)).

Definition MAX_IMAGE_SIZE : Z := 2 * 1024 * 1024.
Definition ALLOWED_MIME_TYPES : list string :=
  ["image/jpeg"; "image/png"; "image/webp"; "image/gif"].
(** declared next to the MIME types; [validate_image] does not use it *)
Definition ALLOWED_EXTENSIONS : list string :=
  [".jpg"; ".jpeg"; ".png"; ".webp"; ".gif"].

Definition invalid_type_message : string :=
  "Invalid image type. Allowed types: image/jpeg, image/png, image/webp, image/gif".

(** [validate_image]: only the declared MIME type is looked at *)
Definition validate_image (file : UploadFile) : bool * string :=
  match content_type file with
  | Some ct =>
      if bool_decide (ct ∈ ALLOWED_MIME_TYPES) then (true, "")
      else (false, invalid_type_message)
  | None => (false, invalid_type_message)
  end.

(** the alpha and palette modes are pasted on a white RGB background of
    the same size *)
Definition flatten (img : image) : image :=
  match mode img with
  | RGBA | LA | P => {| mode := RGB; width := width img; height := height img |}
  | _ => img
  end.

(** [convert_to_webp]; every exception of the body other than the
    [HTTPException] of the size check becomes a 400 *)
Definition convert_to_webp (lib : pylib) (file : UploadFile) : result string :=
  let content := file_content file in
  if len content >? MAX_IMAGE_SIZE then
    Raise (HTTPException 400 "File size exceeds 2 MB limit")
  else
    match Image_open lib content with
    | None => Raise (HTTPException 400 "Failed to process image")
    | Some img =>
        let img := flatten img in
        Ok (Image_save lib {| save_format := WEBP; save_quality := 85; save_image := img |})
    end.

End ImageService.

(** ** backend/app/config.py *)

Module Config.

Record Settings := {
  GITHUB_TOKEN : string;
  GITHUB_REPO : string;
  GITHUB_BRANCH : string;
  GITHUB_PROJECTS_PATH : string;
  GITHUB_CONTACTS_PATH : string;
  GITHUB_PROJECT_IMAGES_PATH : option string
}.

(** [Settings._parse_github_path]: [owner/repo/path/to/file.json] as
    the repository and the path in it *)
Definition _parse_github_path (full_path : string) : result (string * string) :=
  match PyStr.split_max "/" 2 full_path with
  | owner :: name :: file_path :: _ => Ok (owner +:+ "/" +:+ name, file_path)
  | _ => Raise (ValueError ("Invalid GitHub path format: " +:+ full_path
                            +:+ ". Expected: owner/repo/path/to/file.json"))
  end.

End Config.

(** ** backend/app/providers/github/github_provider.py *)

Module GitHubProvider.
Import Config.

Section Provider.
Context {S : Type} (lib : pylib) (settings : Settings) (srv : server S).

Definition get_request (path : string) : request :=
  {| req_method := GET; req_repo := GITHUB_REPO settings; req_path := path;
     req_ref := Some (GITHUB_BRANCH settings); req_json := JNull |}.

Definition put_request (path : string) (data : json) : request :=
  {| req_method := PUT; req_repo := GITHUB_REPO settings; req_path := path;
     req_ref := None; req_json := data |}.

Definition delete_request (path : string) (data : json) : request :=
  {| req_method := DELETE; req_repo := GITHUB_REPO settings; req_path := path;
     req_ref := None; req_json := data |}.

(** [_get_sha]: [None] on any status but 200 and on any exception *)
Definition _get_sha (path : string) : M S json :=
  catch
    (r <~ send srv (get_request path) ;;
     if status_code r =? 200 then lift (Py.get (resp_json r) "sha" JNull)
     else ret JNull)%M
    (fun _ => ret JNull).

(** [base64.b64decode(c.replace("\n", "")).decode('utf-8')] *)
Definition decode_content (c : json) : result string :=
  match c with
  | JStr c =>
      match b64decode lib (PyStr.keep (fun a => negb (Ascii.eqb a "010")) c) with
      | Some text => Ok text
      | None => Raise DecodeError
      end
  | _ => Raise AttributeError
  end.

(** [_get_file]: content and sha *)
Definition _get_file (path : string) : M S (string * json) :=
  (r <~ send srv (get_request path) ;;
   if status_code r =? 404 then ret ("", JNull)
   else if negb (status_code r =? 200) then
     raise (GitHubError ("Failed to fetch " +:+ path))
   else
     let data := resp_json r in
     c <~ lift (Py.get data "content" (JStr "")) ;;
     content <~ lift (decode_content c) ;;
     sha <~ lift (Py.get data "sha" JNull) ;;
     ret (content, sha))%M.

(** the body of a write: the sha is added when there is one *)
Definition write_data (message : json) (content : string) (sha : json) : json :=
  let data := [("message", message);
               ("content", JStr content);
               ("branch", JStr (GITHUB_BRANCH settings))] in
  JObj (if Py.truthy sha then Py.set_item data "sha" sha else data).

(** what follows the request of a write: the commit sha or an error *)
Definition write_result (r : response) (ok : list Z) (failure : string) : M S json :=
  if bool_decide (status_code r ∈ ok) then
    (res <~ lift (Py.get (resp_json r) "commit" (JObj [])) ;;
     lift (Py.get res "sha" JNull))%M
  else
    (_ <~ lift (Py.get (resp_json r) "message" (JStr "Unknown error")) ;;
     raise (GitHubError failure))%M.

(** [_save_file]; returns the ["sha"] of the result *)
Definition _save_file (path content : string) (message : json) : M S json :=
  (sha <~ _get_sha path ;;
   let data := write_data message (b64encode lib content) sha in
   r <~ send srv (put_request path data) ;;
   write_result r [200; 201] ("Failed to save " +:+ path))%M.

(** [get_projects]: projects and commit *)
Definition get_projects : M S (json * json) :=
  (res <~ _get_file (GITHUB_PROJECTS_PATH settings) ;;
   let '(content, sha) := res in
   if negb (PyStr.truthy content) then ret (JArr [], JNull)
   else
     match json_loads lib content with
     | Some projects => ret (projects, sha)
     | None => raise (GitHubError "Invalid projects JSON")
     end)%M.

(** [save_projects]; returns the ["commit"] of the result *)
Definition save_projects (projects message : json) : M S json :=
  let content := json_dumps lib 4 projects in
  _save_file (GITHUB_PROJECTS_PATH settings) content message.

(** [get_contacts] *)
Definition get_contacts : M S (json * json) :=
  (res <~ _get_file (GITHUB_CONTACTS_PATH settings) ;;
   let '(content, sha) := res in
   if negb (PyStr.truthy content) then
     ret (JObj [("email", JStr ""); ("socials", JObj [])], JNull)
   else
     match json_loads lib content with
     | Some contacts =>
         c <~ lift (Py.get contacts "contact" (JObj [])) ;;
         ret (c, sha)
     | None => raise (GitHubError "Invalid contacts JSON")
     end)%M.

(** [save_contacts] *)
Definition save_contacts (contact message : json) : M S json :=
  let content := json_dumps lib 4 (JObj [("contact", contact)]) in
  _save_file (GITHUB_CONTACTS_PATH settings) content message.

Definition not_configured : exn :=
  GitHubError "GITHUB_PROJECT_IMAGES_DIRECTORY not configured".

(** [settings.GITHUB_PROJECT_IMAGES_PATH], when it is set and not empty *)
Definition images_path : option string :=
  match GITHUB_PROJECT_IMAGES_PATH settings with
  | Some dir => if PyStr.truthy dir then Some dir else None
  | None => None
  end.

(** [upload_image] *)
Definition upload_image (filename image_bytes : string) : M S json :=
  match images_path with
  | None => raise not_configured
  | Some dir =>
      let path := dir +:+ "/" +:+ filename in
      (sha <~ _get_sha path ;;
       let data := write_data (JStr ("Upload project image: " +:+ filename))
                              (b64encode lib image_bytes) sha in
       r <~ send srv (put_request path data) ;;
       write_result r [200; 201] ("Failed to upload image " +:+ filename))%M
  end.

(** [delete_image]; returns the ["sha"] of the result.  With a revision
    read, the delete call is made with a [json] argument and raises *)
Definition delete_image (filename : string) : M S json :=
  match images_path with
  | None => raise not_configured
  | Some dir =>
      let path := dir +:+ "/" +:+ filename in
      (sha <~ _get_sha path ;;
       if negb (Py.truthy sha) then ret JNull
       else
         let data := JObj [("message", JStr ("Delete project image: " +:+ filename));
                           ("sha", sha);
                           ("branch", JStr (GITHUB_BRANCH settings))] in
         r <~ delete_with_json srv (delete_request path data) ;;
         if bool_decide (status_code r ∈ [200; 204]) then
           if status_code r =? 200 then
             res <~ lift (Py.get (resp_json r) "commit" (JObj [])) ;;
             lift (Py.get res "sha" JNull)
           else ret JNull
         else
           _ <~ lift (Py.get (resp_json r) "message" (JStr "Unknown error")) ;;
           raise (GitHubError ("Failed to delete image " +:+ filename)))%M
  end.

(** [[item["name"] for item in items if item["type"] == "file"]] *)
Fixpoint file_names (items : list json) : result (list json) :=
  match items with
  | [] => Ok []
  | item :: rest =>
      match Py.item item "type" with
      | Raise e => Raise e
      | Ok (JStr "file") =>
          match Py.item item "name" with
          | Raise e => Raise e
          | Ok name =>
              match file_names rest with
              | Ok names => Ok (name :: names)
              | Raise e => Raise e
              end
          end
      | Ok _ => file_names rest
      end
  end.

(** [list_images]: the empty list on every failure *)
Definition list_images : M S (list json) :=
  match images_path with
  | None => ret []
  | Some dir =>
      catch
        (r <~ send srv (get_request dir) ;;
         if status_code r =? 404 then ret []
         else if negb (status_code r =? 200) then ret []
         else
           match resp_json r with
           | JArr items => lift (file_names items)
           | _ => ret []
           end)%M
        (fun _ => ret [])
  end.

End Provider.

End GitHubProvider.


(** ** backend/app/routers/projects.py

    The [require_admin] dependency, the rate limiter and the activity
    provider live in modules of their own; the handlers are modelled from
    the point where their body starts, and the activity log entry they
    schedule is left out. *)

Module ProjectsRouter.
Import Config.

Section Router.
Context {S : Type} (lib : pylib) (settings : Settings) (srv : server S)
        (src : entropy).

(** the elements of a list of names that can be equal to a [str] *)
Definition names (l : list json) : list string :=
  omap (fun v => match v with JStr s => Some s | _ => None end) l.

(** [upload_project_image] *)
Definition upload_project_image (file : UploadFile) (projectName : string) : M S json :=
  let '(is_valid, error_msg) := ImageService.validate_image file in
  if negb is_valid then raise (HTTPException 400 error_msg)
  else
    (image_bytes <~ lift (ImageService.convert_to_webp lib file) ;;
     existing_images <~ GitHubProvider.list_images settings srv ;;
     filename <~ lift_rand
       (ImageService.generate_unique_filename src projectName (names existing_images)) ;;
     _ <~ catch (GitHubProvider.upload_image lib settings srv filename image_bytes)
                (fun _ => raise (HTTPException 500 "Failed to upload image to GitHub")) ;;
     let image_url := "public/projects/" +:+ filename in
     ret (JObj [("status", JStr "success");
                ("imageUrl", JStr image_url);
                ("filename", JStr filename)]))%M.

(** [{p.get("imageUrl") for p in projects
      if p.get("imageUrl") and p["imageUrl"].startswith("public/projects/")}] *)
Fixpoint image_urls (projects : list json) : result (gset string) :=
  match projects with
  | [] => Ok ∅
  | p :: rest =>
      match Py.get p "imageUrl" JNull with
      | Raise e => Raise e
      | Ok v =>
          if Py.truthy v then
            match v with
            | JStr url =>
                match image_urls rest with
                | Raise e => Raise e
                | Ok urls =>
                    if PyStr.startswith "public/projects/" url
                    then Ok ({[ url ]} ∪ urls) else Ok urls
                end
            | _ => Raise AttributeError
            end
          else image_urls rest
      end
  end.

(** iterating over a request value: only a list yields projects (the
    items of a string or the keys of an object have no [get], a number
    is not iterable); an empty string or object yields nothing *)
Definition iterate (v : json) : result (list json) :=
  match v with
  | JArr items => Ok items
  | JStr EmptyString => Ok []
  | JObj [] => Ok []
  | JStr _ | JObj _ => Raise AttributeError
  | _ => Raise TypeError
  end.

(** the filenames whose deletion is asked for *)
Definition images_to_delete (new_projects old_projects : json) : result (gset string) :=
  match iterate new_projects with
  | Raise e => Raise e
  | Ok news =>
      match image_urls news with
      | Raise e => Raise e
      | Ok new_image_urls =>
          match iterate old_projects with
          | Raise e => Raise e
          | Ok olds =>
              match image_urls olds with
              | Raise e => Raise e
              | Ok old_image_urls => Ok (old_image_urls ∖ new_image_urls)
              end
          end
      end
  end.

(** [_cleanup_deleted_images]: no exception leaves it *)
Definition _cleanup_deleted_images (new_projects old_projects : json) : M S unit :=
  catch
    (urls <~ lift (images_to_delete new_projects old_projects) ;;
     for_each (elements urls) (fun image_url =>
       let filename := PyStr.last_segment "/" image_url in
       catch (_ <~ GitHubProvider.delete_image settings srv filename ;; ret tt)
             (fun _ => ret tt)))%M
    (fun _ => ret tt).

(** [save_projects]; [req] is the request body, [username] the name of
    the authenticated user *)
Definition save_projects (req : json) (username : string) : M S json :=
  (projects <~ lift (Py.get req "projects" (JArr [])) ;;
   message <~ lift (Py.get req "message" JNull) ;;
   old_projects <~ lift (Py.get req "oldProjects" (JArr [])) ;;
   if negb (Py.is_list projects) then raise (HTTPException 400 "Projects must be a list")
   else
     (if Py.truthy old_projects
      then _cleanup_deleted_images projects old_projects
      else ret tt) ;;;
     let message := if Py.truthy message then message
                    else JStr ("Update by " +:+ username) in
     commit <~ GitHubProvider.save_projects lib settings srv projects message ;;
     ret (JObj [("status", JStr "success");
                ("message", JStr "Projects saved");
                ("commit", commit)]))%M.

(** [get_projects] *)
Definition get_projects : M S json :=
  (res <~ GitHubProvider.get_projects lib settings srv ;;
   let '(projects, commit) := res in
   ret (JObj [("status", JStr "success");
              ("projects", projects);
              ("commit", commit)]))%M.

End Router.

End ProjectsRouter.

(** ** backend/index.py *)

Module Index.

(** the module-level settings read from the environment *)
Record config := {
  JWT_SECRET : string;
  JWT_ALGORITHM : string;
  JWT_EXPIRATION_MINUTES : Z;
  JWT_REFRESH_THRESHOLD_MINUTES : Z;
  ADMIN_USERNAME : string;
  ACTIVITY_LOG_COLLECTION : string;
  COMMUNICATION_COLLECTION : string;
  GITHUB_BRANCH : string;
  GITHUB_REPO : string;
  GITHUB_PROJECTS_PATH : string;
  GITHUB_CONTACTS_PATH : string;
  GITHUB_PROJECT_IMAGES_PATH : option string;
  GITHUB_KNOWLEDGE_REPO : option string;
  GITHUB_KNOWLEDGE_PATH : option string;
  GITHUB_SYS_INS_REPO : option string;
  GITHUB_SYS_INS_PATH : option string
}.

(** an optional setting that is set and not empty *)
Definition configured (o : option string) : option string :=
  match o with
  | Some v => if PyStr.truthy v then Some v else None
  | None => None
  end.

(** [parse_github_path] *)
Definition parse_github_path (full_path : string) : result (string * string) :=
  match PyStr.split_max "/" 2 full_path with
  | owner :: name :: path :: _ => Ok (owner +:+ "/" +:+ name, path)
  | _ => Raise (ValueError ("Invalid GitHub path: " +:+ full_path))
  end.

(** *** JWT authentication

    The [jwt] library is modelled by what a token is: claims signed with
    a key under an algorithm, or text that is no token.  Encoding stores
    [datetime] claims as whole seconds. *)

Record payload := {
  sub : string;
  uid : string;
  role : string;
  iat : Z;      (* seconds *)
  exp : Z       (* seconds *)
}.

Inductive token :=
| Signed (key algorithm : string) (claims : payload)
| Malformed (text : string).

Definition microsecond : Z := 1000000.

(** [create_token]; [now] is the clock reading, in microseconds *)
Definition create_token (cfg : config) (now : Z) (user_id role : string) : token :=
  Signed (JWT_SECRET cfg) (JWT_ALGORITHM cfg)
    {| sub := user_id;
       uid := user_id;
       role := role;
       iat := now / microsecond;
       exp := (now + JWT_EXPIRATION_MINUTES cfg * 60 * microsecond) / microsecond |}.

(** [decode_token]: the signature is checked, then the expiry against
    the clock as a float number of seconds *)
Definition decode_token (cfg : config) (now : Z) (t : token) : result payload :=
  match t with
  | Signed key algorithm claims =>
      if String.eqb key (JWT_SECRET cfg) && String.eqb algorithm (JWT_ALGORITHM cfg) then
        if Qle_bool (inject_Z (exp claims)) (Binary64.int_truediv now microsecond)
        then Raise (HTTPException 401 "Token expired")
        else Ok claims
      else Raise (HTTPException 401 "Invalid token")
  | Malformed _ => Raise (HTTPException 401 "Invalid token")
  end.

(** the [Authorization] header of a request *)
Inductive authorization :=
| NoAuthorization
| Bearer (t : token)                 (* ["Bearer "] followed by the token *)
| OtherAuthorization (text : string).

(** the three clock readings of an authenticated request: inside
    [jwt.decode], in [require_admin], and in [create_token] *)
Record clock := {
  at_decode : Z;
  at_check : Z;
  at_issue : Z
}.

(** [(exp - now).total_seconds() / 60] *)
Definition remaining_minutes (exp_seconds now : Z) : Q :=
  Binary64.div (Binary64.int_truediv (exp_seconds * microsecond - now) microsecond)
               (Binary64.of_int 60).

(** [require_admin]: the user, and [request.state.new_token] when set *)
Definition require_admin (cfg : config) (clk : clock) (auth : authorization)
    : result payload * option token :=
  match auth with
  | Bearer t =>
      match decode_token cfg (at_decode clk) t with
      | Raise e => (Raise e, None)
      | Ok user =>
          let remaining := remaining_minutes (exp user) (at_check clk) in
          if negb (Qle_bool (inject_Z (JWT_REFRESH_THRESHOLD_MINUTES cfg)) remaining) then
            (Ok user, Some (create_token cfg (at_issue clk) (uid user) (role user)))
          else (Ok user, None)
      end
  | _ => (Raise (HTTPException 401 "Missing authorization header"), None)
  end.

Record http_response := {
  http_status : Z;
  http_body : json;
  X_New_Token : option token
}.

(** [add_new_token_header], given [request.state.new_token] (when set)
    and the response that [call_next] returned *)
Definition add_new_token_header (new_token : option token) (response : http_response)
    : http_response :=
  match new_token with
  | Some t => {| http_status := http_status response;
                 http_body := http_body response;
                 X_New_Token := Some t |}
  | None => response
  end.

Definition plain_response (status : Z) (body : json) : http_response :=
  {| http_status := status; http_body := body; X_New_Token := None |}.

(** a request to an endpoint that depends on [require_admin]: the
    endpoint gives the status and body of its response from the user; an
    [HTTPException] of the dependency becomes the response *)
Definition admin_request (cfg : config) (clk : clock) (auth : authorization)
    (endpoint : payload -> Z * json) : http_response :=
  let '(r, new_token) := require_admin cfg clk auth in
  let response :=
    match r with
    | Ok user => let '(status, body) := endpoint user in plain_response status body
    | Raise (HTTPException status detail) =>
        plain_response status (JObj [("detail", JStr detail)])
    | Raise _ =>
        plain_response 500 (JObj [("status", JStr "error");
                                  ("message", JStr "Internal server error")])
    end in
  add_new_token_header new_token response.

(** [logout] *)
Definition logout (user : payload) : Z * json :=
  (200, JObj [("status", JStr "success"); ("message", JStr "Logged out")]).

(** *** Image processing *)

Definition ALLOWED_EXTENSIONS : list string :=
  [".jpg"; ".jpeg"; ".png"; ".gif"; ".webp"; ".bmp"].
Definition MAX_IMAGE_SIZE : Z := 10 * 1024 * 1024.

(** [validate_image]: only the file name is looked at *)
Definition validate_image (file : UploadFile) : result unit :=
  match filename file with
  | None => Raise (HTTPException 400 "No filename provided")
  | Some name =>
      if negb (PyStr.truthy name) then Raise (HTTPException 400 "No filename provided")
      else
        let ext := PyStr.splitext_ext (PyStr.lower name) in
        if bool_decide (ext ∈ ALLOWED_EXTENSIONS) then Ok tt
        else Raise (HTTPException 400
               "Invalid file type. Allowed: .jpg, .jpeg, .png, .gif, .webp, .bmp")
  end.

(** [img.resize(new_size)] after [ratio = max_size / max(img.size)] and
    [new_size = (int(img.width * ratio), int(img.height * ratio))] *)
Definition scaled (max_size : Z) (img : image) : image :=
  let ratio := Binary64.int_truediv max_size (Z.max (width img) (height img)) in
  {| mode := mode img;
     width := Binary64.to_int (Binary64.mul (Binary64.of_int (width img)) ratio);
     height := Binary64.to_int (Binary64.mul (Binary64.of_int (height img)) ratio) |}.

(** [convert_to_webp]; nothing is caught here *)
Definition convert_to_webp (lib : pylib) (file : UploadFile) (max_size : Z)
    : result string :=
  let content := file_content file in
  if len content >? MAX_IMAGE_SIZE then
    Raise (HTTPException 400 "File too large. Max size: 10MB")
  else
    match Image_open lib content with
    | None => Raise (ValueError "cannot identify image file")
    | Some img =>
        let img := match mode img with
                   | RGBA | P => {| mode := RGB; width := width img; height := height img |}
                   | _ => img
                   end in
        let img := if Z.max (width img) (height img) >? max_size
                   then scaled max_size img else img in
        Ok (Image_save lib {| save_format := WEBP; save_quality := 85; save_image := img |})
    end.

Definition slug_char (c : ascii) : bool := PyStr.is_lower c || PyStr.is_digit c.

(** [generate_image_filename]: one draw, no name is compared with it *)
Definition generate_image_filename (src : entropy) (project_name : string) : rand string :=
  let slug :=
    PyStr.take 30 (PyStr.strip "-" (PyStr.replace_runs slug_char "-" (PyStr.lower project_name))) in
  (unique <- draw_hex src 4 ;;
   rand_ret (slug +:+ "-" +:+ unique +:+ ".webp"))%rand.

(** *** GitHub API client *)

Section Client.
Context {S : Type} (lib : pylib) (cfg : config) (srv : server S) (src : entropy).

(** [data["branch"] = GITHUB_BRANCH] *)
Definition with_branch (data : json) : json :=
  match data with
  | JObj fields => JObj (Py.set_item fields "branch" (JStr (GITHUB_BRANCH cfg)))
  | _ => data
  end.

Definition is_GET (m : http_method) : bool :=
  match m with GET => true | _ => false end.

(** the request sent for [method], [path], [data] and [repo] *)
Definition make_request (method : http_method) (path : string) (data : json)
    (repo : option string) : request :=
  let target_repo := default (GITHUB_REPO cfg) (configured repo) in
  let branch := PyStr.truthy (GITHUB_BRANCH cfg) in
  {| req_method := method;
     req_repo := target_repo;
     req_path := path;
     req_ref := if branch && is_GET method then Some (GITHUB_BRANCH cfg) else None;
     req_json := if branch && negb (is_GET method) && Py.truthy data
                 then with_branch data else data |}.

(** [github_request]: the parsed body, [None] on 404; for a DELETE the
    call is made with a [json] argument and raises, outside the two
    [except httpx...] clauses *)
Definition github_request (method : http_method) (path : string) (data : json)
    (repo : option string) : M S json :=
  (resp <~ catch (match method with
                  | DELETE => delete_with_json srv (make_request method path data repo)
                  | _ => send srv (make_request method path data repo)
                  end)
                 (fun e => match e with
                           | RequestError =>
                               raise (HTTPException 500 "Failed to connect to GitHub")
                           | _ => raise e
                           end) ;;
   let status := status_code resp in
   if status =? 404 then ret JNull
   else if status =? 401 then
     raise (HTTPException 401 "GitHub authentication failed. Check token permissions.")
   else if status =? 403 then
     error_msg <~ lift (Py.get (resp_json resp) "message" (JStr "Forbidden")) ;;
     match error_msg with
     | JStr text =>
         if PyStr.contains "rate limit" (PyStr.lower text)
         then raise (HTTPException 429 "GitHub API rate limit exceeded")
         else raise (HTTPException 403 ("GitHub access denied: " +:+ text))
     | _ => raise AttributeError
     end
   else if (200 <=? status) && (status <? 300) then ret (resp_json resp)
   else raise (HTTPException status "GitHub API error"))%M.

(** [github_get_file]: content and sha, both [None] when absent *)
Definition github_get_file (path : string) (repo : option string) : M S (json * json) :=
  (result <~ github_request GET path JNull repo ;;
   if negb (Py.truthy result) then ret (JNull, JNull)
   else
     c <~ lift (Py.item result "content") ;;
     content <~ lift (match c with
                      | JStr c => match b64decode lib c with
                                  | Some text => Ok text
                                  | None => Raise DecodeError
                                  end
                      | _ => Raise TypeError
                      end) ;;
     sha <~ lift (Py.item result "sha") ;;
     ret (JStr content, sha))%M.

(** the body of a write: the sha is added when one is given *)
Definition write_data (message content : string) (sha : json) : json :=
  let data := [("message", JStr message); ("content", JStr content)] in
  JObj (if Py.truthy sha then Py.set_item data "sha" sha else data).

(** [github_save_file] *)
Definition github_save_file (path content message : string) (sha : json)
    (repo : option string) : M S json :=
  github_request PUT path (write_data message (b64encode lib content) sha) repo.

(** [github_save_binary] *)
Definition github_save_binary (path binary_data message : string) (sha : json)
    (repo : option string) : M S json :=
  github_request PUT path (write_data message (b64encode lib binary_data) sha) repo.

(** [github_delete_file] *)
Definition github_delete_file (path message : string) (sha : json)
    (repo : option string) : M S json :=
  github_request DELETE path (JObj [("message", JStr message); ("sha", sha)]) repo.

(** [github_list_directory] *)
Definition github_list_directory (path : string) (repo : option string)
    : M S (list json) :=
  (result <~ github_request GET path JNull repo ;;
   match result with
   | JArr items => ret items
   | _ => ret []
   end)%M.

(** [sha[:7]] *)
Definition short (sha : json) : result json :=
  match sha with
  | JStr s => Ok (JStr (PyStr.take 7 s))
  | _ => Raise TypeError
  end.

(** [result.get("commit", {}).get("sha", "")[:7]] *)
Definition commit_of (saved : json) : result json :=
  match Py.get saved "commit" (JObj []) with
  | Raise e => Raise e
  | Ok commit =>
      match Py.get commit "sha" (JStr "") with
      | Raise e => Raise e
      | Ok sha => short sha
      end
  end.

Definition default_message (message : option string) : string :=
  match message with
  | Some m => if PyStr.truthy m then m else "Updated by portfolio manager"
  | None => "Updated by portfolio manager"
  end.

(** *** Routes: projects *)

(** [get_projects] *)
Definition get_projects : M S json :=
  (res <~ github_get_file (GITHUB_PROJECTS_PATH cfg) None ;;
   let '(content, sha) := res in
   match content with
   | JStr text =>
       if negb (PyStr.truthy text) then
         ret (JObj [("status", JStr "success"); ("projects", JArr []); ("commit", JNull)])
       else
         match json_loads lib text with
         | None => raise JSONDecodeError
         | Some projects =>
             commit <~ (if Py.truthy sha then lift (short sha) else ret JNull) ;;
             ret (JObj [("status", JStr "success");
                        ("projects", projects);
                        ("commit", commit)])
         end
   | _ => ret (JObj [("status", JStr "success"); ("projects", JArr []); ("commit", JNull)])
   end)%M.

(** the body of a [ProjectsSave] request: every project is a [dict] *)
Record ProjectsSave := {
  projects : list (list (string * json));
  message : option string;
  oldProjects : option (list (list (string * json)))
}.

Definition dicts (l : list (list (string * json))) : json := JArr (map JObj l).

(** [save_projects], up to its response *)
Definition save_projects (data : ProjectsSave) : M S json :=
  (res <~ github_get_file (GITHUB_PROJECTS_PATH cfg) None ;;
   let sha := res.2 in
   let content := json_dumps lib 2 (dicts (projects data)) in
   result <~ github_save_file (GITHUB_PROJECTS_PATH cfg) content
                              (default_message (message data)) sha None ;;
   commit <~ lift (commit_of result) ;;
   ret (JObj [("status", JStr "success");
              ("message", JStr "Projects saved");
              ("commit", commit)]))%M.

(** [{p.get("image", "").split("/")[-1] for p in projects if p.get("image")}] *)
Fixpoint image_names (l : list (list (string * json))) : result (gset string) :=
  match l with
  | [] => Ok ∅
  | p :: rest =>
      let v := default (JStr "") (Py.assoc "image" p) in
      if Py.truthy v then
        match v with
        | JStr path =>
            match image_names rest with
            | Ok names => Ok ({[ PyStr.last_segment "/" path ]} ∪ names)
            | Raise e => Raise e
            end
        | _ => Raise AttributeError
        end
      else image_names rest
  end.

(** the inner loop of the cleanup: for the first listed entry with the
    name, the delete is called with its listed sha *)
Fixpoint delete_listed (files : list json) (path filename : string) : M S unit :=
  match files with
  | [] => ret tt
  | f :: rest =>
      (name <~ lift (Py.get f "name" JNull) ;;
       match name with
       | JStr n =>
           if String.eqb n filename then
             sha <~ lift (Py.item f "sha") ;;
             _ <~ github_delete_file path ("Delete unused image: " +:+ filename) sha None ;;
             ret tt
           else delete_listed rest path filename
       | _ => delete_listed rest path filename
       end)%M
  end.

(** [cleanup_unused_images] *)
Definition cleanup_unused_images (new_projects old_projects : list (list (string * json)))
    : M S unit :=
  match configured (GITHUB_PROJECT_IMAGES_PATH cfg) with
  | None => ret tt
  | Some dir =>
      (new_images <~ lift (image_names new_projects) ;;
       old_images <~ lift (image_names old_projects) ;;
       let to_delete := old_images ∖ new_images in
       for_each (elements to_delete) (fun filename =>
         catch
           (let path := dir +:+ "/" +:+ filename in
            files <~ github_list_directory dir None ;;
            delete_listed files path filename)
           (fun _ => ret tt)))%M
  end.

(** a background task runs after the handler has returned; what it
    raises does not reach the response *)
Definition then_in_background (handler : M S json) (task : M S unit) : M S json :=
  (response <~ handler ;;
   _ <~ catch task (fun _ => ret tt) ;;
   ret response)%M.

(** the whole of a [/api/v1/projects/save] request (the activity log
    entry, which goes to the document database, is left out) *)
Definition save_projects_request (data : ProjectsSave) : M S json :=
  then_in_background (save_projects data)
    match oldProjects data, configured (GITHUB_PROJECT_IMAGES_PATH cfg) with
    | Some (_ :: _ as old), Some _ => cleanup_unused_images (projects data) old
    | _, _ => ret tt
    end.

(** [upload_project_image] *)
Definition upload_project_image (file : UploadFile) (projectName : string) : M S json :=
  match configured (GITHUB_PROJECT_IMAGES_PATH cfg) with
  | None => raise (HTTPException 400 "Image uploads not configured")
  | Some dir =>
      (_ <~ lift (validate_image file) ;;
       webp_data <~ lift (convert_to_webp lib file 1200) ;;
       filename <~ lift_rand (generate_image_filename src projectName) ;;
       let path := dir +:+ "/" +:+ filename in
       _ <~ github_save_binary path webp_data
              ("Upload project image: " +:+ filename) JNull None ;;
       let image_url := "/projects/" +:+ filename in
       ret (JObj [("status", JStr "success");
                  ("imageUrl", JStr image_url);
                  ("filename", JStr filename)]))%M
  end.

(** *** Routes: contacts *)

(** [save_contacts] *)
Definition save_contacts (contact : list (string * json)) (message : option string)
    : M S json :=
  (res <~ github_get_file (GITHUB_CONTACTS_PATH cfg) None ;;
   let sha := res.2 in
   let content := json_dumps lib 2 (JObj contact) in
   result <~ github_save_file (GITHUB_CONTACTS_PATH cfg) content
                              (default_message message) sha None ;;
   commit <~ lift (commit_of result) ;;
   ret (JObj [("status", JStr "success");
              ("message", JStr "Contacts saved");
              ("commit", commit)]))%M.

(** *** Routes: knowledge base and system instructions *)

Definition KNOWLEDGE_CATEGORIES : list string :=
  ["about_me"; "tech_stack"; "projects"; "contact"; "misc"].

(** [save_knowledge_category] *)
Definition save_knowledge_category (category content : string) (message : option string)
    : M S json :=
  match configured (GITHUB_KNOWLEDGE_PATH cfg) with
  | None => raise (HTTPException 400 "Knowledge base not configured")
  | Some dir =>
      if negb (bool_decide (category ∈ KNOWLEDGE_CATEGORIES)) then
        raise (HTTPException 400 "Invalid category")
      else
        let path := dir +:+ "/" +:+ category +:+ ".txt" in
        (res <~ github_get_file path (GITHUB_KNOWLEDGE_REPO cfg) ;;
         let sha := res.2 in
         result <~ github_save_file path content (default_message message) sha
                                    (GITHUB_KNOWLEDGE_REPO cfg) ;;
         commit <~ lift (commit_of result) ;;
         ret (JObj [("status", JStr "success");
                    ("message", JStr (category +:+ " saved"));
                    ("commit", commit)]))%M
  end.

(** [save_system_instructions] *)
Definition save_system_instructions (content : string) (message : option string)
    : M S json :=
  match configured (GITHUB_SYS_INS_PATH cfg) with
  | None => raise (HTTPException 400 "System instructions not configured")
  | Some path =>
      (res <~ github_get_file path (GITHUB_SYS_INS_REPO cfg) ;;
       let sha := res.2 in
       result <~ github_save_file path content (default_message message) sha
                                  (GITHUB_SYS_INS_REPO cfg) ;;
       commit <~ lift (commit_of result) ;;
       ret (JObj [("status", JStr "success");
                  ("message", JStr "System instructions saved");
                  ("commit", commit)]))%M
  end.

(** *** Routes: reading contacts, knowledge base and system instructions *)

(** [get_contacts] *)
Definition get_contacts : M S json :=
  (res <~ github_get_file (GITHUB_CONTACTS_PATH cfg) None ;;
   let '(content, sha) := res in
   let empty := JObj [("status", JStr "success"); ("contact", JObj []); ("commit", JNull)] in
   match content with
   | JStr text =>
       if negb (PyStr.truthy text) then ret empty
       else
         match json_loads lib text with
         | None => raise JSONDecodeError
         | Some data =>
             let contact := match data with
                            | JObj fields => default (JObj []) (Py.assoc "contact" fields)
                            | _ => data
                            end in
             commit <~ (if Py.truthy sha then lift (short sha) else ret JNull) ;;
             ret (JObj [("status", JStr "success");
                        ("contact", contact);
                        ("commit", commit)])
         end
   | _ => ret empty
   end)%M.

(** [content or ""] *)
Definition or_empty (content : json) : json :=
  if Py.truthy content then content else JStr "".

(** [get_knowledge_category] *)
Definition get_knowledge_category (category : string) : M S json :=
  match configured (GITHUB_KNOWLEDGE_PATH cfg) with
  | None => raise (HTTPException 400 "Knowledge base not configured")
  | Some dir =>
      if negb (bool_decide (category ∈ KNOWLEDGE_CATEGORIES)) then
        raise (HTTPException 400
          "Invalid category. Valid: ['about_me', 'tech_stack', 'projects', 'contact', 'misc']")
      else
        let path := dir +:+ "/" +:+ category +:+ ".txt" in
        (res <~ github_get_file path (GITHUB_KNOWLEDGE_REPO cfg) ;;
         let '(content, sha) := res in
         ret (JObj [("status", JStr "success");
                    ("category", JStr category);
                    ("content", or_empty content);
                    ("sha", sha)]))%M
  end.

(** [get_system_instructions] *)
Definition get_system_instructions : M S json :=
  match configured (GITHUB_SYS_INS_PATH cfg) with
  | None => raise (HTTPException 400 "System instructions not configured")
  | Some path =>
      (res <~ github_get_file path (GITHUB_SYS_INS_REPO cfg) ;;
       let '(content, sha) := res in
       ret (JObj [("status", JStr "success");
                  ("content", or_empty content);
                  ("sha", sha)]))%M
  end.

End Client.

(** *** Routes: communication (contact form submissions)

    The handlers act on the document database.  The id of a new document
    and the clock readings are given. *)

Section Communication.
Context (cfg : config).

(** a validated [CommunicationSubmit] body *)
Record CommunicationSubmit := {
  name : string;
  email : string;
  message_text : string
}.

(** [log_activity]: nothing it raises leaves it *)
Definition log_activity (log_id : string) (now : Z) (action user_id resource_type : string)
    (resource_id : option string) (details : list (string * value))
    (d : Firestore.db) : Firestore.db :=
  (Firestore.add (ACTIVITY_LOG_COLLECTION cfg) log_id
     [("type", VStr action);
      ("user_id", VStr user_id);
      ("resource_type", VStr resource_type);
      ("resource_id", from_option VStr VNull resource_id);
      ("details", VMap details);
      ("timestamp", VTime now)] d).2.

(** [submit_communication]; [now1] and [now2] are the two clock readings *)
Definition submit_communication (doc_id : string) (now1 now2 : Z)
    (data : CommunicationSubmit) (d : Firestore.db) : json * Firestore.db :=
  let d' := Firestore.set (COMMUNICATION_COLLECTION cfg) doc_id
              [("name", VStr (name data));
               ("email", VStr (email data));
               ("message", VStr (message_text data));
               ("status", VStr "new");
               ("created_at", VTime now1);
               ("updated_at", VTime now2)] d in
  (JObj [("status", JStr "success");
         ("message", JStr "Your message has been received!");
         ("record_id", JStr doc_id)], d').

(** [data[field] = data[field].isoformat()] for a [datetime] *)
Definition isoformat_field (field : string) (data : gmap string value)
    : gmap string value :=
  match data !! field with
  | Some (VTime t) => <[field := VIso t]> data
  | _ => data
  end.

Definition record_of (doc : string * gmap string value) : gmap string value :=
  let data := <["id" := VStr doc.1]> doc.2 in
  isoformat_field "updated_at" (isoformat_field "created_at" data).

(** the query of [get_communication] *)
Definition communication_query (status : option string) : Firestore.query :=
  let query := Firestore.collection (COMMUNICATION_COLLECTION cfg) in
  let query :=
    match status with
    | Some st =>
        if PyStr.truthy st && bool_decide (st ∈ ["new"; "done"; "dismissed"])
        then Firestore.where_ "status" (VStr st) query
        else query
    | None => query
    end in
  Firestore.limit 100 (Firestore.order_by_desc "created_at" query).

(** [get_communication]: the records and their count *)
Definition get_communication (status : option string) (d : Firestore.db)
    : list (gmap string value) * Z :=
  let records := map record_of (Firestore.stream (communication_query status) d) in
  (records, Z.of_nat (length records)).

(** [update_communication_status] with its background task; [status]
    has passed the pattern of [StatusUpdate] *)
Definition update_communication_status (record_id status : string) (now : Z)
    (user_uid log_id : string) (log_now : Z) (d : Firestore.db)
    : result json * Firestore.db :=
  match Firestore.update (COMMUNICATION_COLLECTION cfg) record_id
          [("status", VStr status); ("updated_at", VTime now)] d with
  | (Raise e, d') => (Raise e, d')
  | (Ok _, d') =>
      (Ok (JObj [("status", JStr "success");
                 ("message", JStr ("Record marked as " +:+ status))]),
       log_activity log_id log_now "communication_updated" user_uid "communication"
         (Some record_id) [("status", VStr status)] d')
  end.

(** the pattern of [StatusUpdate] *)
Definition valid_status (status : string) : bool :=
  bool_decide (status ∈ ["new"; "done"; "dismissed"]).

(** [delete_communication] with its background task *)
Definition delete_communication (record_id user_uid log_id : string) (log_now : Z)
    (d : Firestore.db) : json * Firestore.db :=
  let d' := Firestore.delete (COMMUNICATION_COLLECTION cfg) record_id d in
  (JObj [("status", JStr "success"); ("message", JStr "Record deleted")],
   log_activity log_id log_now "communication_deleted" user_uid "communication"
     (Some record_id) [] d').

End Communication.

(** *** Routes: login

    [sha256] stands for [hashlib.sha256(s.encode()).hexdigest()]; the
    hash of the administrator's password is computed when the module is
    loaded. *)

Section Login.
Context (cfg : config) (sha256 : string -> string) (ADMIN_PASSWORD_HASH : string).

(** [verify_password] *)
Definition verify_password (password : string) : bool :=
  String.eqb (sha256 password) ADMIN_PASSWORD_HASH.

Record LoginRequest := {
  username : string;
  password : string
}.

(** the body of a successful login *)
Record LoginResponse := {
  login_token : token;
  login_user : json
}.

(** [login]; [now] is the clock reading of [create_token], [log_id] and
    [log_now] the id and the time of the activity entry *)
Definition login (now : Z) (log_id : string) (log_now : Z) (data : LoginRequest)
    (d : Firestore.db) : result LoginResponse * Firestore.db :=
  if negb (String.eqb (username data) (ADMIN_USERNAME cfg))
     || negb (verify_password (password data))
  then (Raise (HTTPException 401 "Invalid credentials"), d)
  else
    let t := create_token cfg now (ADMIN_USERNAME cfg) "admin" in
    let d' := (Firestore.add (ACTIVITY_LOG_COLLECTION cfg) log_id
                 [("type", VStr "login");
                  ("user_id", VStr (ADMIN_USERNAME cfg));
                  ("timestamp", VTime log_now);
                  ("details", VMap [])] d).2 in
    (Ok {| login_token := t;
           login_user := JObj [("uid", JStr (ADMIN_USERNAME cfg));
                               ("username", JStr (ADMIN_USERNAME cfg));
                               ("role", JStr "admin")] |}, d').

End Login.

End Index.

(** ** Writes conditioned on the revision last read

    The exchanges of an operation, in order.  A write (a PUT or a DELETE)
    is conditioned when the exchange just before it is a GET of the same
    repository and path, and the write carries the revision that the
    client took from the answer to that GET, or none when it took none. *)

Module Conditioned.





(** what [GitHubProvider._get_sha] takes from an answer *)
Definition provider_read (answer : option response) : json :=
  match answer with
  | Some r =>
      if status_code r =? 200 then
        match Py.get (resp_json r) "sha" JNull with
        | Ok sha => sha
        | Raise _ => JNull
        end
      else JNull
  | None => JNull
  end.





End Conditioned.

(** * Properties *)

(** ** Rounding to binary64 *)

Module Binary64Facts.
Import Binary64.
Local Open Scope Q_scope.

Lemma pow2_pos e : 0 < pow2 e.
Proof. apply Qpower_0_lt. reflexivity. Qed.

Lemma pow2_add a b : pow2 (a + b) == pow2 a * pow2 b.
Proof. apply Qpower_plus. discriminate. Qed.

Lemma pow2_le a b : (a <= b)%Z -> pow2 a <= pow2 b.
Proof. intros H. apply Qpower_le_compat_l; [exact H|discriminate]. Qed.

Lemma pow2_Z n : (0 <= n)%Z -> pow2 n == inject_Z (2 ^ n).
Proof. intros H. unfold pow2. rewrite Zpower_Qpower by exact H. reflexivity. Qed.

Lemma pow2_succ a : pow2 (a + 1) == 2 * pow2 a.
Proof. rewrite pow2_add. change (pow2 1) with 2. ring. Qed.

Lemma log2_bounds (a : Z) : (0 < a)%Z ->
  pow2 (Z.log2 a) <= inject_Z a /\ inject_Z a < 2 * pow2 (Z.log2 a).
Proof.
  intros Ha. pose proof (Z.log2_spec a Ha) as [H1 H2].
  pose proof (Z.log2_nonneg a) as Hn.
  rewrite pow2_Z by exact Hn. split.
  - rewrite <- Zle_Qle. exact H1.
  - replace (Z.succ (Z.log2 a)) with (Z.log2 a + 1)%Z in H2 by lia.
    rewrite Z.pow_add_r in H2 by lia. change (2 ^ 1)%Z with 2%Z in H2.
    change 2 with (inject_Z 2). rewrite <- inject_Z_mult, <- Zlt_Qlt. lia.
Qed.

Lemma ilog2_spec (x : Q) : 0 < x -> pow2 (ilog2 x) <= x /\ x < pow2 (ilog2 x + 1).
Proof.
  intros Hx. destruct x as [a b]. unfold ilog2. cbn [Qnum Qden].
  assert (Ha : (0 < a)%Z).
  { unfold Qlt in Hx. cbn in Hx. lia. }
  destruct (log2_bounds a Ha) as [A1 A2].
  destruct (log2_bounds (Zpos b) eq_refl) as [B1 B2].
  set (la := Z.log2 a) in *. set (lb := Z.log2 (Zpos b)) in *.
  pose proof (pow2_pos la) as Pa. pose proof (pow2_pos lb) as Pb.
  assert (Hk : pow2 (la - lb) * pow2 lb == pow2 la).
  { rewrite <- pow2_add. replace (la - lb + lb)%Z with la by lia. reflexivity. }
  assert (Hx' : (a # b) * inject_Z (Zpos b) == inject_Z a).
  { unfold Qeq, Qmult, inject_Z. cbn. lia. }
  pose proof (pow2_pos (la - lb)) as Pk.
  assert (Bpos : 0 < inject_Z (Zpos b)) by reflexivity.
  set (B := inject_Z (Z.pos b)) in *. set (A := inject_Z a) in *.
  set (X := a # b) in *.
  destruct (Qle_bool (pow2 (la - lb)) X) eqn:Hc.
  - apply Qle_bool_iff in Hc. split; [exact Hc|].
    rewrite pow2_succ. set (K := pow2 (la - lb)) in *.
    set (PA := pow2 la) in *. set (PB := pow2 lb) in *. nra.
  - assert (Hlt : X < pow2 (la - lb)).
    { apply Qnot_le_lt. intros H. apply Qle_bool_iff in H. congruence. }
    replace (la - lb - 1 + 1)%Z with (la - lb)%Z by lia. split; [|exact Hlt].
    assert (Hh : 2 * pow2 (la - lb - 1) == pow2 (la - lb)).
    { rewrite <- pow2_succ. replace (la - lb - 1 + 1)%Z with (la - lb)%Z by lia. reflexivity. }
    pose proof (pow2_pos (la - lb - 1)) as Pk1.
    set (K := pow2 (la - lb)) in *. set (K1 := pow2 (la - lb - 1)) in *.
    set (PA := pow2 la) in *. set (PB := pow2 lb) in *. nra.
Qed.

Lemma rnd_even_cases (q : Q) :
  (rnd_even q = Qfloor q /\ q - inject_Z (Qfloor q) <= 1 # 2)
  \/ (rnd_even q = (Qfloor q + 1)%Z /\ 1 # 2 <= q - inject_Z (Qfloor q)).
Proof.
  unfold rnd_even.
  destruct (Qcompare_spec (q - inject_Z (Qfloor q)) (1 # 2)) as [H|H|H].
  - destruct (Z.even (Qfloor q)); [left|right]; (split; [reflexivity|]);
      rewrite H; apply Qle_refl.
  - left. split; [reflexivity|]. apply Qlt_le_weak. exact H.
  - right. split; [reflexivity|]. apply Qlt_le_weak. exact H.
Qed.

Lemma Qfloor_ge_Z (z : Z) (q : Q) : inject_Z z <= q -> (z <= Qfloor q)%Z.
Proof. intros H. rewrite <- (Qfloor_Z z). apply Qfloor_resp_le. exact H. Qed.

Lemma rnd_even_ge (z : Z) (q : Q) : inject_Z z <= q -> (z <= rnd_even q)%Z.
Proof.
  intros H. pose proof (Qfloor_ge_Z z q H).
  destruct (rnd_even_cases q) as [[-> _]|[-> _]]; lia.
Qed.

Lemma rnd_even_le (z : Z) (q : Q) : q <= inject_Z z -> (rnd_even q <= z)%Z.
Proof.
  intros H. pose proof (Qfloor_le q) as Hf.
  assert (Hfz : (Qfloor q <= z)%Z).
  { rewrite Zle_Qle. eapply Qle_trans; [exact Hf|exact H]. }
  destruct (rnd_even_cases q) as [[-> _]|[-> Hhalf]]; [exact Hfz|].
  destruct (Z.eq_dec (Qfloor q) z) as [E|NE]; [|lia].
  exfalso. rewrite E in Hhalf. lra.
Qed.

Lemma rnd_even_near (q : Q) :
  q - (1 # 2) <= inject_Z (rnd_even q) /\ inject_Z (rnd_even q) <= q + (1 # 2).
Proof.
  pose proof (Qfloor_le q) as H1. pose proof (Qlt_floor q) as H2.
  rewrite inject_Z_plus in H2. change (inject_Z 1) with 1 in H2.
  destruct (rnd_even_cases q) as [[-> H]|[-> H]].
  - split; lra.
  - rewrite inject_Z_plus. change (inject_Z 1) with 1. split; lra.
Qed.

(** the scaled significand of a positive number lies in [2^52, 2^53) *)
Lemma scaled_range (x : Q) : 0 < x ->
  let e := (ilog2 x - (prec - 1))%Z in
  inject_Z (2 ^ 52) * pow2 e <= x /\ x < inject_Z (2 ^ 53) * pow2 e
  /\ inject_Z (2 ^ 52) <= x / pow2 e.
Proof.
  intros Hx e. destruct (ilog2_spec x Hx) as [L U].
  pose proof (pow2_pos e) as Pe.
  assert (E1 : pow2 (ilog2 x) == inject_Z (2 ^ 52) * pow2 e).
  { rewrite <- (pow2_Z 52) by lia. rewrite <- pow2_add.
    unfold e, prec. replace (52 + (ilog2 x - (53 - 1)))%Z with (ilog2 x) by lia. reflexivity. }
  assert (E2 : pow2 (ilog2 x + 1) == inject_Z (2 ^ 53) * pow2 e).
  { rewrite <- (pow2_Z 53) by lia. rewrite <- pow2_add.
    unfold e, prec. replace (53 + (ilog2 x - (53 - 1)))%Z with (ilog2 x + 1)%Z by lia. reflexivity. }
  rewrite E1 in L. rewrite E2 in U. split; [exact L|]. split; [exact U|].
  apply Qle_shift_div_l; [exact Pe|exact L].
Qed.

Lemma RNpos_eq (x : Q) :
  RNpos x = inject_Z (rnd_even (x / pow2 (ilog2 x - (prec - 1)))) * pow2 (ilog2 x - (prec - 1)).
Proof. reflexivity. Qed.

(** relative error of rounding a positive number *)
Lemma RNpos_error (x : Q) : 0 < x ->
  x * (1 - (1 # 2 ^ 53)) <= RNpos x /\ RNpos x <= x * (1 + (1 # 2 ^ 53)).
Proof.
  intros Hx. rewrite RNpos_eq.
  destruct (scaled_range x Hx) as (L & U & _).
  set (e := (ilog2 x - (prec - 1))%Z) in *.
  pose proof (pow2_pos e) as Pe.
  destruct (rnd_even_near (x / pow2 e)) as [N1 N2].
  set (m := inject_Z (rnd_even (x / pow2 e))) in *.
  assert (Hy : x / pow2 e * pow2 e == x).
  { field. intros H. rewrite H in Pe. discriminate Pe. }
  set (y := x / pow2 e) in *. set (p := pow2 e) in *.
  change (inject_Z (2 ^ 52)) with (4503599627370496 # 1) in L.
  change (1 # 2 ^ 53) with (1 # 9007199254740992).
  split; nra.
Qed.

Lemma RNpos_pos (x : Q) : 0 < x -> 0 < RNpos x.
Proof.
  intros Hx. destruct (RNpos_error x Hx) as [L _].
  eapply Qlt_le_trans; [|exact L].
  change (1 # 2 ^ 53) with (1 # 9007199254740992). nra.
Qed.

(** rounding does not cross a representable number *)
Lemma RNpos_le_rep (x : Q) (M E : Z) :
  0 < x -> (M <= 2 ^ 53)%Z -> x <= inject_Z M * pow2 E ->
  RNpos x <= inject_Z M * pow2 E.
Proof.
  intros Hx HM Hle. rewrite RNpos_eq.
  destruct (scaled_range x Hx) as (L & U & Ly).
  set (e := (ilog2 x - (prec - 1))%Z) in *.
  pose proof (pow2_pos e) as Pe. pose proof (pow2_pos E) as PE.
  assert (Hy : x / pow2 e * pow2 e == x).
  { field. intros H. rewrite H in Pe. discriminate Pe. }
  destruct (Z_lt_le_dec E e) as [Hlt|Hge].
  - (* the bound is at most 2^(52+e) *)
    assert (HE : pow2 E * 2 <= pow2 e).
    { rewrite Qmult_comm, <- pow2_succ. apply pow2_le. lia. }
    assert (HM' : inject_Z M <= inject_Z (2 ^ 53)) by (rewrite <- Zle_Qle; exact HM).
    assert (Hm : (rnd_even (x / pow2 e) <= 2 ^ 52)%Z).
    { apply rnd_even_le. apply Qle_shift_div_r; [exact Pe|].
      change (inject_Z (2 ^ 52)) with (4503599627370496 # 1) in *.
      change (inject_Z (2 ^ 53)) with (9007199254740992 # 1) in *.
      set (p := pow2 e) in *. set (q := pow2 E) in *. set (m := inject_Z M) in *. nra. }
    rewrite Zle_Qle in Hm.
    change (inject_Z (2 ^ 52)) with (4503599627370496 # 1) in *.
    set (r := inject_Z (rnd_even (x / pow2 e))) in *.
    set (p := pow2 e) in *. set (q := pow2 E) in *. set (m := inject_Z M) in *. nra.
  - (* the bound is an integer multiple of 2^e *)
    assert (Hd : pow2 E == inject_Z (2 ^ (E - e)) * pow2 e).
    { rewrite <- pow2_Z by lia. rewrite <- pow2_add.
      replace (E - e + e)%Z with E by lia. reflexivity. }
    assert (Hm : (rnd_even (x / pow2 e) <= M * 2 ^ (E - e))%Z).
    { apply rnd_even_le. apply Qle_shift_div_r; [exact Pe|].
      rewrite inject_Z_mult. rewrite Hd in Hle. rewrite Qmult_assoc in Hle. exact Hle. }
    rewrite Zle_Qle in Hm. rewrite inject_Z_mult in Hm. rewrite Hd.
    set (r := inject_Z (rnd_even (x / pow2 e))) in *.
    set (p := pow2 e) in *. set (m := inject_Z M) in *.
    set (k := inject_Z (2 ^ (E - e))) in *. nra.
Qed.

Lemma RNpos_ge_rep (x : Q) (M E : Z) :
  0 < x -> (M <= 2 ^ 53)%Z -> inject_Z M * pow2 E <= x ->
  inject_Z M * pow2 E <= RNpos x.
Proof.
  intros Hx HM Hle. rewrite RNpos_eq.
  destruct (scaled_range x Hx) as (L & U & Ly).
  set (e := (ilog2 x - (prec - 1))%Z) in *.
  pose proof (pow2_pos e) as Pe. pose proof (pow2_pos E) as PE.
  assert (Hy : x / pow2 e * pow2 e == x).
  { field. intros H. rewrite H in Pe. discriminate Pe. }
  assert (H52 : (2 ^ 52 <= rnd_even (x / pow2 e))%Z) by (apply rnd_even_ge; exact Ly).
  rewrite Zle_Qle in H52.
  destruct (Z_lt_le_dec E e) as [Hlt|Hge].
  - assert (HE : pow2 E * 2 <= pow2 e).
    { rewrite Qmult_comm, <- pow2_succ. apply pow2_le. lia. }
    assert (HM' : inject_Z M <= inject_Z (2 ^ 53)) by (rewrite <- Zle_Qle; exact HM).
    change (inject_Z (2 ^ 52)) with (4503599627370496 # 1) in *.
    change (inject_Z (2 ^ 53)) with (9007199254740992 # 1) in *.
    set (r := inject_Z (rnd_even (x / pow2 e))) in *.
    set (p := pow2 e) in *. set (q := pow2 E) in *. set (m := inject_Z M) in *.
    destruct (Qlt_le_dec m 0) as [Hneg|Hpos]; nra.
  - assert (Hd : pow2 E == inject_Z (2 ^ (E - e)) * pow2 e).
    { rewrite <- pow2_Z by lia. rewrite <- pow2_add.
      replace (E - e + e)%Z with E by lia. reflexivity. }
    assert (Hm : (M * 2 ^ (E - e) <= rnd_even (x / pow2 e))%Z).
    { apply rnd_even_ge. apply Qle_shift_div_l; [exact Pe|].
      rewrite inject_Z_mult. rewrite Hd in Hle. rewrite Qmult_assoc in Hle. exact Hle. }
    rewrite Zle_Qle in Hm. rewrite inject_Z_mult in Hm. rewrite Hd.
    set (r := inject_Z (rnd_even (x / pow2 e))) in *.
    set (p := pow2 e) in *. set (m := inject_Z M) in *.
    set (k := inject_Z (2 ^ (E - e))) in *. nra.
Qed.

Lemma RN_le_rep (x f : Q) : representable f -> x <= f -> RN x <= f.
Proof.
  intros (M & E & HM & Hf) Hle. unfold RN.
  pose proof (pow2_pos E) as PE.
  destruct (Qcompare_spec x 0) as [H0|Hneg|Hpos].
  - rewrite <- H0. exact Hle.
  - destruct (Qlt_le_dec f 0) as [Hf0|Hf0].
    + (* both negative: round the opposites *)
      assert (Hx' : 0 < - x) by lra.
      assert (Hb : inject_Z (- M) * pow2 E <= - x).
      { rewrite inject_Z_opp. rewrite Hf in Hle. lra. }
      pose proof (RNpos_ge_rep (- x) (- M) E Hx' ltac:(lia) Hb) as H.
      rewrite inject_Z_opp in H. rewrite Hf. lra.
    + pose proof (RNpos_pos (- x) ltac:(lra)). lra.
  - rewrite Hf. apply RNpos_le_rep; [exact Hpos|lia|]. rewrite <- Hf. exact Hle.
Qed.

Lemma RN_ge_rep (x f : Q) : representable f -> f <= x -> f <= RN x.
Proof.
  intros (M & E & HM & Hf) Hle. unfold RN.
  pose proof (pow2_pos E) as PE.
  destruct (Qcompare_spec x 0) as [H0|Hneg|Hpos].
  - rewrite <- H0. exact Hle.
  - assert (Hx' : 0 < - x) by lra.
    assert (Hb : - x <= inject_Z (- M) * pow2 E).
    { rewrite inject_Z_opp. rewrite Hf in Hle. lra. }
    pose proof (RNpos_le_rep (- x) (- M) E Hx' ltac:(lia) Hb) as H.
    rewrite inject_Z_opp in H. rewrite Hf. lra.
  - destruct (Qlt_le_dec 0 f) as [Hf0|Hf0].
    + rewrite Hf. apply RNpos_ge_rep; [exact Hpos|lia|]. rewrite <- Hf. exact Hle.
    + pose proof (RNpos_pos x Hpos). lra.
Qed.

Lemma RN_nonneg_error (x : Q) : 0 <= x -> 0 <= RN x /\ RN x <= x * (1 + (1 # 2 ^ 53)).
Proof.
  intros Hx. unfold RN.
  change (1 # 2 ^ 53) with (1 # 9007199254740992).
  destruct (Qcompare_spec x 0) as [H0|Hneg|Hpos].
  - rewrite H0. split; lra.
  - lra.
  - pose proof (RNpos_pos x Hpos). destruct (RNpos_error x Hpos) as [_ U].
    change (1 # 2 ^ 53) with (1 # 9007199254740992) in U. split; lra.
Qed.

Lemma representable_Z (n : Z) : (Z.abs n <= 2 ^ 53)%Z -> representable (inject_Z n).
Proof. intros H. exists n, 0%Z. split; [exact H|]. change (pow2 0) with 1. ring. Qed.

Lemma representable_dyadic (n k : Z) :
  (Z.abs n <= 2 ^ 53)%Z -> representable (inject_Z n * pow2 k).
Proof. intros H. exists n, k. split; [exact H|reflexivity]. Qed.

Lemma RN_Z (n : Z) : (Z.abs n <= 2 ^ 53)%Z -> RN (inject_Z n) == inject_Z n.
Proof.
  intros H. apply Qle_antisym.
  - apply RN_le_rep; [apply representable_Z; exact H|apply Qle_refl].
  - apply RN_ge_rep; [apply representable_Z; exact H|apply Qle_refl].
Qed.
End Binary64Facts.

Module AuthFacts.
Import Binary64 Binary64Facts Index.
Local Open Scope Q_scope.

Lemma inject_Z_minus (a b : Z) : inject_Z (a - b) == inject_Z a - inject_Z b.
Proof. unfold Z.sub. rewrite inject_Z_plus, inject_Z_opp. reflexivity. Qed.

Lemma of_int_60 : of_int 60 == 60.
Proof. vm_compute. reflexivity. Qed.

(** the float comparison of [require_admin] decides the exact one *)
Lemma remaining_below_threshold (exp_seconds now T : Z) :
  (Z.abs T <= 2 ^ 26)%Z ->
  Qle_bool (inject_Z T) (remaining_minutes exp_seconds now) = false
  <-> (exp_seconds * microsecond - now < T * 60 * microsecond)%Z.
Proof.
  intros HT. unfold remaining_minutes, div, int_truediv.
  set (d := (exp_seconds * microsecond - now)%Z).
  pose proof of_int_60 as H60. set (c := of_int 60) in *.
  set (x := inject_Z d / inject_Z microsecond).
  assert (Hx : x * 1000000 == inject_Z d).
  { unfold x, microsecond. change (inject_Z 1000000) with 1000000. field. }
  assert (Hq : forall y, y / c * 60 == y).
  { intros y. rewrite H60. field. }
  split.
  - intros Hb.
    destruct (Z_lt_le_dec d (T * 60 * microsecond)) as [Hlt|Hge]; [exact Hlt|exfalso].
    assert (Habs : Qle_bool (inject_Z T) (RN (RN x / c)) = true); [|congruence].
    apply Qle_bool_iff.
    assert (H1 : inject_Z (T * 60) <= RN x).
    { apply RN_ge_rep; [apply representable_Z; lia|].
      rewrite Zle_Qle in Hge. unfold microsecond in Hge.
      rewrite !inject_Z_mult in Hge. rewrite inject_Z_mult.
      change (inject_Z 60) with 60 in *. change (inject_Z 1000000) with 1000000 in Hge.
      lra. }
    apply RN_ge_rep; [apply representable_Z; lia|].
    rewrite inject_Z_mult in H1. change (inject_Z 60) with 60 in H1.
    pose proof (Hq (RN x)). lra.
  - intros Hlt.
    destruct (Qle_bool (inject_Z T) (RN (RN x / c))) eqn:Hb; [exfalso|reflexivity].
    apply Qle_bool_iff in Hb.
    assert (Hd : (d <= T * 60 * microsecond - 1)%Z) by lia.
    rewrite Zle_Qle in Hd. unfold microsecond in Hd.
    rewrite inject_Z_minus, !inject_Z_mult in Hd.
    change (inject_Z 60) with 60 in Hd. change (inject_Z 1000000) with 1000000 in Hd.
    change (inject_Z 1) with 1 in Hd.
    assert (H1 : RN x <= inject_Z (T * 60 * 2 ^ 20 - 1) * pow2 (-20)).
    { apply RN_le_rep; [apply representable_dyadic; lia|].
      rewrite inject_Z_minus, !inject_Z_mult.
      change (inject_Z 60) with 60. change (inject_Z (2 ^ 20)) with 1048576.
      change (inject_Z 1) with 1. change (pow2 (-20)) with (1 # 1048576). lra. }
    assert (H2 : RN (RN x / c) <= inject_Z (T * 2 ^ 26 - 1) * pow2 (-26)).
    { apply RN_le_rep; [apply representable_dyadic; lia|].
      rewrite inject_Z_minus, !inject_Z_mult in *.
      change (inject_Z 60) with 60 in *. change (inject_Z (2 ^ 20)) with 1048576 in *.
      change (inject_Z (2 ^ 26)) with 67108864.
      change (inject_Z 1) with 1 in *. change (pow2 (-20)) with (1 # 1048576) in *.
      change (pow2 (-26)) with (1 # 67108864).
      pose proof (Hq (RN x)). lra. }
    rewrite inject_Z_minus, !inject_Z_mult in H2.
    change (inject_Z (2 ^ 26)) with 67108864 in H2. change (inject_Z 1) with 1 in H2.
    change (pow2 (-26)) with (1 # 67108864) in H2. lra.
Qed.
End AuthFacts.

Module TokenFacts.
Import Binary64 Binary64Facts AuthFacts.
Local Open Scope Q_scope.

(** the float comparison of the expiry check decides the exact one *)
Lemma expired_iff (exp_seconds now : Z) :
  (Z.abs exp_seconds <= 2 ^ 32)%Z ->
  Qle_bool (inject_Z exp_seconds) (int_truediv now Index.microsecond) = true
  <-> (exp_seconds * Index.microsecond <= now)%Z.
Proof.
  intros Hexp. unfold int_truediv, Index.microsecond.
  set (x := inject_Z now / inject_Z 1000000).
  assert (Hx : x * 1000000 == inject_Z now).
  { unfold x. change (inject_Z 1000000) with 1000000. field. }
  rewrite Qle_bool_iff. split.
  - intros Hle.
    destruct (Z_lt_le_dec now (exp_seconds * 1000000)) as [Hlt|Hge]; [exfalso|exact Hge].
    assert (Hn : (now <= exp_seconds * 1000000 - 1)%Z) by lia.
    rewrite Zle_Qle in Hn. rewrite inject_Z_minus, inject_Z_mult in Hn.
    change (inject_Z 1000000) with 1000000 in Hn. change (inject_Z 1) with 1 in Hn.
    assert (H1 : RN x <= inject_Z (exp_seconds * 2 ^ 20 - 1) * pow2 (-20)).
    { apply RN_le_rep; [apply representable_dyadic; lia|].
      rewrite inject_Z_minus, inject_Z_mult.
      change (inject_Z (2 ^ 20)) with 1048576. change (inject_Z 1) with 1.
      change (pow2 (-20)) with (1 # 1048576). lra. }
    rewrite inject_Z_minus, inject_Z_mult in H1.
    change (inject_Z (2 ^ 20)) with 1048576 in H1. change (inject_Z 1) with 1 in H1.
    change (pow2 (-20)) with (1 # 1048576) in H1. lra.
  - intros Hge. apply RN_ge_rep; [apply representable_Z; lia|].
    rewrite Zle_Qle in Hge. rewrite inject_Z_mult in Hge.
    change (inject_Z 1000000) with 1000000 in Hge. lra.
Qed.

End TokenFacts.

(** ** File names of uploaded images *)

Section FilenameGeneration.
Import ImageService.
Variable src : entropy.

Lemma attempts_finds (sanitized : string) (existing : gset string) (k n : nat) :
  (exists i, (i < k)%nat /\
     filename_of sanitized (PyStr.take UID_LENGTH (token_urlsafe src (n + i) UID_LENGTH))
       ∉ existing) ->
  exists f n', attempts src k sanitized existing n = (Some f, n')
               /\ (f ∉ existing) /\ (n < n')%nat /\ (n' <= n + k)%nat.
Proof.
  revert n. induction k as [|k IH]; intros n [i [Hi Hfree]]; [lia|].
  cbn [attempts]. unfold rand_bind, generate_random_uid, rand_bind, draw_urlsafe, rand_ret.
  destruct (decide (filename_of sanitized
              (PyStr.take UID_LENGTH (token_urlsafe src n UID_LENGTH)) ∈ existing))
    as [Hin|Hout].
  - destruct i as [|i].
    + rewrite Nat.add_0_r in Hfree. contradiction.
    + destruct (IH (S n)) as (f & n' & Heq & Hf & Hn).
      { exists i. split; [lia|]. replace (S n + i)%nat with (n + S i)%nat by lia. exact Hfree. }
      exists f, n'. rewrite Heq. repeat split; [exact Hf|lia|lia].
  - eexists _, _. split; [reflexivity|]. split; [exact Hout|lia].
Qed.
End FilenameGeneration.

(** C1 (as amended): [generate_unique_filename] of image_service.py
    returns, after at least one and at most ten draws, a file name that
    is not among the existing names it was given, whenever one of its
    first ten candidate names is not among them. *)
Theorem generate_unique_filename_avoids_existing
    (src : entropy) (project_name : string) (existing_filenames : list string) (n : nat) :
  (exists i, (i < 10)%nat /\
     ImageService.candidate src project_name n i ∉ existing_filenames) ->
  exists filename n',
    ImageService.generate_unique_filename src project_name existing_filenames n
      = (filename, n')
    /\ (filename ∉ existing_filenames)
    /\ (n < n')%nat /\ (n' <= n + 10)%nat.
Proof.
  intros [i [Hi Hfree]].
  destruct (attempts_finds src (ImageService.sanitize_filename project_name)
              (list_to_set existing_filenames) 10 n) as (f & n' & Heq & Hf & Hn).
  { exists i. split; [exact Hi|]. intros Hin. apply Hfree.
    apply elem_of_list_to_set in Hin. exact Hin. }
  exists f, n'. unfold ImageService.generate_unique_filename, rand_bind.
  rewrite Heq. split; [reflexivity|]. split; [|exact Hn].
  intros Hin. apply Hf. apply elem_of_list_to_set. exact Hin.
Qed.

Definition src_demo : entropy :=
  {| token_urlsafe := fun i _ => if Nat.eqb i 0 then "AAAAAAAAAAA" else "BBBBBBBBBBB";
     token_hex := fun _ _ => "00000000" |}.

Lemma generate_unique_filename_avoids_existing_witness :
  exists filename n',
    ImageService.generate_unique_filename src_demo "My Project"
      ["myproject_AAAAAAAA.webp"] 0%nat = (filename, n')
    /\ (filename ∉ ["myproject_AAAAAAAA.webp"])
    /\ (0 < n')%nat /\ (n' <= 0 + 10)%nat.
Proof.
  apply (generate_unique_filename_avoids_existing src_demo "My Project"
           ["myproject_AAAAAAAA.webp"] 0%nat).
  exists 1%nat. split; [lia|]. vm_compute. intros H.
  apply list_elem_of_In in H. simpl in H. destruct H as [H|[]]. discriminate H.
Defined.

(* the index.py generator *)
Lemma generate_image_filename_can_collide :
  ~ (forall (src : entropy) (project_name : string) (existing : list string) (n : nat),
       (exists i, (i < 10)%nat /\
          (Index.generate_image_filename src project_name (n + i)%nat).1 ∉ existing) ->
       (Index.generate_image_filename src project_name n).1 ∉ existing).
Proof.
  intros H.
  specialize (H {| token_urlsafe := fun _ _ => "";
                   token_hex := fun i _ => if Nat.eqb i 0 then "00000000" else "11111111" |}
                "Demo" ["demo-00000000.webp"] 0%nat).
  apply H.
  - exists 1%nat. split; [lia|]. vm_compute. intros Hin.
    apply list_elem_of_In in Hin. simpl in Hin. destruct Hin as [Hin|[]]. discriminate Hin.
  - vm_compute. apply list_elem_of_In. left. reflexivity.
Qed.

(** ** Sliding expiration of the session token *)

(** C3: an authenticated request with a valid token is served; its
    response carries a new token of full duration in [X-New-Token] when
    less than the threshold remains of the token, and no new token
    otherwise.  The new token is issued at the clock reading of the
    refresh: its [iat] is that reading in whole seconds, its [exp] is
    [JWT_EXPIRATION_MINUTES] later, and [decode_token] accepts it at
    every reading before that expiry and refuses it from then on. *)
Theorem sliding_refresh
    (cfg : Index.config) (clk : Index.clock) (t : Index.token) (user : Index.payload)
    (endpoint : Index.payload -> Z * json) :
  Z.abs (Index.JWT_REFRESH_THRESHOLD_MINUTES cfg) <= 2 ^ 26 ->
  Index.decode_token cfg (Index.at_decode clk) t = Ok user ->
  let response := Index.admin_request cfg clk (Index.Bearer t) endpoint in
  let remaining := Index.exp user * Index.microsecond - Index.at_check clk in
  let threshold := Index.JWT_REFRESH_THRESHOLD_MINUTES cfg * 60 * Index.microsecond in
  (Index.http_status response, Index.http_body response) = endpoint user
  /\ (remaining < threshold ->
      exists claims,
        Index.X_New_Token response
          = Some (Index.Signed (Index.JWT_SECRET cfg) (Index.JWT_ALGORITHM cfg) claims)
        /\ Index.uid claims = Index.uid user
        /\ Index.role claims = Index.role user
        /\ Index.exp claims - Index.iat claims = Index.JWT_EXPIRATION_MINUTES cfg * 60
        /\ Index.sub claims = Index.uid user
        /\ Index.iat claims = Index.at_issue clk / Index.microsecond
        /\ Index.exp claims
           = Index.at_issue clk / Index.microsecond + Index.JWT_EXPIRATION_MINUTES cfg * 60
        /\ (Z.abs (Index.exp claims) <= 2 ^ 32 ->
            forall now,
              (now < Index.exp claims * Index.microsecond ->
               Index.decode_token cfg now
                 (Index.Signed (Index.JWT_SECRET cfg) (Index.JWT_ALGORITHM cfg) claims)
               = Ok claims)
              /\ (Index.exp claims * Index.microsecond <= now ->
                  Index.decode_token cfg now
                    (Index.Signed (Index.JWT_SECRET cfg) (Index.JWT_ALGORITHM cfg) claims)
                  = Raise (HTTPException 401 "Token expired"))))
  /\ (threshold <= remaining -> Index.X_New_Token response = None).
Proof.
  intros HT Hdec response remaining threshold.
  pose proof (AuthFacts.remaining_below_threshold (Index.exp user) (Index.at_check clk)
                (Index.JWT_REFRESH_THRESHOLD_MINUTES cfg) HT) as Hiff.
  fold remaining threshold in Hiff.
  subst response. unfold Index.admin_request, Index.require_admin. rewrite Hdec.
  destruct (Qle_bool (inject_Z (Index.JWT_REFRESH_THRESHOLD_MINUTES cfg))
              (Index.remaining_minutes (Index.exp user) (Index.at_check clk))) eqn:Hb;
    cbn [negb]; destruct (endpoint user) as [status body]; cbn.
  - split; [reflexivity|]. split; [|reflexivity].
    intros Hlt. apply Hiff in Hlt. congruence.
  - split; [reflexivity|]. split.
    + intros _.
      assert (Hexp : (Index.at_issue clk
                      + Index.JWT_EXPIRATION_MINUTES cfg * 60 * Index.microsecond)
                     / Index.microsecond
                     = Index.at_issue clk / Index.microsecond
                       + Index.JWT_EXPIRATION_MINUTES cfg * 60).
      { unfold Index.microsecond. apply Z.div_add. lia. }
      unfold Index.create_token. eexists. split; [reflexivity|].
      cbn [Index.uid Index.role Index.exp Index.iat Index.sub].
      split; [reflexivity|]. split; [reflexivity|]. split; [rewrite Hexp; ring|].
      split; [reflexivity|]. split; [reflexivity|]. split; [exact Hexp|].
      intros Hbound now. unfold Index.decode_token. rewrite !String.eqb_refl.
      cbn [andb Index.exp]. split.
      * intros Hlt.
        destruct (Qle_bool _ (Binary64.int_truediv now Index.microsecond)) eqn:Hq;
          [|reflexivity].
        apply (TokenFacts.expired_iff _ now Hbound) in Hq. lia.
      * intros Hge. apply (TokenFacts.expired_iff _ now Hbound) in Hge.
        rewrite Hge. reflexivity.
    + intros Hge. assert (remaining < threshold) by (apply Hiff; reflexivity). lia.
Qed.

Definition cfg_demo : Index.config :=
  {| Index.JWT_SECRET := "secret";
     Index.JWT_ALGORITHM := "HS256";
     Index.JWT_EXPIRATION_MINUTES := 60;
     Index.JWT_REFRESH_THRESHOLD_MINUTES := 15;
     Index.ADMIN_USERNAME := "admin";
     Index.ACTIVITY_LOG_COLLECTION := "activity_log";
     Index.COMMUNICATION_COLLECTION := "communication";
     Index.GITHUB_BRANCH := "main";
     Index.GITHUB_REPO := "owner/site";
     Index.GITHUB_PROJECTS_PATH := "data/projects.json";
     Index.GITHUB_CONTACTS_PATH := "data/contact.json";
     Index.GITHUB_PROJECT_IMAGES_PATH := Some "public/projects";
     Index.GITHUB_KNOWLEDGE_REPO := Some "owner/bot";
     Index.GITHUB_KNOWLEDGE_PATH := Some "knowledge";
     Index.GITHUB_SYS_INS_REPO := Some "owner/bot";
     Index.GITHUB_SYS_INS_PATH := Some "prompts/system.txt" |}.

(** a token issued at time 0 and used after 50 minutes *)
Definition clk_demo : Index.clock :=
{| Index.at_decode := 3000000000; Index.at_check := 3000000001;
   Index.at_issue := 3000000002 |}.

Definition user_demo : Index.payload :=
{| Index.sub := "admin"; Index.uid := "admin"; Index.role := "admin";
   Index.iat := 0; Index.exp := 3600 |}.

Lemma sliding_refresh_witness :
  Z.abs (Index.JWT_REFRESH_THRESHOLD_MINUTES cfg_demo) <= 2 ^ 26
  /\ Index.decode_token cfg_demo (Index.at_decode clk_demo)
       (Index.create_token cfg_demo 0 "admin" "admin") = Ok user_demo
  /\ (let response := Index.admin_request cfg_demo clk_demo
                        (Index.Bearer (Index.create_token cfg_demo 0 "admin" "admin"))
                        Index.logout in
      let remaining := Index.exp user_demo * Index.microsecond - Index.at_check clk_demo in
      let threshold :=
        Index.JWT_REFRESH_THRESHOLD_MINUTES cfg_demo * 60 * Index.microsecond in
      (Index.http_status response, Index.http_body response) = Index.logout user_demo
      /\ (remaining < threshold ->
          exists claims,
            Index.X_New_Token response
              = Some (Index.Signed (Index.JWT_SECRET cfg_demo)
                        (Index.JWT_ALGORITHM cfg_demo) claims)
            /\ Index.uid claims = Index.uid user_demo
            /\ Index.role claims = Index.role user_demo
            /\ Index.exp claims - Index.iat claims
               = Index.JWT_EXPIRATION_MINUTES cfg_demo * 60
            /\ Index.sub claims = Index.uid user_demo
            /\ Index.iat claims = Index.at_issue clk_demo / Index.microsecond
            /\ Index.exp claims
               = Index.at_issue clk_demo / Index.microsecond
                 + Index.JWT_EXPIRATION_MINUTES cfg_demo * 60
            /\ (Z.abs (Index.exp claims) <= 2 ^ 32 ->
                forall now,
                  (now < Index.exp claims * Index.microsecond ->
                   Index.decode_token cfg_demo now
                     (Index.Signed (Index.JWT_SECRET cfg_demo)
                        (Index.JWT_ALGORITHM cfg_demo) claims)
                   = Ok claims)
                  /\ (Index.exp claims * Index.microsecond <= now ->
                      Index.decode_token cfg_demo now
                        (Index.Signed (Index.JWT_SECRET cfg_demo)
                           (Index.JWT_ALGORITHM cfg_demo) claims)
                      = Raise (HTTPException 401 "Token expired"))))
      /\ (threshold <= remaining -> Index.X_New_Token response = None)).
Proof.
  assert (H1 : Z.abs (Index.JWT_REFRESH_THRESHOLD_MINUTES cfg_demo) <= 2 ^ 26).
  { vm_compute. discriminate. }
  assert (H2 : Index.decode_token cfg_demo (Index.at_decode clk_demo)
                 (Index.create_token cfg_demo 0 "admin" "admin") = Ok user_demo).
  { vm_compute. reflexivity. }
  split; [exact H1|]. split; [exact H2|].
  exact (sliding_refresh cfg_demo clk_demo
           (Index.create_token cfg_demo 0 "admin" "admin") user_demo Index.logout H1 H2).
Defined.

(** ** Validation of uploaded images *)

Section Validation.
Context {S : Type} (lib : pylib) (srv : server S) (src : entropy).

Lemma service_upload_rejects (settings : Config.Settings) (file : UploadFile)
    (projectName : string) (w : world S) :
  (forall ct, content_type file = Some ct -> ct ∉ ImageService.ALLOWED_MIME_TYPES)
  \/ ImageService.MAX_IMAGE_SIZE < len (file_content file) ->
  exists detail,
    ProjectsRouter.upload_project_image lib settings srv src file projectName w
    = (Raise (HTTPException 400 detail), w).
Proof.
  intros H. unfold ProjectsRouter.upload_project_image.
  destruct (ImageService.validate_image file) as [is_valid error_msg] eqn:Hv.
  destruct is_valid; cbn [negb].
  - destruct H as [H|H].
    + exfalso. unfold ImageService.validate_image in Hv.
      destruct (content_type file) as [ct|]; [|discriminate Hv].
      destruct (bool_decide (ct ∈ ImageService.ALLOWED_MIME_TYPES)) eqn:Hb;
        [|discriminate Hv].
      apply bool_decide_eq_true in Hb. exact (H ct eq_refl Hb).
    + unfold bind, lift, ImageService.convert_to_webp.
      destruct (Z.gtb_spec (len (file_content file)) ImageService.MAX_IMAGE_SIZE) as [_|Hle];
        [|lia].
      eexists. reflexivity.
  - eexists. reflexivity.
Qed.

Lemma service_validation_accepts (file : UploadFile) (ct : string) :
  content_type file = Some ct -> ct ∈ ImageService.ALLOWED_MIME_TYPES ->
  len (file_content file) <= ImageService.MAX_IMAGE_SIZE ->
  ImageService.validate_image file = (true, "")
  /\ ImageService.convert_to_webp lib file
     = match Image_open lib (file_content file) with
       | None => Raise (HTTPException 400 "Failed to process image")
       | Some img =>
           Ok (Image_save lib {| save_format := WEBP; save_quality := 85;
                                 save_image := ImageService.flatten img |})
       end.
Proof.
  intros Hct Hin Hlen. split.
  - unfold ImageService.validate_image. rewrite Hct.
    rewrite bool_decide_eq_true_2 by exact Hin. reflexivity.
  - unfold ImageService.convert_to_webp.
    destruct (Z.gtb_spec (len (file_content file)) ImageService.MAX_IMAGE_SIZE) as [Hgt|_];
      [lia|reflexivity].
Qed.

Lemma index_validate_image_spec (file : UploadFile) :
  match Index.validate_image file with
  | Ok _ => exists name, filename file = Some name /\ name <> EmptyString
                         /\ PyStr.splitext_ext (PyStr.lower name) ∈ Index.ALLOWED_EXTENSIONS
  | Raise e => (exists detail, e = HTTPException 400 detail)
               /\ forall name, filename file = Some name -> name <> EmptyString ->
                    PyStr.splitext_ext (PyStr.lower name) ∉ Index.ALLOWED_EXTENSIONS
  end.
Proof.
  unfold Index.validate_image. destruct (filename file) as [name|].
  - destruct name as [|c rest]; cbn [PyStr.truthy negb].
    + split; [eexists; reflexivity|]. intros n Hn Hne. injection Hn as <-. congruence.
    + destruct (bool_decide (PyStr.splitext_ext (PyStr.lower (String c rest))
                               ∈ Index.ALLOWED_EXTENSIONS)) eqn:Hb.
      * apply bool_decide_eq_true in Hb. exists (String c rest).
        split; [reflexivity|]. split; [discriminate|exact Hb].
      * apply bool_decide_eq_false in Hb. split; [eexists; reflexivity|].
        intros n Hn _. injection Hn as <-. exact Hb.
  - split; [eexists; reflexivity|]. intros n Hn. discriminate Hn.
Qed.

Lemma index_upload_rejects (cfg : Index.config) (file : UploadFile)
    (projectName : string) (w : world S) :
  (forall name, filename file = Some name -> name <> EmptyString ->
     PyStr.splitext_ext (PyStr.lower name) ∉ Index.ALLOWED_EXTENSIONS)
  \/ Index.MAX_IMAGE_SIZE < len (file_content file) ->
  exists detail,
    Index.upload_project_image lib cfg srv src file projectName w
    = (Raise (HTTPException 400 detail), w).
Proof.
  intros H. unfold Index.upload_project_image.
  destruct (Index.configured (Index.GITHUB_PROJECT_IMAGES_PATH cfg)) as [dir|];
    [|eexists; reflexivity].
  pose proof (index_validate_image_spec file) as Hspec.
  unfold bind at 1. unfold lift at 1.
  destruct (Index.validate_image file) as [[]|e].
  - destruct H as [H|H].
    + destruct Hspec as (name & Hn & Hne & Hin). exfalso. exact (H name Hn Hne Hin).
    + unfold bind at 1. unfold lift at 1. unfold Index.convert_to_webp.
      destruct (Z.gtb_spec (len (file_content file)) Index.MAX_IMAGE_SIZE) as [_|Hle];
        [|lia].
      eexists. reflexivity.
  - destruct Hspec as [[detail ->] _]. eexists. reflexivity.
Qed.

End Validation.

(** C7 (as amended): the upload of [routers/projects.py] is refused with a
    400, before any exchange with the file host, when the declared MIME
    type is outside its allow-list or the content is larger than 2 MiB,
    and a file with an allowed MIME type of at most 2 MiB passes
    validation whatever its extension; the upload of [index.py] is refused
    with a 400, before any exchange, when the file name is missing or its
    extension is outside the allow-list or the content is larger than
    10 MiB, and a named file with an allowed extension of at most 10 MiB
    passes validation whatever its MIME type. *)
Theorem upload_validation
    {S : Type} (lib : pylib) (srv : server S) (src : entropy)
    (settings : Config.Settings) (cfg : Index.config)
    (file : UploadFile) (projectName : string) (w : world S) :
  ImageService.MAX_IMAGE_SIZE = 2 * 1024 * 1024
  /\ Index.MAX_IMAGE_SIZE = 10 * 1024 * 1024
  /\ ((forall ct, content_type file = Some ct -> ct ∉ ImageService.ALLOWED_MIME_TYPES)
      \/ ImageService.MAX_IMAGE_SIZE < len (file_content file) ->
      exists detail,
        ProjectsRouter.upload_project_image lib settings srv src file projectName w
        = (Raise (HTTPException 400 detail), w))
  /\ (forall ct, content_type file = Some ct -> ct ∈ ImageService.ALLOWED_MIME_TYPES ->
      len (file_content file) <= ImageService.MAX_IMAGE_SIZE ->
      ImageService.validate_image file = (true, EmptyString)
      /\ forall detail, ImageService.convert_to_webp lib file
                        = Raise (HTTPException 400 detail) ->
                        Image_open lib (file_content file) = None)
  /\ ((forall name, filename file = Some name -> name <> EmptyString ->
         PyStr.splitext_ext (PyStr.lower name) ∉ Index.ALLOWED_EXTENSIONS)
      \/ Index.MAX_IMAGE_SIZE < len (file_content file) ->
      exists detail,
        Index.upload_project_image lib cfg srv src file projectName w
        = (Raise (HTTPException 400 detail), w))
  /\ (forall name, filename file = Some name -> name <> EmptyString ->
      PyStr.splitext_ext (PyStr.lower name) ∈ Index.ALLOWED_EXTENSIONS ->
      len (file_content file) <= Index.MAX_IMAGE_SIZE ->
      Index.validate_image file = Ok tt
      /\ forall detail, Index.convert_to_webp lib file 1200
                        <> Raise (HTTPException 400 detail)).
Proof.
  split; [reflexivity|]. split; [reflexivity|]. split; [|split; [|split]].
  - apply service_upload_rejects.
  - intros ct Hct Hin Hlen.
    destruct (service_validation_accepts lib file ct Hct Hin Hlen) as [Hv Hc].
    split; [exact Hv|]. intros detail Hd. rewrite Hc in Hd.
    destruct (Image_open lib (file_content file)); [discriminate Hd|reflexivity].
  - apply index_upload_rejects.
  - intros name Hn Hne Hin Hlen. split.
    + pose proof (index_validate_image_spec file) as Hspec.
      destruct (Index.validate_image file) as [[]|e]; [reflexivity|].
      destruct Hspec as [_ Hout]. exfalso. exact (Hout name Hn Hne Hin).
    + intros detail. unfold Index.convert_to_webp.
      destruct (Z.gtb_spec (len (file_content file)) Index.MAX_IMAGE_SIZE) as [Hgt|_];
        [lia|].
      destruct (Image_open lib (file_content file)); discriminate.
Qed.

(** *** Concrete instances used by the examples below *)

(** a stand-in for the libraries: the payload of a file is kept behind a
    marker, a JSON text is not produced, and every content decodes to a
    small RGB image *)
Definition lib_demo : pylib :=
{| b64encode := fun s => "b64:" +:+ s;
   b64decode := fun s => GitHub.strip_prefix "b64:" s;
   json_dumps := fun _ _ => "[]";
   json_loads := fun _ => Some (JArr []);
   Image_open := fun _ => Some {| mode := RGB; width := 640; height := 480 |};
   Image_save := fun _ => "RIFF....WEBP" |}.

Definition settings_demo : Config.Settings :=
{| Config.GITHUB_TOKEN := "token";
   Config.GITHUB_REPO := "owner/site";
   Config.GITHUB_BRANCH := "main";
   Config.GITHUB_PROJECTS_PATH := "data/projects.json";
   Config.GITHUB_CONTACTS_PATH := "data/contact.json";
   Config.GITHUB_PROJECT_IMAGES_PATH := Some "public/projects" |}.

Definition empty_host : GitHub.state := {| GitHub.tree := ∅; GitHub.commits := 0 |}.

Definition world_demo : world GitHub.state :=
{| remote := empty_host; trace := []; draws := 0 |}.

Definition text_file : UploadFile :=
{| filename := Some "notes.txt"; content_type := Some "image/png"; file_content := "x" |}.

Definition mislabelled_file : UploadFile :=
{| filename := Some "photo.png"; content_type := Some "text/plain"; file_content := "x" |}.

(** C7 as stated fails: a file whose extension is outside every allow-list
    passes the validation of [image_service.py], a file whose MIME type is
    outside the allow-list passes the validation of [index.py], and the
    ceiling of [index.py] is 10 MiB. *)
Lemma validation_checks_one_of_type_and_extension :
  (PyStr.splitext_ext "notes.txt" ∉ ImageService.ALLOWED_EXTENSIONS)
  /\ (PyStr.splitext_ext "notes.txt" ∉ Index.ALLOWED_EXTENSIONS)
  /\ ImageService.validate_image text_file = (true, EmptyString)
  /\ len (file_content text_file) <= ImageService.MAX_IMAGE_SIZE
  /\ ("text/plain" ∉ ImageService.ALLOWED_MIME_TYPES)
  /\ Index.validate_image mislabelled_file = Ok tt
  /\ len (file_content mislabelled_file) <= Index.MAX_IMAGE_SIZE
  /\ 10 <= Index.MAX_IMAGE_SIZE / (1024 * 1024).
Proof.
  split; [compute_done|].
  split; [compute_done|].
  split; [reflexivity|].
  split; [vm_compute; discriminate|].
  split; [compute_done|].
  split; [reflexivity|].
  split; vm_compute; discriminate.
Qed.

Lemma upload_validation_witness :
  exists detail,
    ProjectsRouter.upload_project_image lib_demo settings_demo GitHub.host src_demo
      mislabelled_file "Demo" world_demo
    = (Raise (HTTPException 400 detail), world_demo).
Proof.
  destruct (upload_validation lib_demo GitHub.host src_demo settings_demo cfg_demo
              mislabelled_file "Demo" world_demo) as (_ & _ & H & _).
  apply H. left. intros ct Hct. injection Hct as <-.
  compute_done.
Defined.

(** ** Communication records *)

Section CommunicationRecords.
Variable cfg : Index.config.

Lemma log_activity_keeps (log_id : string) (now : Z) (action user_id resource_type : string)
    (resource_id : option string) (details : list (string * value))
    (d : Firestore.db) (key : string * string) (doc : gmap string value) :
  d !! key = Some doc ->
  Index.log_activity cfg log_id now action user_id resource_type resource_id details d !! key
  = Some doc.
Proof.
  intros Hdoc. unfold Index.log_activity, Firestore.add.
  destruct (d !! (Index.ACTIVITY_LOG_COLLECTION cfg, log_id)) as [other|] eqn:Hlog; cbn.
  - exact Hdoc.
  - rewrite lookup_insert_ne; [exact Hdoc|]. intros Heq. rewrite Heq in Hlog. congruence.
Qed.

Lemma submit_creates_new (doc_id : string) (now1 now2 : Z)
    (data : Index.CommunicationSubmit) (d : Firestore.db) :
  exists doc,
    (Index.submit_communication cfg doc_id now1 now2 data d).2
      !! (Index.COMMUNICATION_COLLECTION cfg, doc_id) = Some doc
    /\ doc !! "status" = Some (VStr "new")
    /\ doc !! "name" = Some (VStr (Index.name data))
    /\ doc !! "email" = Some (VStr (Index.email data))
    /\ doc !! "message" = Some (VStr (Index.message_text data))
    /\ doc !! "created_at" = Some (VTime now1)
    /\ doc !! "updated_at" = Some (VTime now2).
Proof.
  eexists. split.
  - unfold Index.submit_communication, Firestore.set. cbn [snd].
    apply lookup_insert_eq.
  - cbn [list_to_map foldr uncurry]. repeat split; by simplify_map_eq.
Qed.

Lemma update_changes_two_fields (record_id status : string) (now : Z)
    (user_uid log_id : string) (log_now : Z) (d : Firestore.db) (doc : gmap string value) :
  d !! (Index.COMMUNICATION_COLLECTION cfg, record_id) = Some doc ->
  exists body doc',
    (Index.update_communication_status cfg record_id status now user_uid log_id log_now d).1
      = Ok body
    /\ (Index.update_communication_status cfg record_id status now user_uid log_id log_now d).2
         !! (Index.COMMUNICATION_COLLECTION cfg, record_id) = Some doc'
    /\ doc' !! "status" = Some (VStr status)
    /\ doc' !! "updated_at" = Some (VTime now)
    /\ forall field, field <> "status" -> field <> "updated_at" ->
         doc' !! field = doc !! field.
Proof.
  intros Hdoc. unfold Index.update_communication_status, Firestore.update.
  rewrite Hdoc. cbn [fst snd]. eexists _, _. split; [reflexivity|]. split.
  - apply log_activity_keeps. apply lookup_insert_eq.
  - cbn [list_to_map foldr uncurry]. split; [|split].
    + apply lookup_union_Some_l. by simplify_map_eq.
    + apply lookup_union_Some_l. by simplify_map_eq.
    + intros field H1 H2. apply lookup_union_r. by simplify_map_eq.
Qed.

End CommunicationRecords.

(** C8: a submitted communication record is created with status "new";
    a status update of an existing record changes its [status] and
    [updated_at] and leaves every other field as it was. *)
Theorem communication_record_lifecycle
    (cfg : Index.config) (doc_id : string) (now1 now2 : Z)
    (data : Index.CommunicationSubmit) (d : Firestore.db) :
  (exists doc,
     (Index.submit_communication cfg doc_id now1 now2 data d).2
       !! (Index.COMMUNICATION_COLLECTION cfg, doc_id) = Some doc
     /\ doc !! "status" = Some (VStr "new")
     /\ doc !! "name" = Some (VStr (Index.name data))
     /\ doc !! "email" = Some (VStr (Index.email data))
     /\ doc !! "message" = Some (VStr (Index.message_text data)))
  /\ forall (d1 : Firestore.db) (doc : gmap string value)
            (status : string) (now : Z) (user_uid log_id : string) (log_now : Z),
       d1 !! (Index.COMMUNICATION_COLLECTION cfg, doc_id) = Some doc ->
       exists body doc',
         (Index.update_communication_status cfg doc_id status now user_uid log_id log_now d1).1
           = Ok body
         /\ (Index.update_communication_status cfg doc_id status now user_uid log_id log_now d1).2
              !! (Index.COMMUNICATION_COLLECTION cfg, doc_id) = Some doc'
         /\ doc' !! "status" = Some (VStr status)
         /\ doc' !! "updated_at" = Some (VTime now)
         /\ forall field, field <> "status" -> field <> "updated_at" ->
              doc' !! field = doc !! field.
Proof.
  split.
  - destruct (submit_creates_new cfg doc_id now1 now2 data d)
      as (doc & H & Hs & Hn & He & Hm & _).
    exists doc. repeat split; assumption.
  - intros d1 doc status now user_uid log_id log_now Hdoc.
    apply update_changes_two_fields. exact Hdoc.
Qed.

Definition ana : Index.CommunicationSubmit :=
{| Index.name := "Ana"; Index.email := "ana@x.com"; Index.message_text := "Hi" |}.

Definition db_after_ana : Firestore.db :=
(Index.submit_communication cfg_demo "rec1" 100 101 ana ∅).2.

Definition ana_record : gmap string value :=
list_to_map [("name", VStr "Ana"); ("email", VStr "ana@x.com"); ("message", VStr "Hi");
             ("status", VStr "new"); ("created_at", VTime 100); ("updated_at", VTime 101)].

(** the scenario of the specification: Ana submits, the record is marked
    "done" *)
Lemma communication_record_lifecycle_witness :
  db_after_ana !! ("communication", "rec1") = Some ana_record
  /\ exists body doc',
       (Index.update_communication_status cfg_demo "rec1" "done" 200 "admin" "log1" 201
          db_after_ana).1 = Ok body
       /\ (Index.update_communication_status cfg_demo "rec1" "done" 200 "admin" "log1" 201
             db_after_ana).2 !! ("communication", "rec1") = Some doc'
       /\ doc' !! "status" = Some (VStr "done")
       /\ doc' !! "updated_at" = Some (VTime 200)
       /\ forall field, field <> "status" -> field <> "updated_at" ->
            doc' !! field = ana_record !! field.
Proof.
  assert (H : db_after_ana !! ("communication", "rec1") = Some ana_record).
  { vm_compute. reflexivity. }
  split; [exact H|].
  exact (proj2 (communication_record_lifecycle cfg_demo "rec1" 100 101 ana ∅)
           db_after_ana ana_record "done" 200 "admin" "log1" 201 H).
Defined.

(** ** Listing of communication records *)

Section Ordering.
Variable field : string.

#[local] Instance desc_by_transitive : Transitive (Firestore.desc_by field).
Proof.
  intros a b c. unfold Firestore.desc_by, Firestore.key_le.
  destruct (Firestore.sort_key (default VNull (a.2 !! field))) as [ra ta].
  destruct (Firestore.sort_key (default VNull (b.2 !! field))) as [rb tb].
  destruct (Firestore.sort_key (default VNull (c.2 !! field))) as [rc tc].
  cbn. lia.
Qed.

#[local] Instance desc_by_total : Total (Firestore.desc_by field).
Proof.
  intros a b. unfold Firestore.desc_by, Firestore.key_le.
  destruct (Firestore.sort_key (default VNull (a.2 !! field))) as [ra ta].
  destruct (Firestore.sort_key (default VNull (b.2 !! field))) as [rb tb].
  cbn. lia.
Qed.




End Ordering.

Lemma communication_query_shape (cfg : Index.config) (status : option string) :
  Firestore.q_order_by_desc (Index.communication_query cfg status) = Some "created_at"
  /\ Firestore.q_limit (Index.communication_query cfg status) = Some 100%nat.
Proof.
  unfold Index.communication_query. destruct status as [st|]; [|split; reflexivity].
  destruct (PyStr.truthy st && bool_decide (st ∈ ["new"; "done"; "dismissed"]));
    split; reflexivity.
Qed.


Definition db_two : Firestore.db :=
(Index.submit_communication cfg_demo "rec2" 300 300
   {| Index.name := "Bo"; Index.email := "bo@x.com"; Index.message_text := "Hello" |}
   db_after_ana).2.


(** the later record comes first *)
Example communication_listing_order :
  map (fun r => r !! "id") (Index.get_communication cfg_demo None db_two).1
  = [Some (VStr "rec2"); Some (VStr "rec1")].
Proof. vm_compute. reflexivity. Qed.

(** ** Deleting an image that is not there *)

Lemma get_sha_absent (settings : Config.Settings) (path : string)
    (w : world GitHub.state) :
  GitHub.tree (remote w) !! (Config.GITHUB_REPO settings, path) = None ->
  exists resp,
    GitHubProvider._get_sha settings GitHub.host path w
    = (Ok JNull,
       {| remote := remote w;
          trace := trace w ++ [(GitHubProvider.get_request settings path, Some resp)];
          draws := draws w |}).
Proof.
  intros Habsent.
  unfold GitHubProvider._get_sha, catch, bind, send.
  cbn [serve GitHub.host req_method req_repo req_path GitHubProvider.get_request].
  unfold GitHub.get. rewrite Habsent.
  destruct (GitHub.listing (remote w) (Config.GITHUB_REPO settings) path) as [|e es];
    eexists; cbn; reflexivity.
Qed.

(** C9 (as amended): with the image directory configured, deleting a file
    name that is not in the image store returns success; nothing is
    deleted and the store is as before. *)
Theorem delete_absent_image
    (settings : Config.Settings) (dir filename : string) (w : world GitHub.state) :
  GitHubProvider.images_path settings = Some dir ->
  GitHub.tree (remote w) !! (Config.GITHUB_REPO settings, dir +:+ "/" +:+ filename) = None ->
  exists resp,
    GitHubProvider.delete_image settings GitHub.host filename w
    = (Ok JNull,
       {| remote := remote w;
          trace := trace w ++ [(GitHubProvider.get_request settings
                                  (dir +:+ "/" +:+ filename), Some resp)];
          draws := draws w |}).
Proof.
  intros Hdir Habsent. unfold GitHubProvider.delete_image. rewrite Hdir.
  destruct (get_sha_absent settings (dir +:+ "/" +:+ filename) w Habsent) as [resp Hsha].
  exists resp. unfold bind at 1. rewrite Hsha. reflexivity.
Qed.

Lemma delete_absent_image_witness :
  exists resp,
    GitHubProvider.delete_image settings_demo GitHub.host "a.webp" world_demo
    = (Ok JNull,
       {| remote := remote world_demo;
          trace := trace world_demo
                   ++ [(GitHubProvider.get_request settings_demo
                          ("public/projects" +:+ "/" +:+ "a.webp"), Some resp)];
          draws := draws world_demo |}).
Proof.
  apply (delete_absent_image settings_demo "public/projects" "a.webp" world_demo).
  - reflexivity.
  - vm_compute. reflexivity.
Defined.

Definition settings_without_images : Config.Settings :=
{| Config.GITHUB_TOKEN := "token";
   Config.GITHUB_REPO := "owner/site";
   Config.GITHUB_BRANCH := "main";
   Config.GITHUB_PROJECTS_PATH := "data/projects.json";
   Config.GITHUB_CONTACTS_PATH := "data/contact.json";
   Config.GITHUB_PROJECT_IMAGES_PATH := None |}.

(** C9 as stated fails when no image directory is configured: the delete
    raises although the file is absent. *)
Lemma delete_image_unconfigured_raises :
  GitHub.tree (remote world_demo) !! ("owner/site", "a.webp") = None
  /\ GitHubProvider.delete_image settings_without_images GitHub.host "a.webp" world_demo
     = (Raise (GitHubError "GITHUB_PROJECT_IMAGES_DIRECTORY not configured"), world_demo).
Proof. split; vm_compute; reflexivity. Qed.

(** ** Writes to the file host are conditioned on the revision read *)

Section ConditionedWrites.
Import Conditioned.
Context {S : Type} (lib : pylib) (srv : server S).




Lemma get_sha_exchange (settings : Config.Settings) (path : string) (w : world S) :
  GitHubProvider._get_sha settings srv path w
  = (Ok (provider_read (serve srv (GitHubProvider.get_request settings path) (remote w)).1),
     {| remote := (serve srv (GitHubProvider.get_request settings path) (remote w)).2;
        trace := trace w ++ [(GitHubProvider.get_request settings path,
                              (serve srv (GitHubProvider.get_request settings path)
                                 (remote w)).1)];
        draws := draws w |}).
Proof.
  unfold GitHubProvider._get_sha, catch, bind, send, provider_read.
  destruct (serve srv (GitHubProvider.get_request settings path) (remote w))
    as [[r|] s']; cbn [fst snd]; [|reflexivity].
  destruct (status_code r =? 200); [|reflexivity].
  unfold lift. destruct (Py.get (resp_json r) "sha" JNull); reflexivity.
Qed.




End ConditionedWrites.

Section ConditionedProviderImages.
Import Conditioned.
Context {S : Type} (lib : pylib) (srv : server S) (settings : Config.Settings).



End ConditionedProviderImages.

Section ConditionedIndex.
Import Conditioned.
Context {S : Type} (lib : pylib) (cfg : Index.config) (srv : server S).

Definition after_exchange (req : request) (w : world S) : world S :=
{| remote := (serve srv req (remote w)).2;
   trace := trace w ++ [(req, (serve srv req (remote w)).1)];
   draws := draws w |}.

Lemma github_request_exchange (method : http_method) (path : string) (data : json)
    (repo : option string) (w : world S) :
  method <> DELETE ->
  (Index.github_request cfg srv method path data repo w).2
  = after_exchange (Index.make_request cfg method path data repo) w.
Proof.
  intros Hmethod.
  assert (Hsend : match method with
                  | DELETE => delete_with_json srv (Index.make_request cfg method path data repo)
                  | _ => send srv (Index.make_request cfg method path data repo)
                  end = send srv (Index.make_request cfg method path data repo))
    by (destruct method; [reflexivity|reflexivity|contradiction]).
  unfold Index.github_request. rewrite Hsend. unfold after_exchange, bind, catch, send.
  destruct (serve srv (Index.make_request cfg method path data repo) (remote w))
    as [[resp|] s']; cbn [fst snd]; [|reflexivity].
  destruct (status_code resp =? 404); [reflexivity|].
  destruct (status_code resp =? 401); [reflexivity|].
  destruct (status_code resp =? 403).
  - unfold lift. destruct (Py.get (resp_json resp) "message" (JStr "Forbidden")) as [m|e];
      [|reflexivity].
    destruct m; try reflexivity.
    destruct (PyStr.contains "rate limit" (PyStr.lower s)); reflexivity.
  - destruct ((200 <=? status_code resp) && (status_code resp <? 300)); reflexivity.
Qed.



Lemma github_get_file_world (path : string) (repo : option string) (w : world S) :
  (Index.github_get_file lib cfg srv path repo w).2
  = after_exchange (Index.make_request cfg GET path JNull repo) w.
Proof.
  unfold Index.github_get_file. unfold bind at 1.
  pose proof (github_request_exchange GET path JNull repo w ltac:(discriminate)) as Hw.
  destruct (Index.github_request cfg srv GET path JNull repo w) as [[result|e] w'];
    cbn [snd] in Hw; subst w'; [|reflexivity].
  destruct (Py.truthy result); cbn [negb]; [|reflexivity].
  unfold bind, lift.
  destruct (Py.item result "content") as [c|e]; [|reflexivity].
  destruct c; try reflexivity.
  destruct (b64decode lib s); [|reflexivity].
  destruct (Py.item result "sha"); reflexivity.
Qed.




End ConditionedIndex.






Definition png_file : UploadFile :=
{| filename := Some "photo.png"; content_type := Some "image/png"; file_content := "x" |}.


(** * Further properties of the code *)

(** ** Saving and reading back on a faithful host *)

Section FaithfulHost.
Context (lib : pylib) (settings : Config.Settings).

Lemma is_sha_blob (content : string) :
  GitHub.is_sha (JStr (GitHub.blob_sha content)) content = true.
Proof. cbn. apply String.eqb_refl. Qed.

Lemma truthy_blob (content : string) : PyStr.truthy (GitHub.blob_sha content) = true.
Proof. reflexivity. Qed.

(** what [_get_sha] reads on the faithful host: the revision of the file,
    or nothing when no file is at the path *)
Lemma host_provider_read (st : GitHub.state) (path : string) :
  Conditioned.provider_read
    (serve GitHub.host (GitHubProvider.get_request settings path) st).1
  = match GitHub.tree st !! (Config.GITHUB_REPO settings, path) with
    | Some content => JStr (GitHub.blob_sha content)
    | None => JNull
    end.
Proof.
  cbn [serve GitHub.host req_method req_repo req_path GitHubProvider.get_request fst].
  unfold GitHub.get.
  destruct (GitHub.tree st !! (Config.GITHUB_REPO settings, path)) as [content|].
  - reflexivity.
  - destruct (GitHub.listing st (Config.GITHUB_REPO settings) path); reflexivity.
Qed.

Lemma host_get_keeps_state (st : GitHub.state) (path : string) :
  (serve GitHub.host (GitHubProvider.get_request settings path) st).2 = st.
Proof. reflexivity. Qed.

Lemma host_save_file (path content : string) (message : json) (w : world GitHub.state) :
  exists commit w',
    GitHubProvider._save_file lib settings GitHub.host path content message w
    = (Ok (JStr commit), w')
    /\ GitHub.tree (remote w')
       = <[(Config.GITHUB_REPO settings, path) := b64encode lib content]>
           (GitHub.tree (remote w))
    /\ draws w' = draws w.
Proof.
  unfold GitHubProvider._save_file. unfold bind at 1. rewrite get_sha_exchange.
  rewrite host_provider_read, host_get_keeps_state.
  unfold bind at 1. unfold send at 1. cbn [remote trace draws].
  cbn [serve GitHub.host req_method req_repo req_path req_json GitHubProvider.put_request].
  unfold GitHub.put, GitHubProvider.write_data.
  destruct (GitHub.tree (remote w) !! (Config.GITHUB_REPO settings, path))
    as [current|] eqn:Hcur.
  - cbn -[GitHub.is_sha GitHub.blob_sha GitHub.commit_sha].
    rewrite truthy_blob. cbn -[GitHub.is_sha GitHub.blob_sha GitHub.commit_sha].
    rewrite is_sha_blob. cbn -[GitHub.blob_sha GitHub.commit_sha].
    eexists _, _. split; [reflexivity|]. split; reflexivity.
  - cbn -[GitHub.blob_sha GitHub.commit_sha].
    eexists _, _. split; [reflexivity|]. split; reflexivity.
Qed.

Lemma host_get_file (path content text : string) (w : world GitHub.state) :
  GitHub.tree (remote w) !! (Config.GITHUB_REPO settings, path) = Some content ->
  b64decode lib (PyStr.keep (fun a => negb (Ascii.eqb a "010")) content) = Some text ->
  (GitHubProvider._get_file lib settings GitHub.host path w).1
  = Ok (text, JStr (GitHub.blob_sha content)).
Proof.
  intros Hfile Hdec. unfold GitHubProvider._get_file, bind, send.
  cbn [serve GitHub.host req_method req_repo req_path GitHubProvider.get_request].
  unfold GitHub.get. rewrite Hfile. cbn.
  rewrite Hdec. reflexivity.
Qed.

End FaithfulHost.

(** Saving a project list through the provider and reading it back on a
    faithful host gives the list that was saved, whenever the libraries
    round-trip its JSON text. *)
Theorem provider_projects_round_trip
    (lib : pylib) (settings : Config.Settings) (projects message : json)
    (w : world GitHub.state) :
  b64decode lib (PyStr.keep (fun a => negb (Ascii.eqb a "010"))
                   (b64encode lib (json_dumps lib 4 projects)))
    = Some (json_dumps lib 4 projects) ->
  json_loads lib (json_dumps lib 4 projects) = Some projects ->
  PyStr.truthy (json_dumps lib 4 projects) = true ->
  exists commit w',
    GitHubProvider.save_projects lib settings GitHub.host projects message w
      = (Ok (JStr commit), w')
    /\ (GitHubProvider.get_projects lib settings GitHub.host w').1
       = Ok (projects,
             JStr (GitHub.blob_sha (b64encode lib (json_dumps lib 4 projects)))).
Proof.
  intros Hb64 Hjson Htext. unfold GitHubProvider.save_projects.
  destruct (host_save_file lib settings (Config.GITHUB_PROJECTS_PATH settings)
              (json_dumps lib 4 projects) message w) as (commit & w' & Hsave & Htree & _).
  exists commit, w'. split; [exact Hsave|].
  unfold GitHubProvider.get_projects. unfold bind.
  pose proof (host_get_file lib settings (Config.GITHUB_PROJECTS_PATH settings)
                (b64encode lib (json_dumps lib 4 projects)) (json_dumps lib 4 projects) w')
    as Hget.
  rewrite Htree, lookup_insert_eq in Hget. specialize (Hget eq_refl Hb64).
  destruct (GitHubProvider._get_file lib settings GitHub.host
              (Config.GITHUB_PROJECTS_PATH settings) w') as [r w''].
  cbn [fst] in Hget. subst r. rewrite Htext. cbn [negb]. rewrite Hjson. reflexivity.
Qed.

Lemma provider_projects_round_trip_witness :
  exists commit w',
    GitHubProvider.save_projects lib_demo settings_demo GitHub.host (JArr [])
      (JStr "empty the list") world_demo = (Ok (JStr commit), w')
    /\ (GitHubProvider.get_projects lib_demo settings_demo GitHub.host w').1
       = Ok (JArr [],
             JStr (GitHub.blob_sha (b64encode lib_demo (json_dumps lib_demo 4 (JArr []))))).
Proof.
  apply (provider_projects_round_trip lib_demo settings_demo (JArr [])
           (JStr "empty the list") world_demo); vm_compute; reflexivity.
Defined.

Section FaithfulHostIndex.
Context (lib : pylib) (cfg : Index.config).

(** the projects file can be read: it holds a decodable payload, or
    nothing is kept at or under its path *)
Definition readable (st : GitHub.state) (path : string) : Prop :=
  (exists content, GitHub.tree st !! (Index.GITHUB_REPO cfg, path) = Some content
                   /\ is_Some (b64decode lib content))
  \/ (GitHub.tree st !! (Index.GITHUB_REPO cfg, path) = None
      /\ GitHub.listing st (Index.GITHUB_REPO cfg) path = []).

Lemma index_get_file_host (path : string) (w : world GitHub.state) :
  (Index.github_get_file lib cfg GitHub.host path None w).1
  = match GitHub.tree (remote w) !! (Index.GITHUB_REPO cfg, path) with
    | Some content =>
        match b64decode lib content with
        | Some text => Ok (JStr text, JStr (GitHub.blob_sha content))
        | None => Raise DecodeError
        end
    | None =>
        match GitHub.listing (remote w) (Index.GITHUB_REPO cfg) path with
        | [] => Ok (JNull, JNull)
        | _ => Raise TypeError
        end
    end.
Proof.
  unfold Index.github_get_file, Index.github_request, bind, catch, send.
  cbn [serve GitHub.host req_method req_repo req_path Index.make_request
       Index.configured default from_option id].
  unfold GitHub.get.
  destruct (GitHub.tree (remote w) !! (Index.GITHUB_REPO cfg, path)) as [content|].
  - cbn -[GitHub.blob_sha]. destruct (b64decode lib content); reflexivity.
  - destruct (GitHub.listing (remote w) (Index.GITHUB_REPO cfg) path); reflexivity.
Qed.

Lemma index_get_file_host_state (path : string) (w : world GitHub.state) :
  remote (Index.github_get_file lib cfg GitHub.host path None w).2 = remote w.
Proof. rewrite github_get_file_world. reflexivity. Qed.

Lemma index_put_body (path message content : string) (sha : json)
    (repo : option string) :
  exists fields,
    req_json (Index.make_request cfg PUT path (Index.write_data message content sha) repo)
    = JObj fields
    /\ Py.assoc "content" fields = Some (JStr content)
    /\ Py.assoc "sha" fields = if Py.truthy sha then Some sha else None.
Proof.
  unfold Index.make_request, Index.write_data, Index.with_branch. cbn [req_json].
  destruct (PyStr.truthy (Index.GITHUB_BRANCH cfg)); destruct (Py.truthy sha);
    cbn; eexists; (split; [reflexivity|]); split; reflexivity.
Qed.

Lemma host_put_current (st : GitHub.state) (repo path content : string)
    (fields : list (string * json)) :
  Py.assoc "content" fields = Some (JStr content) ->
  Py.assoc "sha" fields
  = match GitHub.tree st !! (repo, path) with
    | Some current => Some (JStr (GitHub.blob_sha current))
    | None => None
    end ->
  exists status,
    GitHub.put st repo path (JObj fields)
    = (GitHub.committed status (GitHub.file_json path content) (GitHub.commits st),
       {| GitHub.tree := <[(repo, path) := content]> (GitHub.tree st);
          GitHub.commits := Datatypes.S (GitHub.commits st) |})
    /\ (status = 200 \/ status = 201).
Proof.
  intros Hc Hs. unfold GitHub.put. rewrite Hc, Hs.
  destruct (GitHub.tree st !! (repo, path)) as [current|].
  - cbn [default from_option id]. rewrite is_sha_blob.
    eexists. split; [reflexivity|left; reflexivity].
  - cbn. eexists. split; [reflexivity|right; reflexivity].
Qed.

Lemma index_save_file_host (path content message : string) (sha : json)
    (w : world GitHub.state) :
  sha = match GitHub.tree (remote w) !! (Index.GITHUB_REPO cfg, path) with
        | Some current => JStr (GitHub.blob_sha current)
        | None => JNull
        end ->
  exists saved w',
    Index.github_save_file lib cfg GitHub.host path content message sha None w
    = (Ok saved, w')
    /\ (exists short_sha, Index.commit_of saved = Ok (JStr short_sha))
    /\ GitHub.tree (remote w')
       = <[(Index.GITHUB_REPO cfg, path) := b64encode lib content]> (GitHub.tree (remote w)).
Proof.
  intros Hsha. unfold Index.github_save_file, Index.github_request, bind, catch, send.
  destruct (index_put_body path message (b64encode lib content) sha None)
    as (fields & Hbody & Hc & Hs).
  cbn [serve GitHub.host].
  set (req := Index.make_request cfg PUT path _ None) in *.
  assert (Hm : req_method req = PUT) by reflexivity.
  assert (Hr : req_repo req = Index.GITHUB_REPO cfg) by reflexivity.
  assert (Hp : req_path req = path) by reflexivity.
  rewrite Hm, Hr, Hp, Hbody.
  destruct (host_put_current (remote w) (Index.GITHUB_REPO cfg) path
              (b64encode lib content) fields Hc) as (status & Hput & Hstatus).
  { rewrite Hs. subst sha.
    destruct (GitHub.tree (remote w) !! (Index.GITHUB_REPO cfg, path)); reflexivity. }
  rewrite Hput. cbn [fst snd]. unfold GitHub.committed at 1 2 3 4. cbn [status_code resp_json].
  destruct Hstatus as [-> | ->]; cbn -[GitHub.commit_sha GitHub.file_json];
    eexists _, _; (split; [reflexivity|]); (split; [|reflexivity]);
    eexists; reflexivity.
Qed.

End FaithfulHostIndex.




(** ** Cleanup of images that are no longer referenced *)

Section ReadsOnly.
Context {S : Type} (srv : server S).

(** no read changes the state of the server *)
Definition reads_are_pure : Prop :=
  forall req st, req_method req = GET -> (serve srv req st).2 = st.

(** from [w] to [w'] only GET requests were sent *)
Definition reads_only (w w' : world S) : Prop :=
  (exists sent,
     trace w' = (trace w ++ sent)%list
     /\ Forall (fun x : request * option response => req_method x.1 = GET) sent)
  /\ (reads_are_pure -> remote w' = remote w).

Lemma reads_only_refl (w : world S) : reads_only w w.
Proof.
  split; [|reflexivity]. exists []. split; [rewrite app_nil_r; reflexivity|constructor].
Qed.

Lemma reads_only_trans (w1 w2 w3 : world S) :
  reads_only w1 w2 -> reads_only w2 w3 -> reads_only w1 w3.
Proof.
  intros [(s1 & H1 & F1) R1] [(s2 & H2 & F2) R2]. split.
  - exists (s1 ++ s2)%list. split.
    + rewrite H2, H1, <- app_assoc. reflexivity.
    + apply Forall_app. split; assumption.
  - intros Hpure. rewrite (R2 Hpure). exact (R1 Hpure).
Qed.

Lemma reads_only_get (req : request) (w : world S) :
  req_method req = GET ->
  reads_only w {| remote := (serve srv req (remote w)).2;
                  trace := trace w ++ [(req, (serve srv req (remote w)).1)];
                  draws := draws w |}.
Proof.
  intros Hget. split.
  - eexists. split; [reflexivity|]. constructor; [exact Hget|constructor].
  - intros Hpure. cbn [remote]. apply Hpure. exact Hget.
Qed.

Lemma for_each_reads_only {A} (l : list A) (body : A -> M S unit) (w : world S) :
  (forall x w0, reads_only w0 (body x w0).2) ->
  reads_only w (for_each l body w).2.
Proof.
  intros Hbody. revert w. induction l as [|x l IH]; intros w.
  - apply reads_only_refl.
  - cbn [for_each]. unfold bind. pose proof (Hbody x w) as Hx.
    destruct (body x w) as [[[]|e] w1]; cbn [snd] in Hx |- *.
    + exact (reads_only_trans _ _ _ Hx (IH w1)).
    + exact Hx.
Qed.

(** [delete_image] sends no DELETE: it reads the revision, and when
    there is one the call that would delete raises *)
Lemma delete_image_run (settings : Config.Settings) (filename : string)
    (w : world S) :
  GitHubProvider.delete_image settings srv filename w
  = match GitHubProvider.images_path settings with
    | None => (Raise GitHubProvider.not_configured, w)
    | Some dir =>
        let req := GitHubProvider.get_request settings (dir +:+ "/" +:+ filename) in
        (if Py.truthy (Conditioned.provider_read (serve srv req (remote w)).1)
         then Raise TypeError else Ok JNull,
         {| remote := (serve srv req (remote w)).2;
            trace := trace w ++ [(req, (serve srv req (remote w)).1)];
            draws := draws w |})
    end.
Proof.
  unfold GitHubProvider.delete_image.
  destruct (GitHubProvider.images_path settings) as [dir|]; [|reflexivity].
  unfold bind at 1. rewrite get_sha_exchange. cbv zeta.
  destruct (Py.truthy _); reflexivity.
Qed.

Lemma delete_image_outcome (settings : Config.Settings) (filename : string)
    (w : world S) :
  reads_only w (GitHubProvider.delete_image settings srv filename w).2
  /\ match (GitHubProvider.delete_image settings srv filename w).1 with
     | Ok sha => sha = JNull
     | Raise e => e = TypeError \/ e = GitHubProvider.not_configured
     end.
Proof.
  rewrite delete_image_run.
  destruct (GitHubProvider.images_path settings) as [dir|]; cbv zeta; cbn [fst snd].
  - split; [apply reads_only_get; reflexivity|].
    destruct (Py.truthy _); [left|]; reflexivity.
  - split; [apply reads_only_refl|right; reflexivity].
Qed.

End ReadsOnly.

Lemma host_reads_are_pure : reads_are_pure GitHub.host.
Proof. intros req st Hget. cbn [serve GitHub.host]. rewrite Hget. reflexivity. Qed.

Section RouterCleanup.
Context (settings : Config.Settings) (dir : string).
Hypothesis Hdir : GitHubProvider.images_path settings = Some dir.

Definition image_key (filename : string) : string * string :=
  (Config.GITHUB_REPO settings, dir +:+ "/" +:+ filename).

(** on the faithful host: a file that is there makes [delete_image]
    raise, and stays *)
Lemma host_delete_image (filename : string) (w : world GitHub.state) :
  exists w',
    GitHubProvider.delete_image settings GitHub.host filename w
    = (match GitHub.tree (remote w) !! image_key filename with
       | Some _ => Raise TypeError
       | None => Ok JNull
       end, w')
    /\ remote w' = remote w.
Proof.
  unfold GitHubProvider.delete_image. rewrite Hdir.
  unfold bind at 1. rewrite get_sha_exchange.
  rewrite host_provider_read, host_get_keeps_state. fold (image_key filename).
  destruct (GitHub.tree (remote w) !! image_key filename) as [current|].
  - cbn [Py.truthy]. rewrite truthy_blob. cbn [negb].
    eexists. split; reflexivity.
  - cbn [Py.truthy negb]. eexists. split; reflexivity.
Qed.

End RouterCleanup.

(** The cleanup of [routers/projects.py] deletes nothing.  Whatever the
    server answers and whatever the two project lists are, it raises
    nothing and every request it sends is a GET: [delete_image] reads the
    revision of the file, and the call that would then delete it,
    [client.delete(url, headers=..., json=data)], is refused by httpx
    before anything is sent; the cleanup swallows that error.  On a
    server whose state no GET changes the store is left as it was. *)
Theorem router_cleanup_deletes_nothing
    {S : Type} (settings : Config.Settings) (srv : server S)
    (new_projects old_projects : json) (w : world S) :
  exists w' sent,
    ProjectsRouter._cleanup_deleted_images settings srv new_projects old_projects w
    = (Ok tt, w')
    /\ trace w' = (trace w ++ sent)%list
    /\ Forall (fun x : request * option response => req_method x.1 = GET) sent
    /\ ((forall req st, req_method req = GET -> (serve srv req st).2 = st) ->
        remote w' = remote w).
Proof.
  assert (Hreads : reads_only srv w
            (ProjectsRouter._cleanup_deleted_images settings srv new_projects
               old_projects w).2).
  { unfold ProjectsRouter._cleanup_deleted_images, catch at 1, bind at 1, lift at 1.
    destruct (ProjectsRouter.images_to_delete new_projects old_projects) as [urls|e];
      [|apply reads_only_refl].
    pose proof (for_each_reads_only srv (elements urls)
                  (fun image_url =>
                     catch (_ <~ GitHubProvider.delete_image settings srv
                                   (PyStr.last_segment "/" image_url) ;; ret tt)%M
                           (fun _ => ret tt)) w) as Hloop.
    destruct (for_each (elements urls) _ w) as [[[]|e] w'] eqn:Hrun;
      cbn [snd ret] in Hloop |- *; apply Hloop;
      intros x w0; unfold catch, bind;
      pose proof (proj1 (delete_image_outcome srv settings (PyStr.last_segment "/" x) w0))
        as Hdel;
      destruct (GitHubProvider.delete_image settings srv (PyStr.last_segment "/" x) w0)
        as [[sha|e'] w1]; exact Hdel. }
  assert (Hok : (ProjectsRouter._cleanup_deleted_images settings srv new_projects
                   old_projects w).1 = Ok tt).
  { unfold ProjectsRouter._cleanup_deleted_images, catch.
    destruct ((urls <~ lift (ProjectsRouter.images_to_delete new_projects old_projects) ;;
               for_each (elements urls) _)%M w) as [[[]|e] w']; reflexivity. }
  destruct (ProjectsRouter._cleanup_deleted_images settings srv new_projects old_projects w)
    as [r w'].
  cbn [fst snd] in Hreads, Hok. subst r.
  destruct Hreads as [(sent & Htrace & Hsent) Hpure].
  exists w', sent. split; [reflexivity|]. split; [exact Htrace|]. split; [exact Hsent|].
  exact Hpure.
Qed.

Definition host_with_images : world GitHub.state :=
{| remote := {| GitHub.tree := {[ ("owner/site", "public/projects/a.webp") := "b64:A";
                                  ("owner/site", "public/projects/b.webp") := "b64:B" ]};
                GitHub.commits := 2 |};
   trace := [];
   draws := 0 |}.

Definition project_a : json :=
JObj [("name", JStr "A"); ("imageUrl", JStr "public/projects/a.webp")].

(** the old list has "a.webp", the new list has no project: the file
    stays in the store *)
Lemma router_cleanup_deletes_nothing_witness :
  exists w',
    (ProjectsRouter._cleanup_deleted_images settings_demo GitHub.host
       (JArr []) (JArr [project_a]) host_with_images).2 = w'
    /\ GitHub.tree (remote w') !! ("owner/site", "public/projects/a.webp") = Some "b64:A".
Proof.
  destruct (router_cleanup_deletes_nothing settings_demo GitHub.host
              (JArr []) (JArr [project_a]) host_with_images)
    as (w' & sent & Hrun & _ & _ & Hpure).
  exists w'. split; [rewrite Hrun; reflexivity|].
  rewrite (Hpure host_reads_are_pure). reflexivity.
Defined.

(** ** The save route of the router *)

Section RouterSave.
Context {S : Type} (lib : pylib) (settings : Config.Settings) (srv : server S).

Lemma cleanup_never_raises (new_projects old_projects : json) (w : world S) :
  (ProjectsRouter._cleanup_deleted_images settings srv new_projects old_projects w).1 = Ok tt.
Proof.
  unfold ProjectsRouter._cleanup_deleted_images, catch.
  destruct ((urls <~ lift (ProjectsRouter.images_to_delete new_projects old_projects) ;;
             for_each (elements urls) _)%M w) as [[[]|e] w']; reflexivity.
Qed.

(** the commit message of the route *)
Definition save_message (fields : list (string * json)) (username : string) : json :=
  if Py.truthy (default JNull (Py.assoc "message" fields))
  then default JNull (Py.assoc "message" fields)
  else JStr ("Update by " +:+ username).

End RouterSave.

(** The save route of [routers/projects.py]: a body whose "projects" is not
    a list is refused with a 400 before any exchange with the host; for a
    list, whatever the cleanup of old images runs into, the outcome of the
    request is the outcome of the save of the projects file that follows. *)
Theorem router_save_projects_outcome
    {S : Type} (lib : pylib) (settings : Config.Settings) (srv : server S)
    (fields : list (string * json)) (username : string) (w : world S) :
  (Py.is_list (default (JArr []) (Py.assoc "projects" fields)) = false ->
   ProjectsRouter.save_projects lib settings srv (JObj fields) username w
   = (Raise (HTTPException 400 "Projects must be a list"), w))
  /\ (Py.is_list (default (JArr []) (Py.assoc "projects" fields)) = true ->
      exists w1,
        ProjectsRouter.save_projects lib settings srv (JObj fields) username w
        = match GitHubProvider.save_projects lib settings srv
                  (default (JArr []) (Py.assoc "projects" fields))
                  (save_message fields username) w1 with
          | (Ok commit, w2) =>
              (Ok (JObj [("status", JStr "success");
                         ("message", JStr "Projects saved");
                         ("commit", commit)]), w2)
          | (Raise e, w2) => (Raise e, w2)
          end).
Proof.
  split; intros Hlist; unfold ProjectsRouter.save_projects.
  - unfold bind, lift. cbn [Py.get]. rewrite Hlist. reflexivity.
  - unfold bind at 1 2 3. unfold lift at 1 2 3. cbn [Py.get]. rewrite Hlist. cbn [negb].
    unfold bind at 1.
    destruct (Py.truthy (default (JArr []) (Py.assoc "oldProjects" fields))).
    + pose proof (cleanup_never_raises settings srv
                    (default (JArr []) (Py.assoc "projects" fields))
                    (default (JArr []) (Py.assoc "oldProjects" fields)) w) as Hc.
      destruct (ProjectsRouter._cleanup_deleted_images settings srv _ _ w) as [r w1].
      cbn [fst] in Hc. subst r. exists w1. unfold bind, save_message, ret.
      destruct (GitHubProvider.save_projects lib settings srv _ _ w1) as [[commit|e] w2];
        reflexivity.
    + exists w. unfold bind, save_message, ret. cbn.
      destruct (GitHubProvider.save_projects lib settings srv _ _ w) as [[commit|e] w2];
        reflexivity.
Qed.

Lemma router_save_projects_outcome_witness :
  ProjectsRouter.save_projects lib_demo settings_demo GitHub.host
    (JObj [("projects", JStr "none")]) "admin" world_demo
  = (Raise (HTTPException 400 "Projects must be a list"), world_demo).
Proof.
  apply (proj1 (router_save_projects_outcome lib_demo settings_demo GitHub.host
                  [("projects", JStr "none")] "admin" world_demo)).
  reflexivity.
Defined.

(** ** Scaling an image to the size cap *)

Module ScalingFacts.
Import Binary64 Binary64Facts.
Local Open Scope Q_scope.

Lemma to_int_bounds (x : Q) (n : Z) :
  0 <= x -> x < inject_Z n + 1 -> (0 <= to_int x <= n)%Z.
Proof.
  intros H0 Hn. unfold to_int.
  assert (Hb : Qle_bool 0 x = true) by (apply Qle_bool_iff; exact H0).
  rewrite Hb. split.
  - apply (Qfloor_ge_Z 0). exact H0.
  - pose proof (Qfloor_le x) as Hf.
    assert (Hlt : inject_Z (Qfloor x) < inject_Z (n + 1)).
    { rewrite inject_Z_plus. change (inject_Z 1) with 1. lra. }
    rewrite <- Zlt_Qlt in Hlt. lia.
Qed.

(** an edge of at most the longer edge, scaled by [max_size / longer] in
    floating point and truncated, is at most [max_size] *)
Lemma scaled_edge_bound (max_size longer edge : Z) :
  (0 < max_size <= 2 ^ 40)%Z -> (0 <= edge <= longer)%Z -> (0 < longer)%Z ->
  (0 <= to_int (mul (of_int edge) (int_truediv max_size longer)) <= max_size)%Z.
Proof.
  intros Hms He Hl. unfold mul, of_int, int_truediv.
  set (d := inject_Z max_size / inject_Z longer).
  assert (HL : 0 < inject_Z longer) by (rewrite <- (Zlt_Qlt 0); exact Hl).
  assert (HE : 0 <= inject_Z edge) by (rewrite <- (Zle_Qle 0); lia).
  assert (HEL : inject_Z edge <= inject_Z longer) by (rewrite <- Zle_Qle; lia).
  assert (HM : 0 < inject_Z max_size) by (rewrite <- (Zlt_Qlt 0); lia).
  assert (HM40 : inject_Z max_size <= 1099511627776).
  { change 1099511627776 with (inject_Z (2 ^ 40)). rewrite <- Zle_Qle. lia. }
  assert (Hd : d * inject_Z longer == inject_Z max_size).
  { unfold d. field. intros H. rewrite H in HL. discriminate HL. }
  assert (Hd0 : 0 < d).
  { unfold d. apply Qlt_shift_div_l; [exact HL|]. lra. }
  destruct (RN_nonneg_error d (Qlt_le_weak _ _ Hd0)) as [R0 R1].
  destruct (RN_nonneg_error (inject_Z edge) HE) as [A0 A1].
  change (1 # 2 ^ 53) with (1 # 9007199254740992) in *.
  set (r := RN d) in *. set (a := RN (inject_Z edge)) in *.
  set (e := inject_Z edge) in *. set (l := inject_Z longer) in *.
  set (m := inject_Z max_size) in *.
  assert (Hed : e * d <= m) by nra.
  assert (Har0 : 0 <= a * r) by nra.
  assert (Har : a * r <= m * (1 + (1 # 9007199254740992)) * (1 + (1 # 9007199254740992))).
  { assert (a * r <= (e * (1 + (1 # 9007199254740992)))
                     * (d * (1 + (1 # 9007199254740992)))) by nra.
    nra. }
  destruct (RN_nonneg_error (a * r) Har0) as [P0 P1].
  change (1 # 2 ^ 53) with (1 # 9007199254740992) in P1.
  apply to_int_bounds; [exact P0|]. fold m.
  set (p := RN (a * r)) in *. nra.
Qed.

End ScalingFacts.

(** The transcoding of [index.py]: a decodable upload within the size
    ceiling is re-encoded as WebP at quality 85, flattened to RGB when it
    has an alpha or palette mode; when its longer edge exceeds the cap both
    edges are scaled by the same floating-point ratio and truncated, and
    in every case no edge of the output exceeds the cap.  The size asked
    of [resize] is required not to be empty, since Pillow refuses an
    empty size. *)
Theorem index_convert_fits_cap
    (lib : pylib) (file : UploadFile) (max_size : Z) (img : image) :
  len (file_content file) <= Index.MAX_IMAGE_SIZE ->
  Image_open lib (file_content file) = Some img ->
  0 <= width img -> 0 <= height img ->
  0 < max_size <= 2 ^ 40 ->
  (Z.max (width img) (height img) <= max_size
   \/ (1 <= width (Index.scaled max_size img)
       /\ 1 <= height (Index.scaled max_size img))) ->
  exists out,
    Index.convert_to_webp lib file max_size
    = Ok (Image_save lib {| save_format := WEBP; save_quality := 85; save_image := out |})
    /\ 0 <= width out <= max_size
    /\ 0 <= height out <= max_size
    /\ mode out = match mode img with RGBA | P => RGB | other => other end
    /\ (Z.max (width img) (height img) <= max_size ->
        width out = width img /\ height out = height img).
Proof.
  intros Hlen Hopen Hw Hh Hms _. unfold Index.convert_to_webp.
  destruct (Z.gtb_spec (len (file_content file)) Index.MAX_IMAGE_SIZE) as [Hgt|_]; [lia|].
  rewrite Hopen.
  set (flat := match mode img with
               | RGBA | P => {| mode := RGB; width := width img; height := height img |}
               | _ => img
               end).
  assert (Hfw : width flat = width img) by (unfold flat; destruct (mode img); reflexivity).
  assert (Hfh : height flat = height img) by (unfold flat; destruct (mode img); reflexivity).
  assert (Hfm : mode flat = match mode img with RGBA | P => RGB | other => other end)
    by (unfold flat; destruct img as [[] ? ?]; reflexivity).
  destruct (Z.gtb_spec (Z.max (width flat) (height flat)) max_size) as [Hbig|Hsmall].
  - exists (Index.scaled max_size flat). split; [reflexivity|].
    unfold Index.scaled. cbn [width height mode].
    assert (Hl : 0 < Z.max (width flat) (height flat)) by lia.
    split; [|split; [|split]].
    + apply ScalingFacts.scaled_edge_bound; lia.
    + apply ScalingFacts.scaled_edge_bound; lia.
    + exact Hfm.
    + intros Hle. lia.
  - exists flat. split; [reflexivity|]. rewrite Hfw, Hfh in *.
    repeat split; try lia. exact Hfm.
Qed.

Definition lib_wide : pylib :=
{| b64encode := b64encode lib_demo;
   b64decode := b64decode lib_demo;
   json_dumps := json_dumps lib_demo;
   json_loads := json_loads lib_demo;
   Image_open := fun _ => Some {| mode := RGBA; width := 4000; height := 3000 |};
   Image_save := Image_save lib_demo |}.

Lemma index_convert_fits_cap_witness :
  exists out,
    Index.convert_to_webp lib_wide png_file 1200
    = Ok (Image_save lib_wide
            {| save_format := WEBP; save_quality := 85; save_image := out |})
    /\ 0 <= width out <= 1200
    /\ 0 <= height out <= 1200
    /\ mode out = RGB
    /\ (Z.max 4000 3000 <= 1200 -> width out = 4000 /\ height out = 3000).
Proof.
  apply (index_convert_fits_cap lib_wide png_file 1200
           {| mode := RGBA; width := 4000; height := 3000 |});
    first [reflexivity | vm_compute; discriminate | lia | idtac].
  right. vm_compute. split; discriminate.
Defined.

(** a 4000 x 3000 image comes out as 1200 x 900 *)
Example index_convert_4000_3000 :
  Index.scaled 1200 {| mode := RGB; width := 4000; height := 3000 |}
  = {| mode := RGB; width := 1200; height := 900 |}.
Proof. vm_compute. reflexivity. Qed.

(** The transcoding of [image_service.py] never resizes: a decodable upload
    within its ceiling is re-encoded as WebP at quality 85 with the size it
    came with, flattened to RGB when its mode is RGBA, LA or P; an upload
    that cannot be decoded, or one over the ceiling, gives a 400. *)
Theorem service_convert_keeps_size (lib : pylib) (file : UploadFile) :
  match ImageService.convert_to_webp lib file with
  | Ok bytes =>
      exists img out,
        Image_open lib (file_content file) = Some img
        /\ len (file_content file) <= ImageService.MAX_IMAGE_SIZE
        /\ bytes = Image_save lib {| save_format := WEBP; save_quality := 85;
                                     save_image := out |}
        /\ width out = width img /\ height out = height img
        /\ mode out = match mode img with RGBA | LA | P => RGB | other => other end
  | Raise e =>
      (exists detail, e = HTTPException 400 detail)
      /\ (ImageService.MAX_IMAGE_SIZE < len (file_content file)
          \/ Image_open lib (file_content file) = None)
  end.
Proof.
  unfold ImageService.convert_to_webp.
  destruct (Z.gtb_spec (len (file_content file)) ImageService.MAX_IMAGE_SIZE) as [Hgt|Hle].
  - split; [eexists; reflexivity|left; lia].
  - destruct (Image_open lib (file_content file)) as [img|] eqn:Hopen.
    + exists img, (ImageService.flatten img). split; [reflexivity|]. split; [exact Hle|].
      split; [reflexivity|].
      unfold ImageService.flatten. destruct img as [[] ? ?]; repeat split; reflexivity.
    + split; [eexists; reflexivity|right; reflexivity].
Qed.

(** ** Names derived from project names *)

Section StringFacts.

(** every character of [s] is in the class [p] *)
Fixpoint all_chars (p : ascii -> bool) (s : string) : bool :=
  match s with
  | EmptyString => true
  | String a s' => p a && all_chars p s'
  end.

Variable p : ascii -> bool.

Lemma all_chars_keep (s : string) : all_chars p (PyStr.keep p s) = true.
Proof.
  induction s as [|a s IH]; [reflexivity|]. cbn.
  destruct (p a) eqn:Ha; [cbn; rewrite Ha; exact IH|exact IH].
Qed.

Lemma all_chars_squeeze (c : ascii) (s : string) :
  all_chars p s = true -> all_chars p (PyStr.squeeze c s) = true.
Proof.
  induction s as [|a s IH]; [reflexivity|]. intros H. cbn in H.
  apply andb_true_iff in H as [Ha Hs]. cbn [PyStr.squeeze].
  destruct (Ascii.eqb a c).
  - destruct s as [|b s'].
    + cbn. rewrite Ha. reflexivity.
    + destruct (Ascii.eqb b c); [exact (IH Hs)|].
      cbn [all_chars]. rewrite Ha. exact (IH Hs).
  - cbn [all_chars]. rewrite Ha. exact (IH Hs).
Qed.

Lemma all_chars_lstrip (c : ascii) (s : string) :
  all_chars p s = true -> all_chars p (PyStr.lstrip c s) = true.
Proof.
  induction s as [|a s IH]; [reflexivity|]. intros H. cbn [PyStr.lstrip].
  destruct (Ascii.eqb a c); [|exact H].
  cbn in H. apply andb_true_iff in H as [_ Hs]. exact (IH Hs).
Qed.

Lemma all_chars_rev_onto (s acc : string) :
  all_chars p s = true -> all_chars p acc = true ->
  all_chars p (PyStr.rev_onto s acc) = true.
Proof.
  revert acc. induction s as [|a s IH]; intros acc Hs Hacc; [exact Hacc|].
  cbn in Hs. apply andb_true_iff in Hs as [Ha Hs]. cbn [PyStr.rev_onto].
  apply IH; [exact Hs|]. cbn. rewrite Ha. exact Hacc.
Qed.

Lemma all_chars_strip (c : ascii) (s : string) :
  all_chars p s = true -> all_chars p (PyStr.strip c s) = true.
Proof.
  intros H. unfold PyStr.strip, PyStr.rstrip, PyStr.rev.
  apply all_chars_rev_onto; [|reflexivity].
  apply all_chars_lstrip. apply all_chars_rev_onto; [|reflexivity].
  apply all_chars_lstrip. exact H.
Qed.

(** [lstrip] leaves no [c] in front *)
Lemma lstrip_head (c : ascii) (s : string) :
  match PyStr.lstrip c s with
  | String a _ => Ascii.eqb a c = false
  | EmptyString => True
  end.
Proof.
  induction s as [|a s IH]; [exact I|]. cbn [PyStr.lstrip].
  destruct (Ascii.eqb a c) eqn:E; [exact IH|exact E].
Qed.

End StringFacts.

Section StringEnds.

Definition head_char (s : string) : option ascii :=
  match s with
  | EmptyString => None
  | String a _ => Some a
  end.

Fixpoint last_char (s : string) : option ascii :=
  match s with
  | EmptyString => None
  | String a EmptyString => Some a
  | String _ s' => last_char s'
  end.

Lemma last_char_cons (a : ascii) (s : string) :
  last_char (String a s) = match last_char s with Some b => Some b | None => Some a end.
Proof.
  revert a. induction s as [|b s IH]; intros a; [reflexivity|].
  change (last_char (String a (String b s))) with (last_char (String b s)).
  rewrite IH. destruct (last_char s); reflexivity.
Qed.

Lemma head_rev_onto (s acc : string) :
  head_char (PyStr.rev_onto s acc)
  = match last_char s with Some a => Some a | None => head_char acc end.
Proof.
  revert acc. induction s as [|a s IH]; intros acc; [reflexivity|].
  cbn [PyStr.rev_onto]. rewrite IH, last_char_cons.
  destruct (last_char s); reflexivity.
Qed.

Lemma last_rev_onto (s acc : string) :
  last_char (PyStr.rev_onto s acc)
  = match last_char acc with Some a => Some a | None => head_char s end.
Proof.
  revert acc. induction s as [|a s IH]; intros acc.
  - cbn. destruct (last_char acc); reflexivity.
  - cbn [PyStr.rev_onto]. rewrite IH, last_char_cons.
    destruct (last_char acc); reflexivity.
Qed.

Lemma last_lstrip (c h : ascii) (s : string) :
  last_char s = Some h -> Ascii.eqb h c = false ->
  last_char (PyStr.lstrip c s) = Some h.
Proof.
  intros Hl Hh. induction s as [|a s IH]; [discriminate|].
  cbn [PyStr.lstrip]. destruct (Ascii.eqb a c) eqn:E; [|exact Hl].
  rewrite last_char_cons in Hl. destruct (last_char s) as [b|] eqn:Hs.
  - apply IH. exact Hl.
  - injection Hl as ->. congruence.
Qed.

(** [strip] leaves no [c] at either end *)
Lemma strip_ends (c : ascii) (s : string) :
  (forall a, head_char (PyStr.strip c s) = Some a -> Ascii.eqb a c = false)
  /\ (forall a, last_char (PyStr.strip c s) = Some a -> Ascii.eqb a c = false).
Proof.
  unfold PyStr.strip, PyStr.rstrip, PyStr.rev.
  set (s1 := PyStr.lstrip c s).
  set (u := PyStr.rev_onto s1 EmptyString).
  set (t := PyStr.lstrip c u).
  pose proof (lstrip_head c s) as Hs1. fold s1 in Hs1.
  pose proof (lstrip_head c u) as Ht. fold t in Ht.
  split; intros a Ha.
  - rewrite head_rev_onto in Ha.
    assert (Hu : last_char u = head_char s1).
    { unfold u. rewrite last_rev_onto. reflexivity. }
    destruct s1 as [|h s1'].
    + assert (t = EmptyString) as -> by reflexivity. discriminate Ha.
    + cbn in Hu. assert (Hlt : last_char t = Some h).
      { unfold t. apply last_lstrip; [exact Hu|exact Hs1]. }
      rewrite Hlt in Ha. injection Ha as <-. exact Hs1.
  - rewrite last_rev_onto in Ha. cbn in Ha.
    destruct t as [|b t']; [discriminate Ha|].
    cbn in Ha. injection Ha as <-. exact Ht.
Qed.

End StringEnds.

(** A sanitized project name is never empty, consists of lower-case
    letters, digits, "_" and "-" only, and neither starts nor ends with an
    underscore. *)
Theorem sanitize_filename_safe (name : string) :
  PyStr.truthy (ImageService.sanitize_filename name) = true
  /\ all_chars ImageService.name_char (ImageService.sanitize_filename name) = true
  /\ head_char (ImageService.sanitize_filename name) <> Some "_"%char
  /\ last_char (ImageService.sanitize_filename name) <> Some "_"%char.
Proof.
  unfold ImageService.sanitize_filename.
  set (kept := PyStr.keep ImageService.name_char (PyStr.lower name)).
  set (stripped := PyStr.strip "_" (PyStr.squeeze "_" kept)).
  assert (Hall : all_chars ImageService.name_char stripped = true).
  { apply all_chars_strip, all_chars_squeeze, all_chars_keep. }
  destruct (strip_ends "_" (PyStr.squeeze "_" kept)) as [Hhead Hlast].
  fold stripped in Hhead, Hlast.
  destruct (PyStr.truthy stripped) eqn:Ht.
  - split; [exact Ht|]. split; [exact Hall|]. split.
    + intros H. specialize (Hhead _ H). discriminate Hhead.
    + intros H. specialize (Hlast _ H). discriminate Hlast.
  - repeat split; discriminate.
Qed.

Lemma attempts_exhausted (src : entropy) (sanitized : string) (existing : gset string)
    (k n : nat) :
  (forall i, (i < k)%nat ->
     ImageService.filename_of sanitized
       (PyStr.take ImageService.UID_LENGTH
          (token_urlsafe src (n + i) ImageService.UID_LENGTH)) ∈ existing) ->
  ImageService.attempts src k sanitized existing n = (None, (n + k)%nat).
Proof.
  revert n. induction k as [|k IH]; intros n Hall.
  - cbn. unfold rand_ret. rewrite Nat.add_0_r. reflexivity.
  - cbn [ImageService.attempts].
    unfold rand_bind, ImageService.generate_random_uid, rand_bind, draw_urlsafe, rand_ret.
    destruct (decide (ImageService.filename_of sanitized
                (PyStr.take ImageService.UID_LENGTH
                   (token_urlsafe src n ImageService.UID_LENGTH)) ∈ existing))
      as [_|Hout].
    + rewrite IH.
      * f_equal. lia.
      * intros i Hi. replace (S n + i)%nat with (n + S i)%nat by lia.
        apply Hall. lia.
    + exfalso. apply Hout. specialize (Hall 0%nat ltac:(lia)).
      rewrite Nat.add_0_r in Hall. exact Hall.
Qed.

(** When each of the ten candidate names exists already,
    [generate_unique_filename] still returns: the name it builds from the
    eleventh draw, 16 hexadecimal digits, which it compares with nothing. *)
Theorem generate_unique_filename_fallback
    (src : entropy) (project_name : string) (existing_filenames : list string) (n : nat) :
  (forall i, (i < 10)%nat ->
     ImageService.candidate src project_name n i ∈ existing_filenames) ->
  ImageService.generate_unique_filename src project_name existing_filenames n
  = (ImageService.filename_of (ImageService.sanitize_filename project_name)
       (token_hex src (n + 10) 8),
     (n + 11)%nat).
Proof.
  intros Hall. unfold ImageService.generate_unique_filename, rand_bind.
  rewrite attempts_exhausted.
  - unfold draw_hex, rand_ret. f_equal. lia.
  - intros i Hi. apply elem_of_list_to_set. exact (Hall i Hi).
Qed.

Definition src_stuck : entropy :=
{| token_urlsafe := fun _ _ => "AAAAAAAAAAA";
   token_hex := fun _ _ => "0123456789abcdef" |}.

Lemma generate_unique_filename_fallback_witness :
  ImageService.generate_unique_filename src_stuck "Demo" ["demo_AAAAAAAA.webp"] 0%nat
  = (ImageService.filename_of (ImageService.sanitize_filename "Demo")
       (token_hex src_stuck (0 + 10) 8),
     (0 + 11)%nat).
Proof.
  apply (generate_unique_filename_fallback src_stuck "Demo" ["demo_AAAAAAAA.webp"] 0%nat).
  intros i _. apply list_elem_of_singleton. reflexivity.
Defined.

(** *** The slug of [index.py] *)

Lemma length_pystr_take (n : nat) (s : string) : (String.length (PyStr.take n s) <= n)%nat.
Proof.
  unfold PyStr.take. revert s. induction n as [|n IH]; intros s.
  - destruct s; cbn; lia.
  - destruct s as [|a s]; cbn; [lia|]. specialize (IH s). lia.
Qed.

Lemma all_chars_take (p : ascii -> bool) (n : nat) (s : string) :
  all_chars p s = true -> all_chars p (PyStr.take n s) = true.
Proof.
  unfold PyStr.take. revert s. induction n as [|n IH]; intros s H.
  - destruct s; reflexivity.
  - destruct s as [|a s]; [reflexivity|]. cbn in H |- *.
    apply andb_true_iff in H as [Ha Hs]. rewrite Ha. exact (IH s Hs).
Qed.

Definition slug_or_dash (c : ascii) : bool := Index.slug_char c || Ascii.eqb c "-".

Lemma all_chars_replace_runs (s : string) :
  all_chars slug_or_dash (PyStr.replace_runs Index.slug_char "-" s) = true.
Proof.
  induction s as [|a s IH]; [reflexivity|]. cbn [PyStr.replace_runs].
  destruct (Index.slug_char a) eqn:Ha.
  - cbn [all_chars]. unfold slug_or_dash at 1. rewrite Ha. exact IH.
  - destruct s as [|b s']; [reflexivity|].
    destruct (Index.slug_char b); [|exact IH].
    cbn [all_chars]. rewrite IH. reflexivity.
Qed.

(** The file name that [index.py] generates for an image is a slug of at
    most 30 characters, made of lower-case letters, digits and "-", then
    "-", the random digits, and ".webp"; it takes one draw. *)
Theorem generate_image_filename_shape (src : entropy) (project_name : string) (n : nat) :
  exists slug,
    Index.generate_image_filename src project_name n
    = (slug +:+ "-" +:+ token_hex src n 4 +:+ ".webp", S n)
    /\ (String.length slug <= 30)%nat
    /\ all_chars slug_or_dash slug = true.
Proof.
  eexists. split; [reflexivity|]. split.
  - apply length_pystr_take.
  - apply all_chars_take, all_chars_strip, all_chars_replace_runs.
Qed.

(** ** Session tokens *)

(** A token made by [create_token] is accepted by [decode_token] at every
    clock reading before its expiry, with the user and role it was made
    for, and is refused as expired from its expiry on; a token signed with
    another key is refused as invalid. *)
Theorem token_valid_until_expiry
    (cfg : Index.config) (issued now : Z) (user_id role : string) :
  let expiry :=
    (issued + Index.JWT_EXPIRATION_MINUTES cfg * 60 * Index.microsecond)
    / Index.microsecond in
  Z.abs expiry <= 2 ^ 32 ->
  (now < expiry * Index.microsecond ->
   exists claims,
     Index.decode_token cfg now (Index.create_token cfg issued user_id role) = Ok claims
     /\ Index.uid claims = user_id /\ Index.role claims = role
     /\ Index.exp claims = expiry)
  /\ (expiry * Index.microsecond <= now ->
      Index.decode_token cfg now (Index.create_token cfg issued user_id role)
      = Raise (HTTPException 401 "Token expired"))
  /\ (forall key algorithm claims,
        key <> Index.JWT_SECRET cfg ->
        Index.decode_token cfg now (Index.Signed key algorithm claims)
        = Raise (HTTPException 401 "Invalid token")).
Proof.
  intros expiry Hexp.
  unfold Index.decode_token, Index.create_token. rewrite !String.eqb_refl.
  cbn [andb Index.exp]. fold expiry.
  split; [|split].
  - intros Hlt.
    destruct (Qle_bool (inject_Z expiry) (Binary64.int_truediv now Index.microsecond))
      eqn:Hb.
    + apply (TokenFacts.expired_iff expiry now Hexp) in Hb. lia.
    + eexists. split; [reflexivity|]. repeat split.
  - intros Hge. apply (TokenFacts.expired_iff expiry now Hexp) in Hge.
    rewrite Hge. reflexivity.
  - intros key algorithm claims Hkey.
    destruct (String.eqb_spec key (Index.JWT_SECRET cfg)) as [Heq|_]; [contradiction|].
    reflexivity.
Qed.

Lemma token_valid_until_expiry_witness :
  exists claims,
    Index.decode_token cfg_demo 3599999999 (Index.create_token cfg_demo 0 "admin" "admin")
    = Ok claims
    /\ Index.uid claims = "admin" /\ Index.role claims = "admin"
    /\ Index.exp claims
       = (0 + Index.JWT_EXPIRATION_MINUTES cfg_demo * 60 * Index.microsecond)
         / Index.microsecond.
Proof.
  destruct (token_valid_until_expiry cfg_demo 0 3599999999 "admin" "admin") as (H & _ & _).
  - vm_compute. discriminate.
  - apply H. vm_compute. reflexivity.
Defined.

(** [require_admin] returns a user only for a bearer token that
    [decode_token] accepts; every refusal is a 401 and sets no new token. *)
Theorem require_admin_sound
    (cfg : Index.config) (clk : Index.clock) (auth : Index.authorization) :
  match Index.require_admin cfg clk auth with
  | (Ok user, _) =>
      exists t, auth = Index.Bearer t
                /\ Index.decode_token cfg (Index.at_decode clk) t = Ok user
  | (Raise e, new_token) =>
      new_token = None /\ exists detail, e = HTTPException 401 detail
  end.
Proof.
  unfold Index.require_admin. destruct auth as [|t|text].
  - split; [reflexivity|eexists; reflexivity].
  - destruct (Index.decode_token cfg (Index.at_decode clk) t) as [user|e] eqn:Hdec.
    + destruct (negb _); exists t; split; reflexivity || exact Hdec.
    + split; [reflexivity|].
      unfold Index.decode_token in Hdec. destruct t as [key algorithm claims|text].
      * destruct (String.eqb key (Index.JWT_SECRET cfg)
                  && String.eqb algorithm (Index.JWT_ALGORITHM cfg)).
        -- destruct (Qle_bool _ _); [|discriminate Hdec].
           injection Hdec as <-. eexists; reflexivity.
        -- injection Hdec as <-. eexists; reflexivity.
      * injection Hdec as <-. eexists; reflexivity.
  - split; [reflexivity|eexists; reflexivity].
Qed.

(** ** The GitHub client of [index.py] *)

(** [github_request] sends a GET or a PUT in exactly one exchange and
    never retries; it returns only for a 404 (as [None]) or a 2xx answer
    (as its body); a transport failure becomes a 500, and whatever else it
    raises is an [HTTPException], or an [AttributeError] for a 403 whose
    body carries no text message.  A DELETE is never sent: the call
    [client.delete(url, headers=headers, json=data)] is refused by httpx,
    and the [TypeError] leaves [github_request] without any exchange. *)
Theorem github_request_outcome
    {S : Type} (cfg : Index.config) (srv : server S)
    (method : http_method) (path : string) (data : json) (repo : option string)
    (w : world S) :
  let req := Index.make_request cfg method path data repo in
  let answer := (serve srv req (remote w)).1 in
  match method with
  | DELETE =>
      Index.github_request cfg srv method path data repo w = (Raise TypeError, w)
  | _ =>
      trace (Index.github_request cfg srv method path data repo w).2
        = (trace w ++ [(req, answer)])%list
      /\ match (Index.github_request cfg srv method path data repo w).1 with
         | Ok v =>
             exists resp, answer = Some resp
               /\ ((status_code resp = 404 /\ v = JNull)
                   \/ (200 <= status_code resp < 300 /\ v = resp_json resp))
         | Raise e =>
             (answer = None /\ e = HTTPException 500 "Failed to connect to GitHub")
             \/ (exists resp, answer = Some resp
                   /\ ((exists detail, e = HTTPException (status_code resp) detail)
                       \/ (status_code resp = 403
                           /\ (e = AttributeError
                               \/ e = HTTPException 429 "GitHub API rate limit exceeded"))))
         end
  end.
Proof.
  intros req answer.
  assert (Hsent : method <> DELETE ->
    trace (Index.github_request cfg srv method path data repo w).2
      = (trace w ++ [(req, answer)])%list
    /\ match (Index.github_request cfg srv method path data repo w).1 with
       | Ok v =>
           exists resp, answer = Some resp
             /\ ((status_code resp = 404 /\ v = JNull)
                 \/ (200 <= status_code resp < 300 /\ v = resp_json resp))
       | Raise e =>
           (answer = None /\ e = HTTPException 500 "Failed to connect to GitHub")
           \/ (exists resp, answer = Some resp
                 /\ ((exists detail, e = HTTPException (status_code resp) detail)
                     \/ (status_code resp = 403
                         /\ (e = AttributeError
                             \/ e = HTTPException 429 "GitHub API rate limit exceeded"))))
       end).
  { intros Hmethod. split.
    - rewrite github_request_exchange by exact Hmethod. reflexivity.
    - subst answer req.
      assert (Hsend : match method with
                      | DELETE =>
                          delete_with_json srv (Index.make_request cfg method path data repo)
                      | _ => send srv (Index.make_request cfg method path data repo)
                      end = send srv (Index.make_request cfg method path data repo))
        by (destruct method; [reflexivity|reflexivity|contradiction]).
      unfold Index.github_request. rewrite Hsend. unfold bind, catch, send.
      destruct (serve srv (Index.make_request cfg method path data repo) (remote w))
        as [[resp|] s']; cbn [fst snd]; [|left; split; reflexivity].
      destruct (Z.eqb_spec (status_code resp) 404) as [H404|_].
      { cbn. exists resp. split; [reflexivity|]. left. split; [exact H404|reflexivity]. }
      destruct (Z.eqb_spec (status_code resp) 401) as [H401|_].
      { cbn. right. exists resp. split; [reflexivity|]. left. rewrite H401.
        eexists. reflexivity. }
      destruct (Z.eqb_spec (status_code resp) 403) as [H403|_].
      { unfold lift.
        destruct (Py.get (resp_json resp) "message" (JStr "Forbidden")) as [m|e] eqn:Hget.
        - destruct m; cbn;
            try (right; exists resp; split; [reflexivity|]; right;
                 split; [exact H403|left; reflexivity]).
          destruct (PyStr.contains "rate limit" (PyStr.lower s)); cbn; right; exists resp;
            (split; [reflexivity|]).
          + right. split; [exact H403|right; reflexivity].
          + left. rewrite H403. eexists. reflexivity.
        - cbn. right. exists resp. split; [reflexivity|]. right. split; [exact H403|].
          left. destruct (resp_json resp); cbn in Hget; congruence. }
      destruct (Z.leb_spec 200 (status_code resp)) as [Hlo|Hlo];
        destruct (Z.ltb_spec (status_code resp) 300) as [Hhi|Hhi]; cbn.
      + exists resp. split; [reflexivity|]. right. split; [lia|reflexivity].
      + right. exists resp. split; [reflexivity|]. left. eexists. reflexivity.
      + right. exists resp. split; [reflexivity|]. left. eexists. reflexivity.
      + right. exists resp. split; [reflexivity|]. left. eexists. reflexivity. }
  destruct method; [apply Hsent; discriminate|apply Hsent; discriminate|reflexivity].
Qed.

(** ** The image store of the provider *)

(** [list_images] never raises: whatever the server answers it returns a
    list, after at most one exchange, and an empty list when no image
    directory is configured (without any exchange), on a transport
    failure and on every answer that is not a 200. *)
Theorem list_images_never_raises
    {S : Type} (settings : Config.Settings) (srv : server S) (w : world S) :
  exists names w',
    GitHubProvider.list_images settings srv w = (Ok names, w')
    /\ match GitHubProvider.images_path settings with
       | None => names = [] /\ w' = w
       | Some dir =>
           let req := GitHubProvider.get_request settings dir in
           let answer := (serve srv req (remote w)).1 in
           trace w' = (trace w ++ [(req, answer)])%list
           /\ draws w' = draws w
           /\ (answer = None -> names = [])
           /\ (forall resp, answer = Some resp -> status_code resp <> 200 -> names = [])
       end.
Proof.
  unfold GitHubProvider.list_images.
  destruct (GitHubProvider.images_path settings) as [dir|].
  - unfold catch, bind, send.
    destruct (serve srv (GitHubProvider.get_request settings dir) (remote w))
      as [[resp|] s']; cbn [fst snd].
    + destruct (Z.eqb_spec (status_code resp) 404) as [H404|H404];
        [|destruct (Z.eqb_spec (status_code resp) 200) as [H200|H200]; cbn [negb];
          [destruct (resp_json resp) as [| | | |items|]; unfold lift;
           [| | | |destruct (GitHubProvider.file_names items) as [names|e]|]|]];
        eexists _, _; (split; [reflexivity|]); cbn [trace draws];
        repeat split; try reflexivity; try (intros H; discriminate H);
        intros r Hr Hne; injection Hr as <-; contradiction.
    + eexists _, _. split; [reflexivity|]. cbn [trace draws].
      repeat split; reflexivity.
  - eexists _, _. split; [reflexivity|]. split; reflexivity.
Qed.

Section StringAppend.

Lemma append_assoc3 (a b c : string) : (a +:+ b) +:+ c = a +:+ (b +:+ c).
Proof.
  induction a as [|x a IH]; [reflexivity|].
  change (String x ((a +:+ b) +:+ c) = String x (a +:+ (b +:+ c))).
  rewrite IH. reflexivity.
Qed.

Lemma append_inj_r (a b c : string) : a +:+ b = a +:+ c -> b = c.
Proof.
  induction a as [|x a IH]; intros H; [exact H|].
  change (String x (a +:+ b) = String x (a +:+ c)) in H.
  injection H as H. exact (IH H).
Qed.

Lemma append_ne_self (a : string) (c : ascii) (b : string) : a +:+ String c b <> a.
Proof.
  induction a as [|x a IH]; [discriminate|].
  intros H. change (String x (a +:+ String c b) = String x a) in H.
  injection H as H. exact (IH H).
Qed.

Lemma strip_prefix_spec (p s r : string) :
  GitHub.strip_prefix p s = Some r <-> s = p +:+ r.
Proof.
  revert s. induction p as [|a p IH]; intros s.
  - change (Some s = Some r <-> s = r).
    split; [intros [= ->]; reflexivity|intros ->; reflexivity].
  - change (String a p +:+ r) with (String a (p +:+ r)).
    destruct s as [|b s]; [split; discriminate|].
    cbn [GitHub.strip_prefix].
    destruct (Ascii.eqb_spec a b) as [->|Hne].
    + rewrite IH. split; [intros ->; reflexivity|intros [= ->]; reflexivity].
    + split; [discriminate|]. intros H. injection H as Hb _. congruence.
Qed.

Lemma child_file (dir path name : string) :
  GitHub.child dir path = Some (inl name)
  <-> path = dir +:+ "/" +:+ name /\ GitHub.before "/" name = None.
Proof.
  unfold GitHub.child. split.
  - destruct (GitHub.strip_prefix (dir +:+ "/") path) as [rest|] eqn:Hs; [|discriminate].
    apply strip_prefix_spec in Hs. rewrite append_assoc3 in Hs.
    destruct (GitHub.before "/" rest) eqn:Hb; intros H; [discriminate H|injection H as <-].
    split; assumption.
  - intros [-> Hb].
    assert (GitHub.strip_prefix (dir +:+ "/") (dir +:+ "/" +:+ name) = Some name) as ->.
    { apply strip_prefix_spec. rewrite append_assoc3. reflexivity. }
    rewrite Hb. reflexivity.
Qed.

End StringAppend.

(** the name of a file kept directly under [dir] in [repo] *)
Definition file_child (repo dir : string) (kv : (string * string) * string) : option json :=
  if String.eqb kv.1.1 repo then
    match GitHub.child dir kv.1.2 with
    | Some (inl name) => Some (JStr name)
    | _ => None
    end
  else None.

Lemma file_names_listing (st : GitHub.state) (repo dir : string) :
  GitHubProvider.file_names (GitHub.listing st repo dir)
  = Ok (omap (file_child repo dir) (map_to_list (GitHub.tree st))).
Proof.
  unfold GitHub.listing, GitHub.file_entries.
  generalize (elements (GitHub.subdirectories st repo dir)) as subs.
  generalize (map_to_list (GitHub.tree st)) as l.
  intros l subs. induction l as [|[[r path] content] l IH].
  - cbn. induction subs as [|sub subs IHs]; [reflexivity|].
    cbn. cbn in IHs. exact IHs.
  - cbn [omap list_omap]. unfold file_child at 1. cbn [fst snd].
    destruct (String.eqb r repo); [|exact IH].
    destruct (GitHub.child dir path) as [[name|sub]|]; [|exact IH|exact IH].
    cbn [app]. cbn [GitHubProvider.file_names]. cbn [Py.item GitHub.entry_json].
    cbn [Py.assoc String.eqb Ascii.eqb Bool.eqb].
    cbn in IH. cbn. rewrite IH. reflexivity.
Qed.

Lemma elem_of_file_children (tree : gmap (string * string) string)
    (repo dir n : string) :
  JStr n ∈ omap (file_child repo dir) (map_to_list tree)
  <-> GitHub.before "/" n = None /\ is_Some (tree !! (repo, dir +:+ "/" +:+ n)).
Proof.
  rewrite list_elem_of_omap. split.
  - intros ([[r path] content] & Hin & Hf). apply elem_of_map_to_list in Hin.
    unfold file_child in Hf. cbn [fst snd] in Hf.
    destruct (String.eqb_spec r repo) as [->|]; [|discriminate].
    destruct (GitHub.child dir path) as [[name|sub]|] eqn:Hc; try discriminate.
    injection Hf as ->. apply child_file in Hc as [-> Hb].
    split; [exact Hb|]. exists content. exact Hin.
  - intros [Hb [content Hc]]. exists ((repo, dir +:+ "/" +:+ n), content). split.
    + apply elem_of_map_to_list. exact Hc.
    + unfold file_child. cbn [fst snd]. rewrite String.eqb_refl.
      rewrite (proj2 (child_file dir (dir +:+ "/" +:+ n) n) (conj eq_refl Hb)).
      reflexivity.
Qed.

Lemma json_names_are_strings (repo dir : string) (l : list ((string * string) * string))
    (j : json) :
  j ∈ omap (file_child repo dir) l -> exists n, j = JStr n.
Proof.
  rewrite list_elem_of_omap. intros (kv & _ & Hf). unfold file_child in Hf.
  destruct (String.eqb kv.1.1 repo); [|discriminate].
  destruct (GitHub.child dir kv.1.2) as [[name|sub]|]; try discriminate.
  injection Hf as <-. exists name. reflexivity.
Qed.

Section ImageStore.
Context (lib : pylib) (settings : Config.Settings) (dir : string).
Hypothesis Hdir : GitHubProvider.images_path settings = Some dir.

Lemma host_list_images (w : world GitHub.state) :
  GitHub.tree (remote w) !! (Config.GITHUB_REPO settings, dir) = None ->
  GitHubProvider.list_images settings GitHub.host w
  = (Ok (omap (file_child (Config.GITHUB_REPO settings) dir)
           (map_to_list (GitHub.tree (remote w)))),
     {| remote := remote w;
        trace := trace w ++ [(GitHubProvider.get_request settings dir,
                              Some (GitHub.get (remote w) (Config.GITHUB_REPO settings) dir))];
        draws := draws w |}).
Proof.
  intros Hnone. unfold GitHubProvider.list_images. rewrite Hdir.
  unfold catch, bind, send.
  cbn [serve GitHub.host req_method req_repo req_path GitHubProvider.get_request].
  pose proof (file_names_listing (remote w) (Config.GITHUB_REPO settings) dir) as Hnames.
  unfold GitHub.get. rewrite Hnone.
  destruct (GitHub.listing (remote w) (Config.GITHUB_REPO settings) dir) as [|e es].
  - cbn in Hnames. injection Hnames as <-. reflexivity.
  - cbn [status_code resp_json Z.eqb Pos.eqb negb]. unfold lift. rewrite Hnames.
    reflexivity.
Qed.

Lemma host_upload_image (filename image_bytes : string) (w : world GitHub.state) :
  exists commit w',
    GitHubProvider.upload_image lib settings GitHub.host filename image_bytes w
    = (Ok (JStr commit), w')
    /\ GitHub.tree (remote w')
       = <[(Config.GITHUB_REPO settings, dir +:+ "/" +:+ filename)
             := b64encode lib image_bytes]> (GitHub.tree (remote w)).
Proof.
  unfold GitHubProvider.upload_image. rewrite Hdir.
  unfold bind at 1. rewrite get_sha_exchange.
  rewrite host_provider_read, host_get_keeps_state.
  unfold bind at 1. unfold send at 1. cbn [remote trace draws].
  cbn [serve GitHub.host req_method req_repo req_path req_json GitHubProvider.put_request].
  unfold GitHub.put, GitHubProvider.write_data.
  destruct (GitHub.tree (remote w) !! (Config.GITHUB_REPO settings, dir +:+ "/" +:+ filename))
    as [current|] eqn:Hcur.
  - cbn -[GitHub.is_sha GitHub.blob_sha GitHub.commit_sha].
    rewrite truthy_blob. cbn -[GitHub.is_sha GitHub.blob_sha GitHub.commit_sha].
    rewrite is_sha_blob. cbn -[GitHub.blob_sha GitHub.commit_sha].
    eexists _, _. split; reflexivity.
  - cbn -[GitHub.blob_sha GitHub.commit_sha].
    eexists _, _. split; reflexivity.
Qed.

End ImageStore.

(** On a faithful host with the image directory configured (and no file
    stored at the directory's own path), [list_images] returns exactly the
    names of the files kept directly under the directory: files of
    subdirectories and of other repositories are not listed, and the host
    is left as it was. *)
Theorem list_images_lists_files
    (settings : Config.Settings) (dir : string) (w : world GitHub.state) :
  GitHubProvider.images_path settings = Some dir ->
  GitHub.tree (remote w) !! (Config.GITHUB_REPO settings, dir) = None ->
  exists names w',
    GitHubProvider.list_images settings GitHub.host w = (Ok names, w')
    /\ remote w' = remote w
    /\ (forall j, j ∈ names -> exists n, j = JStr n)
    /\ (forall n, JStr n ∈ names
          <-> GitHub.before "/" n = None
              /\ is_Some (GitHub.tree (remote w)
                            !! (Config.GITHUB_REPO settings, dir +:+ "/" +:+ n))).
Proof.
  intros Hdir Hnone. eexists _, _. split; [exact (host_list_images settings dir Hdir w Hnone)|].
  split; [reflexivity|]. split.
  - intros j. apply json_names_are_strings.
  - intros n. apply elem_of_file_children.
Qed.

Lemma list_images_lists_files_witness :
  exists names w',
    GitHubProvider.list_images settings_demo GitHub.host host_with_images = (Ok names, w')
    /\ JStr "a.webp" ∈ names /\ JStr "b.webp" ∈ names /\ (JStr "c.webp" ∉ names).
Proof.
  destruct (list_images_lists_files settings_demo "public/projects" host_with_images)
    as (names & w' & Hrun & _ & _ & Hin).
  - reflexivity.
  - reflexivity.
  - exists names, w'. split; [exact Hrun|]. split; [|split].
    + apply Hin. split; [reflexivity|]. eexists. reflexivity.
    + apply Hin. split; [reflexivity|]. eexists. reflexivity.
    + intros Hc. apply Hin in Hc as [_ [content Hc]]. vm_compute in Hc. discriminate Hc.
Defined.

(** An uploaded image is listed, and [delete_image] does not remove it:
    on a faithful host with the image directory configured, after
    [upload_image] of a name without '/' the listing contains the name;
    the following [delete_image] of that name reads the revision and
    then raises [TypeError], because httpx refuses the call
    [client.delete(url, headers=..., json=data)]; the store is as before
    and the next listing is the same, with the name still in it. *)
Theorem uploaded_image_is_not_deleted
    (lib : pylib) (settings : Config.Settings) (dir filename image_bytes : string)
    (w : world GitHub.state) :
  GitHubProvider.images_path settings = Some dir ->
  GitHub.tree (remote w) !! (Config.GITHUB_REPO settings, dir) = None ->
  GitHub.before "/" filename = None ->
  exists commit w1 names1 w2 w3 w4,
    GitHubProvider.upload_image lib settings GitHub.host filename image_bytes w
      = (Ok (JStr commit), w1)
    /\ GitHubProvider.list_images settings GitHub.host w1 = (Ok names1, w2)
    /\ JStr filename ∈ names1
    /\ GitHubProvider.delete_image settings GitHub.host filename w2 = (Raise TypeError, w3)
    /\ remote w3 = remote w1
    /\ GitHubProvider.list_images settings GitHub.host w3 = (Ok names1, w4).
Proof.
  intros Hdir Hnone Hname.
  assert (forall n, (Config.GITHUB_REPO settings, dir +:+ "/" +:+ n)
                    <> (Config.GITHUB_REPO settings, dir)) as Hkey.
  { intros n H. injection H as H. exact (append_ne_self dir "/" n H). }
  destruct (host_upload_image lib settings dir Hdir filename image_bytes w)
    as (commit & w1 & Hup & Ht1).
  assert (GitHub.tree (remote w1) !! (Config.GITHUB_REPO settings, dir) = None) as Hnone1.
  { rewrite Ht1, lookup_insert_ne by apply Hkey. exact Hnone. }
  pose proof (host_list_images settings dir Hdir w1 Hnone1) as Hl1.
  set (w2 := {| remote := remote w1;
                trace := trace w1 ++ [(GitHubProvider.get_request settings dir,
                           Some (GitHub.get (remote w1) (Config.GITHUB_REPO settings) dir))];
                draws := draws w1 |}) in Hl1.
  destruct (host_delete_image settings dir Hdir filename w2) as (w3 & Hdel & Hst3).
  unfold image_key in Hdel. cbn [remote w2] in Hdel, Hst3.
  rewrite Ht1, lookup_insert_eq in Hdel.
  assert (GitHub.tree (remote w3) !! (Config.GITHUB_REPO settings, dir) = None) as Hnone3.
  { rewrite Hst3. exact Hnone1. }
  pose proof (host_list_images settings dir Hdir w3 Hnone3) as Hl3.
  rewrite Hst3 in Hl3 at 1.
  eexists commit, w1, _, w2, w3, _.
  split; [exact Hup|]. split; [exact Hl1|]. split.
  { apply elem_of_file_children. split; [exact Hname|].
    rewrite Ht1, lookup_insert_eq. eexists. reflexivity. }
  split; [exact Hdel|]. split; [exact Hst3|]. exact Hl3.
Qed.

Lemma uploaded_image_is_not_deleted_witness :
  exists commit w1 names1 w2 w3 w4,
    GitHubProvider.upload_image lib_demo settings_demo GitHub.host "c.webp" "C"
      host_with_images = (Ok (JStr commit), w1)
    /\ GitHubProvider.list_images settings_demo GitHub.host w1 = (Ok names1, w2)
    /\ JStr "c.webp" ∈ names1
    /\ GitHubProvider.delete_image settings_demo GitHub.host "c.webp" w2
       = (Raise TypeError, w3)
    /\ remote w3 = remote w1
    /\ GitHubProvider.list_images settings_demo GitHub.host w3 = (Ok names1, w4).
Proof.
  apply (uploaded_image_is_not_deleted lib_demo settings_demo "public/projects" "c.webp" "C"
           host_with_images).
  - reflexivity.
  - reflexivity.
  - reflexivity.
Defined.

(** ** What the listing of communication records contains *)

Section Listing.
Context (cfg : Index.config).

Lemma elem_of_documents (coll id : string) (doc : gmap string value) (d : Firestore.db) :
  (id, doc) ∈ Firestore.documents coll d <-> d !! (coll, id) = Some doc.
Proof.
  unfold Firestore.documents. rewrite list_elem_of_omap. split.
  - intros ([[c i] x] & Hin & Hf). cbn [fst snd] in Hf.
    destruct (String.eqb_spec c coll) as [->|]; [|discriminate].
    injection Hf as -> ->. apply elem_of_map_to_list in Hin. exact Hin.
  - intros Hd. exists ((coll, id), doc). split.
    + apply elem_of_map_to_list. exact Hd.
    + cbn [fst snd]. rewrite String.eqb_refl. reflexivity.
Qed.

(** the documents a query lets through, before its limit *)
Definition passes (q : Firestore.query) (d : Firestore.db)
    (x : string * gmap string value) : Prop :=
  d !! (Firestore.q_collection q, x.1) = Some x.2
  /\ forallb (Firestore.matches x.2) (Firestore.q_where q) = true
  /\ forall field, Firestore.q_order_by_desc q = Some field -> is_Some (x.2 !! field).

Lemma stream_sound (q : Firestore.query) (d : Firestore.db)
    (x : string * gmap string value) :
  x ∈ Firestore.stream q d -> passes q d x.
Proof.
  unfold Firestore.stream, passes. intros Hx.
  assert (x ∈ match Firestore.q_order_by_desc q with
              | Some field =>
                  merge_sort (Firestore.desc_by field)
                    (filter (fun doc => is_Some (doc.2 !! field))
                       (filter (fun doc => forallb (Firestore.matches doc.2)
                                             (Firestore.q_where q) = true)
                          (Firestore.documents (Firestore.q_collection q) d)))
              | None =>
                  filter (fun doc => forallb (Firestore.matches doc.2)
                                       (Firestore.q_where q) = true)
                    (Firestore.documents (Firestore.q_collection q) d)
              end) as Hs.
  { destruct (Firestore.q_limit q) as [n|]; [|exact Hx].
    apply elem_of_take in Hx as (i & Hi & _). eapply list_elem_of_lookup_2. exact Hi. }
  clear Hx. destruct x as [id doc]. cbn [fst snd].
  destruct (Firestore.q_order_by_desc q) as [field|].
  - rewrite merge_sort_Permutation in Hs.
    apply list_elem_of_filter in Hs as [Hf Hs].
    apply list_elem_of_filter in Hs as [Hw Hs].
    apply elem_of_documents in Hs. split; [exact Hs|]. split; [exact Hw|].
    intros f Hfield. injection Hfield as <-. exact Hf.
  - apply list_elem_of_filter in Hs as [Hw Hs].
    apply elem_of_documents in Hs. split; [exact Hs|]. split; [exact Hw|].
    intros f Hfield. discriminate Hfield.
Qed.

Lemma stream_complete (q : Firestore.query) (d : Firestore.db)
    (x : string * gmap string value) :
  (forall n, Firestore.q_limit q = Some n -> (length (Firestore.stream q d) < n)%nat) ->
  passes q d x -> x ∈ Firestore.stream q d.
Proof.
  unfold passes. intros Hlim (Hd & Hw & Hf).
  assert (x ∈ filter (fun doc => forallb (Firestore.matches doc.2)
                                   (Firestore.q_where q) = true)
                (Firestore.documents (Firestore.q_collection q) d)) as Hx.
  { apply list_elem_of_filter. split; [exact Hw|].
    destruct x as [id doc]. apply elem_of_documents. exact Hd. }
  unfold Firestore.stream in *.
  destruct (Firestore.q_order_by_desc q) as [field|].
  - assert (x ∈ merge_sort (Firestore.desc_by field)
                  (filter (fun doc => is_Some (doc.2 !! field))
                     (filter (fun doc => forallb (Firestore.matches doc.2)
                                           (Firestore.q_where q) = true)
                        (Firestore.documents (Firestore.q_collection q) d)))) as Hs.
    { rewrite merge_sort_Permutation. apply list_elem_of_filter.
      split; [exact (Hf field eq_refl)|exact Hx]. }
    destruct (Firestore.q_limit q) as [n|]; [|exact Hs].
    specialize (Hlim n eq_refl). rewrite length_take in Hlim.
    rewrite take_ge by lia. exact Hs.
  - destruct (Firestore.q_limit q) as [n|]; [|exact Hx].
    specialize (Hlim n eq_refl). rewrite length_take in Hlim.
    rewrite take_ge by lia. exact Hx.
Qed.

Lemma isoformat_field_other (field other : string) (data : gmap string value) :
  other <> field -> Index.isoformat_field field data !! other = data !! other.
Proof.
  intros Hne. unfold Index.isoformat_field.
  destruct (data !! field) as [[]|]; try reflexivity.
  apply lookup_insert_ne. congruence.
Qed.

Lemma record_of_id (id : string) (doc : gmap string value) :
  Index.record_of (id, doc) !! "id" = Some (VStr id).
Proof.
  unfold Index.record_of. rewrite !isoformat_field_other by discriminate.
  cbn [fst snd]. apply lookup_insert_eq.
Qed.

Lemma record_of_other (id field : string) (doc : gmap string value) :
  field <> "id" -> field <> "created_at" -> field <> "updated_at" ->
  Index.record_of (id, doc) !! field = doc !! field.
Proof.
  intros H1 H2 H3. unfold Index.record_of.
  rewrite !isoformat_field_other by assumption.
  cbn [fst snd]. apply lookup_insert_ne. congruence.
Qed.

(** the filter of the query, read on a document *)
Definition selected (status : option string) (doc : gmap string value) : Prop :=
  forall st, status = Some st -> st ∈ ["new"; "done"; "dismissed"] ->
             doc !! "status" = Some (VStr st).

Lemma value_eqb_str (v : value) (s : string) :
  Firestore.value_eqb v (VStr s) = true <-> v = VStr s.
Proof.
  destruct v; cbn; try (split; [discriminate|intros H; discriminate H]).
  rewrite String.eqb_eq. split; [intros ->; reflexivity|intros [= ->]; reflexivity].
Qed.

Lemma query_passes (status : option string) (d : Firestore.db)
    (x : string * gmap string value) :
  passes (Index.communication_query cfg status) d x
  <-> d !! (Index.COMMUNICATION_COLLECTION cfg, x.1) = Some x.2
      /\ is_Some (x.2 !! "created_at") /\ selected status x.2.
Proof.
  unfold passes, selected, Index.communication_query.
  destruct status as [st|].
  - destruct (decide (st ∈ ["new"; "done"; "dismissed"])) as [Hin|Hout].
    + assert (PyStr.truthy st = true) as ->.
      { set_unfold. destruct Hin as [->|[->|[->|[]]]]; reflexivity. }
      rewrite bool_decide_eq_true_2 by exact Hin. cbn [andb].
      cbn [Firestore.limit Firestore.order_by_desc Firestore.where_ Firestore.collection
           Firestore.q_collection Firestore.q_where Firestore.q_order_by_desc app forallb].
      unfold Firestore.matches. cbn [fst snd]. split.
      * intros (Hd & Hw & Hf). split; [exact Hd|]. split; [exact (Hf _ eq_refl)|].
        intros st' Hst _. injection Hst as <-.
        destruct (x.2 !! "status") as [v|]; [|discriminate Hw].
        rewrite andb_true_r in Hw. apply value_eqb_str in Hw. rewrite Hw. reflexivity.
      * intros (Hd & Hc & Hs). split; [exact Hd|]. split.
        -- rewrite (Hs st eq_refl Hin). cbn. rewrite String.eqb_refl. reflexivity.
        -- intros f Hf. injection Hf as <-. exact Hc.
    + rewrite (bool_decide_eq_false_2 _ Hout). rewrite andb_false_r.
      cbn [Firestore.limit Firestore.order_by_desc Firestore.where_ Firestore.collection
           Firestore.q_collection Firestore.q_where Firestore.q_order_by_desc app forallb].
      split.
      * intros (Hd & _ & Hf). split; [exact Hd|]. split; [exact (Hf _ eq_refl)|].
        intros st' Hst Hin. injection Hst as <-. contradiction.
      * intros (Hd & Hc & _). split; [exact Hd|]. split; [reflexivity|].
        intros f Hf. injection Hf as <-. exact Hc.
  - cbn [Firestore.limit Firestore.order_by_desc Firestore.where_ Firestore.collection
         Firestore.q_collection Firestore.q_where Firestore.q_order_by_desc app forallb].
    split.
    + intros (Hd & _ & Hf). split; [exact Hd|]. split; [exact (Hf _ eq_refl)|].
      intros st' Hst. discriminate Hst.
    + intros (Hd & Hc & _). split; [exact Hd|]. split; [reflexivity|].
      intros f Hf. injection Hf as <-. exact Hc.
Qed.

End Listing.

(** Every record that [get_communication] returns is a document of the
    communication collection that has a [created_at] field, returned
    under its own id with its status unchanged, and, when the status
    asked for is one of new, done, dismissed, a document with that status.
    When fewer than 100 records are returned, every such document is
    among them; the count is the number of records. *)
Theorem communication_listing_content
    (cfg : Index.config) (status : option string) (d : Firestore.db) :
  let records := (Index.get_communication cfg status d).1 in
  let listed (id : string) (doc : gmap string value) :=
    d !! (Index.COMMUNICATION_COLLECTION cfg, id) = Some doc
    /\ is_Some (doc !! "created_at")
    /\ selected status doc in
  (forall r, r ∈ records ->
     exists id doc, listed id doc /\ r = Index.record_of (id, doc)
                    /\ r !! "id" = Some (VStr id)
                    /\ r !! "status" = doc !! "status")
  /\ ((length records < 100)%nat ->
      forall id doc, listed id doc -> Index.record_of (id, doc) ∈ records)
  /\ (Index.get_communication cfg status d).2 = Z.of_nat (length records).
Proof.
  intros records listed. subst records listed. unfold Index.get_communication.
  cbn [fst snd]. split; [|split].
  - intros r Hr. apply list_elem_of_fmap in Hr as ([id doc] & -> & Hx).
    apply stream_sound in Hx. apply query_passes in Hx. cbn [fst snd] in Hx.
    exists id, doc. split; [exact Hx|]. split; [reflexivity|].
    split; [apply record_of_id|]. apply record_of_other; discriminate.
  - intros Hlen id doc Hl. apply list_elem_of_fmap. exists (id, doc).
    split; [reflexivity|]. apply stream_complete.
    + intros n Hn. rewrite length_map in Hlen.
      destruct (communication_query_shape cfg status) as [_ Hq].
      rewrite Hq in Hn. injection Hn as <-. exact Hlen.
    + apply query_passes. exact Hl.
  - reflexivity.
Qed.

(** ** Status updates of communication records *)

(** [update_communication_status] fails with [NotFound] for a record that
    does not exist, and then changes nothing and logs nothing.  For an
    existing record it succeeds and touches two documents only: the record
    and the new activity entry, which (under a free id) names the action,
    the user, the record and the new status. *)
Theorem update_communication_status_outcome
    (cfg : Index.config) (record_id status : string) (now : Z)
    (user_uid log_id : string) (log_now : Z) (d : Firestore.db) :
  let out := Index.update_communication_status cfg record_id status now
               user_uid log_id log_now d in
  let record := (Index.COMMUNICATION_COLLECTION cfg, record_id) in
  let entry := (Index.ACTIVITY_LOG_COLLECTION cfg, log_id) in
  match d !! record with
  | None => out = (Raise NotFound, d)
  | Some _ =>
      out.1 = Ok (JObj [("status", JStr "success");
                        ("message", JStr ("Record marked as " +:+ status))])
      /\ (forall key, key <> record -> key <> entry -> out.2 !! key = d !! key)
      /\ (entry <> record -> d !! entry = None ->
          exists logged,
            out.2 !! entry = Some logged
            /\ logged !! "type" = Some (VStr "communication_updated")
            /\ logged !! "user_id" = Some (VStr user_uid)
            /\ logged !! "resource_type" = Some (VStr "communication")
            /\ logged !! "resource_id" = Some (VStr record_id)
            /\ logged !! "details" = Some (VMap [("status", VStr status)])
            /\ logged !! "timestamp" = Some (VTime log_now))
  end.
Proof.
  intros out record entry. subst out record entry.
  unfold Index.update_communication_status, Firestore.update.
  destruct (d !! (Index.COMMUNICATION_COLLECTION cfg, record_id)) as [doc|] eqn:Hdoc;
    [|reflexivity].
  cbn [fst snd]. split; [reflexivity|]. unfold Index.log_activity, Firestore.add.
  split.
  - intros key Hrec Hent.
    destruct (_ !! (Index.ACTIVITY_LOG_COLLECTION cfg, log_id)); cbn [snd].
    + rewrite lookup_insert_ne by congruence. reflexivity.
    + rewrite !lookup_insert_ne by congruence. reflexivity.
  - intros Hne Hfree. rewrite lookup_insert_ne by congruence. rewrite Hfree. cbn [snd].
    rewrite lookup_insert_eq. eexists. split; [reflexivity|].
    repeat split; reflexivity.
Qed.

Lemma update_communication_status_outcome_witness :
  Index.update_communication_status cfg_demo "missing" "done" 500 "admin" "log1" 501 db_two
  = (Raise NotFound, db_two).
Proof.
  exact (update_communication_status_outcome cfg_demo "missing" "done" 500 "admin" "log1" 501
           db_two).
Defined.

(** ** Configured GitHub paths *)

Section GitHubPaths.

(** the number of [c] in [s] *)
Fixpoint count_char (c : ascii) (s : string) : nat :=
  match s with
  | EmptyString => 0
  | String a s' => (if Ascii.eqb a c then 1 else 0) + count_char c s'
  end.

Definition without (c : ascii) (s : string) : Prop := count_char c s = 0%nat.

Lemma cut_None (c : ascii) (s : string) :
  PyStr.cut c s = None <-> without c s.
Proof.
  unfold without. induction s as [|a s IH]; cbn; [tauto|].
  destruct (Ascii.eqb a c); [split; discriminate|].
  destruct (PyStr.cut c s) as [[x rest]|].
  - split; [discriminate|]. intros H. apply IH in H. discriminate H.
  - split; [intros _; apply IH; reflexivity|reflexivity].
Qed.

Lemma cut_Some (c : ascii) (s x rest : string) :
  PyStr.cut c s = Some (x, rest)
  <-> s = x +:+ String c rest /\ without c x.
Proof.
  unfold without. revert x. induction s as [|a s IH]; intros x.
  - cbn. split; [discriminate|]. intros [H _]. destruct x; discriminate H.
  - cbn [PyStr.cut]. destruct (Ascii.eqb_spec a c) as [->|Hne].
    + split.
      * intros H. injection H as <- <-. split; reflexivity.
      * intros [H Hx]. destruct x as [|b x].
        -- change (String c s = String c rest) in H. injection H as ->. reflexivity.
        -- change (String c s = String b (x +:+ String c rest)) in H.
           injection H as <- _. cbn in Hx. rewrite Ascii.eqb_refl in Hx. discriminate Hx.
    + destruct (PyStr.cut c s) as [[y r]|] eqn:Hcut.
      * split.
        -- intros H. injection H as <- <-. destruct (proj1 (IH y) eq_refl) as [-> Hy].
           split; [reflexivity|]. cbn.
           destruct (Ascii.eqb_spec a c); [contradiction|exact Hy].
        -- intros [H Hx]. destruct x as [|b x].
           ++ change (String a s = String c rest) in H. injection H as H _. contradiction.
           ++ change (String a s = String b (x +:+ String c rest)) in H.
              injection H as <- Hs. cbn in Hx.
              destruct (Ascii.eqb a c); [discriminate Hx|].
              pose proof (proj2 (IH x) (conj Hs Hx)) as Hcut'.
              injection Hcut' as -> ->. reflexivity.
      * split; [discriminate|]. intros [H Hx]. exfalso. destruct x as [|b x].
        -- change (String a s = String c rest) in H. injection H as H _. contradiction.
        -- change (String a s = String b (x +:+ String c rest)) in H.
           injection H as <- Hs. cbn in Hx.
           destruct (Ascii.eqb a c); [discriminate Hx|].
           pose proof (proj2 (IH x) (conj Hs Hx)) as Hcut'. discriminate Hcut'.
Qed.

Lemma count_char_app (c : ascii) (a b : string) :
  count_char c (a +:+ b) = (count_char c a + count_char c b)%nat.
Proof.
  induction a as [|x a IH]; [reflexivity|].
  change (String x a +:+ b) with (String x (a +:+ b)). cbn [count_char].
  rewrite IH. lia.
Qed.

Lemma count_char_cut (c : ascii) (s x rest : string) :
  PyStr.cut c s = Some (x, rest) -> count_char c s = Datatypes.S (count_char c rest).
Proof.
  intros H. apply cut_Some in H as [-> Hx]. rewrite count_char_app, Hx. cbn.
  rewrite Ascii.eqb_refl. reflexivity.
Qed.

(** the two parts of a path with at least two ['/'] *)
Lemma split_max_two (s : string) :
  match PyStr.split_max "/" 2 s with
  | [owner; name; path] =>
      without "/" owner /\ without "/" name
      /\ s = owner +:+ "/" +:+ name +:+ "/" +:+ path
      /\ (2 <= count_char "/" s)%nat
  | _ => (count_char "/" s < 2)%nat
  end.
Proof.
  cbn [PyStr.split_max].
  destruct (PyStr.cut "/" s) as [[owner rest]|] eqn:H1.
  - pose proof (count_char_cut _ _ _ _ H1) as Hc1.
    destruct (PyStr.cut "/" rest) as [[name path]|] eqn:H2.
    + pose proof (count_char_cut _ _ _ _ H2) as Hc2.
      apply cut_Some in H1 as [-> Ho]. apply cut_Some in H2 as [-> Hn].
      split; [exact Ho|]. split; [exact Hn|]. split; [reflexivity|]. lia.
    + apply cut_None in H2. unfold without in H2. lia.
  - apply cut_None in H1. unfold without in H1. lia.
Qed.

End GitHubPaths.

(** [parse_github_path] of index.py and [Settings._parse_github_path]
    accept exactly the paths with at least two ['/'].  They cut at the
    first two: the repository is [owner/name], where neither part
    contains a ['/'] (either may be empty), the rest is the path, and the
    two joined with a ['/'] give the input back.  A path with fewer than
    two ['/'] raises [ValueError].  For every owner and name without ['/']
    and every path, [owner/name/path] parses to [owner/name] and [path]. *)
Theorem parse_github_path_spec (full_path : string) :
  match Index.parse_github_path full_path with
  | Ok (repo, path) =>
      Config._parse_github_path full_path = Ok (repo, path)
      /\ full_path = repo +:+ "/" +:+ path
      /\ (2 <= count_char "/" full_path)%nat
      /\ exists owner name,
           without "/" owner /\ without "/" name /\ repo = owner +:+ "/" +:+ name
  | Raise e =>
      e = ValueError ("Invalid GitHub path: " +:+ full_path)
      /\ (exists text, Config._parse_github_path full_path = Raise (ValueError text))
      /\ (count_char "/" full_path < 2)%nat
  end
  /\ forall owner name path,
       without "/" owner -> without "/" name ->
       Index.parse_github_path (owner +:+ "/" +:+ name +:+ "/" +:+ path)
       = Ok (owner +:+ "/" +:+ name, path).
Proof.
  split.
  - pose proof (split_max_two full_path) as H.
    unfold Index.parse_github_path, Config._parse_github_path.
    cbn [PyStr.split_max] in *.
    destruct (PyStr.cut "/" full_path) as [[owner rest]|];
      [destruct (PyStr.cut "/" rest) as [[name path]|]|];
      try (split; [reflexivity|]; split; [eexists; reflexivity|exact H]).
    destruct H as (Ho & Hn & Hs & Hc). split; [reflexivity|]. split.
    + rewrite Hs at 1. rewrite append_assoc3. reflexivity.
    + split; [exact Hc|]. exists owner, name.
      split; [exact Ho|]. split; [exact Hn|reflexivity].
  - intros owner name path Ho Hn. unfold Index.parse_github_path. cbn [PyStr.split_max].
    rewrite (proj2 (cut_Some "/" (owner +:+ "/" +:+ name +:+ "/" +:+ path) owner
                      (name +:+ "/" +:+ path)) (conj eq_refl Ho)).
    rewrite (proj2 (cut_Some "/" (name +:+ "/" +:+ path) name path) (conj eq_refl Hn)).
    reflexivity.
Qed.

Lemma parse_github_path_spec_witness :
  Index.parse_github_path "owner/site/data/projects.json"
  = Ok ("owner/site", "data/projects.json").
Proof.
  apply (proj2 (parse_github_path_spec "") "owner" "site" "data/projects.json");
    reflexivity.
Defined.

(** ** Saving and reading back the contact details *)

(** Through the provider the contact details round-trip: on a faithful
    host, [save_contacts] followed by [get_contacts] returns the contact
    that was saved, whenever the libraries round-trip the JSON text of
    the stored object. *)
Theorem provider_contacts_round_trip
    (lib : pylib) (settings : Config.Settings) (contact message : json)
    (w : world GitHub.state) :
  let text := json_dumps lib 4 (JObj [("contact", contact)]) in
  b64decode lib (PyStr.keep (fun a => negb (Ascii.eqb a "010")) (b64encode lib text))
    = Some text ->
  json_loads lib text = Some (JObj [("contact", contact)]) ->
  PyStr.truthy text = true ->
  exists commit w',
    GitHubProvider.save_contacts lib settings GitHub.host contact message w
      = (Ok (JStr commit), w')
    /\ (GitHubProvider.get_contacts lib settings GitHub.host w').1
       = Ok (contact, JStr (GitHub.blob_sha (b64encode lib text))).
Proof.
  intros text Hb64 Hjson Htext. unfold GitHubProvider.save_contacts. fold text.
  destruct (host_save_file lib settings (Config.GITHUB_CONTACTS_PATH settings)
              text message w) as (commit & w' & Hsave & Htree & _).
  exists commit, w'. split; [exact Hsave|].
  unfold GitHubProvider.get_contacts. unfold bind at 1.
  pose proof (host_get_file lib settings (Config.GITHUB_CONTACTS_PATH settings)
                (b64encode lib text) text w') as Hget.
  rewrite Htree, lookup_insert_eq in Hget. specialize (Hget eq_refl Hb64).
  destruct (GitHubProvider._get_file lib settings GitHub.host
              (Config.GITHUB_CONTACTS_PATH settings) w') as [r w''].
  cbn [fst] in Hget. subst r. rewrite Htext. cbn [negb]. rewrite Hjson. reflexivity.
Qed.

(** a stand-in for the libraries that round-trips one contact object *)
Definition contact_demo : list (string * json) := [("email", JStr "me@example.org")].

Definition lib_contact (stored : json) : pylib :=
{| b64encode := fun s => "b64:" +:+ s;
   b64decode := fun s => GitHub.strip_prefix "b64:" s;
   json_dumps := fun _ _ => "{contact}";
   json_loads := fun _ => Some stored;
   Image_open := fun _ => None;
   Image_save := fun _ => "" |}.

Lemma provider_contacts_round_trip_witness :
  exists commit w',
    GitHubProvider.save_contacts (lib_contact (JObj [("contact", JObj contact_demo)]))
      settings_demo GitHub.host (JObj contact_demo) (JStr "new address") world_demo
      = (Ok (JStr commit), w')
    /\ (GitHubProvider.get_contacts (lib_contact (JObj [("contact", JObj contact_demo)]))
          settings_demo GitHub.host w').1
       = Ok (JObj contact_demo, JStr (GitHub.blob_sha "b64:{contact}")).
Proof.
  apply (provider_contacts_round_trip (lib_contact (JObj [("contact", JObj contact_demo)]))
           settings_demo (JObj contact_demo) (JStr "new address") world_demo);
    vm_compute; reflexivity.
Defined.

(** Through [index.py] they do not: [save_contacts] stores the contact
    object itself, while [get_contacts] returns the ["contact"] entry of
    the stored object.  On a faithful host, with libraries that
    round-trip the JSON text, reading back after a save returns the
    saved object's own ["contact"] entry, and the empty object when it
    has none. *)
Theorem index_contacts_read_back
    (lib : pylib) (cfg : Index.config) (contact : list (string * json))
    (message : option string) (w : world GitHub.state) :
  let text := json_dumps lib 2 (JObj contact) in
  readable lib cfg (remote w) (Index.GITHUB_CONTACTS_PATH cfg) ->
  b64decode lib (b64encode lib text) = Some text ->
  json_loads lib text = Some (JObj contact) ->
  PyStr.truthy text = true ->
  exists response w',
    Index.save_contacts lib cfg GitHub.host contact message w = (Ok response, w')
    /\ exists commit,
         (Index.get_contacts lib cfg GitHub.host w').1
         = Ok (JObj [("status", JStr "success");
                     ("contact", default (JObj []) (Py.assoc "contact" contact));
                     ("commit", commit)]).
Proof.
  intros text Hread Hb64 Hjson Htext.
  set (path := Index.GITHUB_CONTACTS_PATH cfg) in *.
  unfold Index.save_contacts. fold path. fold text. unfold bind at 1.
  pose proof (index_get_file_host lib cfg path w) as Hget.
  pose proof (index_get_file_host_state lib cfg path w) as Hst.
  destruct (Index.github_get_file lib cfg GitHub.host path None w) as [r w1].
  cbn [fst snd] in Hget, Hst.
  assert (Hr : exists c, r = Ok (c, match GitHub.tree (remote w) !! (Index.GITHUB_REPO cfg, path) with
                                    | Some current => JStr (GitHub.blob_sha current)
                                    | None => JNull
                                    end)).
  { subst r. destruct Hread as [(content & Hc & [t Ht])|[Hnone Hlist]].
    - rewrite Hc, Ht. eexists. reflexivity.
    - rewrite Hnone, Hlist. eexists. reflexivity. }
  destruct Hr as [c ->]. cbn [snd].
  destruct (index_save_file_host lib cfg path text
              (Index.default_message message) _ w1
              ltac:(rewrite Hst; reflexivity))
    as (saved & w' & Hsave & [short_sha Hcommit] & Htree).
  unfold bind at 1. rewrite Hsave. unfold bind, lift, ret. rewrite Hcommit.
  eexists _, w'. split; [reflexivity|].
  unfold Index.get_contacts. fold path. unfold bind at 1.
  pose proof (index_get_file_host lib cfg path w') as Hget'.
  rewrite Htree, lookup_insert_eq, Hb64 in Hget'.
  destruct (Index.github_get_file lib cfg GitHub.host path None w') as [r' w''].
  cbn [fst] in Hget'. subst r'. rewrite Htext. cbn [negb]. rewrite Hjson.
  cbn -[GitHub.blob_sha PyStr.take]. eexists. reflexivity.
Qed.

(** the saved address is not returned: the contact read back is empty *)
Lemma index_contacts_read_back_witness :
  exists response w',
    Index.save_contacts (lib_contact (JObj contact_demo)) cfg_demo GitHub.host
      contact_demo None world_demo = (Ok response, w')
    /\ exists commit,
         (Index.get_contacts (lib_contact (JObj contact_demo)) cfg_demo GitHub.host w').1
         = Ok (JObj [("status", JStr "success");
                     ("contact", JObj []);
                     ("commit", commit)]).
Proof.
  apply (index_contacts_read_back (lib_contact (JObj contact_demo)) cfg_demo
           contact_demo None world_demo).
  - right. split; vm_compute; reflexivity.
  - vm_compute. reflexivity.
  - vm_compute. reflexivity.
  - vm_compute. reflexivity.
Defined.

(** ** Deleting communication records *)

(** [delete_communication] always answers with success, also for a
    record that does not exist.  Afterwards no listing returns a record
    under the deleted id, whatever the status asked for, and apart from
    the record and the new activity entry every document is as before. *)
Theorem delete_communication_outcome
    (cfg : Index.config) (record_id user_uid log_id : string) (log_now : Z)
    (d : Firestore.db) :
  let out := Index.delete_communication cfg record_id user_uid log_id log_now d in
  out.1 = JObj [("status", JStr "success"); ("message", JStr "Record deleted")]
  /\ (forall status r,
        r ∈ (Index.get_communication cfg status out.2).1 ->
        r !! "id" <> Some (VStr record_id))
  /\ (forall key,
        key <> (Index.COMMUNICATION_COLLECTION cfg, record_id) ->
        key <> (Index.ACTIVITY_LOG_COLLECTION cfg, log_id) ->
        out.2 !! key = d !! key).
Proof.
  intros out. subst out. unfold Index.delete_communication. cbn [fst snd].
  split; [reflexivity|]. split.
  - intros status r Hr. unfold Index.get_communication in Hr. cbn [fst] in Hr.
    apply list_elem_of_fmap in Hr as ([id doc] & -> & Hx).
    apply stream_sound in Hx. apply query_passes in Hx. cbn [fst snd] in Hx.
    destruct Hx as (Hdoc & [created Hcreated] & _).
    rewrite record_of_id. intros Hid. injection Hid as ->.
    unfold Index.log_activity, Firestore.add, Firestore.delete in Hdoc.
    destruct (base.delete (Index.COMMUNICATION_COLLECTION cfg, record_id) d
                !! (Index.ACTIVITY_LOG_COLLECTION cfg, log_id)) as [other|] eqn:Hlog;
      cbn [snd] in Hdoc.
    + rewrite lookup_delete_eq in Hdoc. discriminate Hdoc.
    + destruct (decide ((Index.ACTIVITY_LOG_COLLECTION cfg, log_id)
                        = (Index.COMMUNICATION_COLLECTION cfg, record_id))) as [Heq|Hne].
      * rewrite Heq, lookup_insert_eq in Hdoc. injection Hdoc as <-.
        vm_compute in Hcreated. discriminate Hcreated.
      * rewrite lookup_insert_ne, lookup_delete_eq in Hdoc by exact Hne.
        discriminate Hdoc.
  - intros key Hrec Hent. unfold Index.log_activity, Firestore.add, Firestore.delete.
    destruct (base.delete (Index.COMMUNICATION_COLLECTION cfg, record_id) d
                !! (Index.ACTIVITY_LOG_COLLECTION cfg, log_id)); cbn [snd].
    + rewrite lookup_delete_ne by congruence. reflexivity.
    + rewrite lookup_insert_ne, lookup_delete_ne by congruence. reflexivity.
Qed.

(** ** Login *)

(** [login] succeeds exactly for the administrator's name with a password
    whose hash is the stored one; every other attempt is a 401 that
    leaves the database as it was.  The token of a successful login is
    accepted by [require_admin] at every clock reading before its expiry,
    as the administrator with the role admin. *)
Theorem login_outcome
    (cfg : Index.config) (sha256 : string -> string) (ADMIN_PASSWORD_HASH : string)
    (now : Z) (log_id : string) (log_now : Z) (data : Index.LoginRequest)
    (d : Firestore.db) :
  let out := Index.login cfg sha256 ADMIN_PASSWORD_HASH now log_id log_now data d in
  let expiry :=
    (now + Index.JWT_EXPIRATION_MINUTES cfg * 60 * Index.microsecond)
    / Index.microsecond in
  match out.1 with
  | Ok response =>
      Index.username data = Index.ADMIN_USERNAME cfg
      /\ sha256 (Index.password data) = ADMIN_PASSWORD_HASH
      /\ forall clk,
           Z.abs expiry <= 2 ^ 32 ->
           Index.at_decode clk < expiry * Index.microsecond ->
           exists user,
             (Index.require_admin cfg clk (Index.Bearer (Index.login_token response))).1
             = Ok user
             /\ Index.uid user = Index.ADMIN_USERNAME cfg
             /\ Index.role user = "admin"
  | Raise e =>
      e = HTTPException 401 "Invalid credentials"
      /\ out.2 = d
      /\ (Index.username data <> Index.ADMIN_USERNAME cfg
          \/ sha256 (Index.password data) <> ADMIN_PASSWORD_HASH)
  end.
Proof.
  intros out expiry. subst out. unfold Index.login, Index.verify_password.
  destruct (String.eqb_spec (Index.username data) (Index.ADMIN_USERNAME cfg)) as [Hu|Hu];
    cbn [negb orb].
  - destruct (String.eqb_spec (sha256 (Index.password data)) ADMIN_PASSWORD_HASH)
      as [Hp|Hp]; cbn [negb fst snd].
    + split; [exact Hu|]. split; [exact Hp|]. intros clk Hexp Hlt.
      cbn [Index.login_token]. unfold Index.require_admin, Index.decode_token,
        Index.create_token. rewrite !String.eqb_refl. cbn [andb Index.exp]. fold expiry.
      destruct (Qle_bool (inject_Z expiry)
                  (Binary64.int_truediv (Index.at_decode clk) Index.microsecond)) eqn:Hb.
      * apply (TokenFacts.expired_iff expiry (Index.at_decode clk) Hexp) in Hb. lia.
      * destruct (negb _); eexists; (split; [reflexivity|]); split; reflexivity.
    + split; [reflexivity|]. split; [reflexivity|]. right. exact Hp.
  - cbn [fst snd]. split; [reflexivity|]. split; [reflexivity|]. left. exact Hu.
Qed.

Lemma login_outcome_witness :
  exists user,
    (Index.require_admin cfg_demo clk_demo
       (Index.Bearer (Index.create_token cfg_demo 0 (Index.ADMIN_USERNAME cfg_demo) "admin"))).1
    = Ok user
    /\ Index.uid user = Index.ADMIN_USERNAME cfg_demo
    /\ Index.role user = "admin".
Proof.
  pose proof (login_outcome cfg_demo (fun s => "sha256:" +:+ s) "sha256:secret" 0 "log1" 1
                {| Index.username := Index.ADMIN_USERNAME cfg_demo;
                   Index.password := "secret" |} ∅) as H.
  cbv beta zeta in H.
  change (Index.login cfg_demo (fun s => "sha256:" +:+ s) "sha256:secret" 0 "log1" 1
            {| Index.username := Index.ADMIN_USERNAME cfg_demo;
               Index.password := "secret" |} ∅).1
    with (@Ok Index.LoginResponse
            {| Index.login_token :=
                 Index.create_token cfg_demo 0 (Index.ADMIN_USERNAME cfg_demo) "admin";
               Index.login_user := JObj [("uid", JStr (Index.ADMIN_USERNAME cfg_demo));
                                         ("username", JStr (Index.ADMIN_USERNAME cfg_demo));
                                         ("role", JStr "admin")] |}) in H.
  destruct H as (_ & _ & H).
  apply (H clk_demo).
  - vm_compute. discriminate.
  - vm_compute. reflexivity.
Defined.

(** ** Knowledge base and system instructions *)

Section FaithfulHostRepo.
Context (lib : pylib) (cfg : Index.config) (repo : option string).

(** the repository a request with [repo] goes to *)
Definition target_repo : string :=
  default (Index.GITHUB_REPO cfg) (Index.configured repo).

Lemma index_get_file_host_in (path : string) (w : world GitHub.state) :
  (Index.github_get_file lib cfg GitHub.host path repo w).1
  = match GitHub.tree (remote w) !! (target_repo, path) with
    | Some content =>
        match b64decode lib content with
        | Some text => Ok (JStr text, JStr (GitHub.blob_sha content))
        | None => Raise DecodeError
        end
    | None =>
        match GitHub.listing (remote w) target_repo path with
        | [] => Ok (JNull, JNull)
        | _ => Raise TypeError
        end
    end.
Proof.
  unfold Index.github_get_file, Index.github_request, bind, catch, send.
  cbn [serve GitHub.host req_method req_repo req_path Index.make_request].
  fold target_repo. unfold GitHub.get.
  destruct (GitHub.tree (remote w) !! (target_repo, path)) as [content|].
  - cbn -[GitHub.blob_sha]. destruct (b64decode lib content); reflexivity.
  - destruct (GitHub.listing (remote w) target_repo path); reflexivity.
Qed.

Lemma index_get_file_host_state_in (path : string) (w : world GitHub.state) :
  remote (Index.github_get_file lib cfg GitHub.host path repo w).2 = remote w.
Proof. rewrite github_get_file_world. reflexivity. Qed.

Lemma index_save_file_host_in (path content message : string) (sha : json)
    (w : world GitHub.state) :
  sha = match GitHub.tree (remote w) !! (target_repo, path) with
        | Some current => JStr (GitHub.blob_sha current)
        | None => JNull
        end ->
  exists saved w',
    Index.github_save_file lib cfg GitHub.host path content message sha repo w
    = (Ok saved, w')
    /\ (exists short_sha, Index.commit_of saved = Ok (JStr short_sha))
    /\ GitHub.tree (remote w')
       = <[(target_repo, path) := b64encode lib content]> (GitHub.tree (remote w)).
Proof.
  intros Hsha. unfold Index.github_save_file, Index.github_request, bind, catch, send.
  destruct (index_put_body cfg path message (b64encode lib content) sha repo)
    as (fields & Hbody & Hc & Hs).
  cbn [serve GitHub.host].
  set (req := Index.make_request cfg PUT path _ repo) in *.
  assert (Hm : req_method req = PUT) by reflexivity.
  assert (Hr : req_repo req = target_repo) by reflexivity.
  assert (Hp : req_path req = path) by reflexivity.
  rewrite Hm, Hr, Hp, Hbody.
  destruct (host_put_current (remote w) target_repo path
              (b64encode lib content) fields Hc) as (status & Hput & Hstatus).
  { rewrite Hs. subst sha.
    destruct (GitHub.tree (remote w) !! (target_repo, path)); reflexivity. }
  rewrite Hput. cbn [fst snd]. unfold GitHub.committed at 1 2 3 4. cbn [status_code resp_json].
  destruct Hstatus as [-> | ->]; cbn -[GitHub.commit_sha GitHub.file_json];
    eexists _, _; (split; [reflexivity|]); (split; [|reflexivity]);
    eexists; reflexivity.
Qed.

(** the file at [path] can be read: it decodes, or nothing is there *)
Definition readable_in (st : GitHub.state) (path : string) : Prop :=
  (exists content, GitHub.tree st !! (target_repo, path) = Some content
                   /\ is_Some (b64decode lib content))
  \/ (GitHub.tree st !! (target_repo, path) = None
      /\ GitHub.listing st target_repo path = []).

(** a read of the revision followed by a save of [content] with it, and
    then a read of the file *)
Lemma index_text_round_trip (path content message : string) (w : world GitHub.state) :
  readable_in (remote w) path ->
  b64decode lib (b64encode lib content) = Some content ->
  exists c w1 saved w2 short_sha,
    Index.github_get_file lib cfg GitHub.host path repo w
    = (Ok (c, match GitHub.tree (remote w) !! (target_repo, path) with
              | Some current => JStr (GitHub.blob_sha current)
              | None => JNull
              end), w1)
    /\ Index.github_save_file lib cfg GitHub.host path content message
         (match GitHub.tree (remote w) !! (target_repo, path) with
          | Some current => JStr (GitHub.blob_sha current)
          | None => JNull
          end) repo w1 = (Ok saved, w2)
    /\ Index.commit_of saved = Ok (JStr short_sha)
    /\ GitHub.tree (remote w2)
       = <[(target_repo, path) := b64encode lib content]> (GitHub.tree (remote w))
    /\ (Index.github_get_file lib cfg GitHub.host path repo w2).1
       = Ok (JStr content, JStr (GitHub.blob_sha (b64encode lib content))).
Proof.
  intros Hread Hb64.
  pose proof (index_get_file_host_in path w) as Hget.
  pose proof (index_get_file_host_state_in path w) as Hst.
  destruct (Index.github_get_file lib cfg GitHub.host path repo w) as [r w1].
  cbn [fst snd] in Hget, Hst.
  assert (Hr : exists c, r = Ok (c, match GitHub.tree (remote w) !! (target_repo, path) with
                                    | Some current => JStr (GitHub.blob_sha current)
                                    | None => JNull
                                    end)).
  { subst r. destruct Hread as [(content' & Hc & [t Ht])|[Hnone Hlist]].
    - rewrite Hc, Ht. eexists. reflexivity.
    - rewrite Hnone, Hlist. eexists. reflexivity. }
  destruct Hr as [c ->].
  destruct (index_save_file_host_in path content message _ w1
              ltac:(rewrite Hst; reflexivity))
    as (saved & w2 & Hsave & [short_sha Hcommit] & Htree).
  exists c, w1, saved, w2, short_sha. split; [reflexivity|].
  split; [exact Hsave|]. split; [exact Hcommit|].
  split; [rewrite Htree, Hst; reflexivity|].
  rewrite index_get_file_host_in, Htree, lookup_insert_eq, Hb64. reflexivity.
Qed.

End FaithfulHostRepo.

(** Both knowledge routes refuse, with a 400 and before any exchange with
    the file host, when no knowledge directory is configured and when the
    category is not one of about_me, tech_stack, projects, contact, misc. *)
Theorem knowledge_category_guard
    {S : Type} (lib : pylib) (cfg : Index.config) (srv : server S)
    (category content : string) (message : option string) (w : world S) :
  Index.configured (Index.GITHUB_KNOWLEDGE_PATH cfg) = None
  \/ category ∉ Index.KNOWLEDGE_CATEGORIES ->
  (exists detail,
     Index.get_knowledge_category lib cfg srv category w
     = (Raise (HTTPException 400 detail), w))
  /\ (exists detail,
        Index.save_knowledge_category lib cfg srv category content message w
        = (Raise (HTTPException 400 detail), w)).
Proof.
  intros H. unfold Index.get_knowledge_category, Index.save_knowledge_category.
  destruct (Index.configured (Index.GITHUB_KNOWLEDGE_PATH cfg)) as [dir|].
  - destruct H as [H|H]; [discriminate H|].
    rewrite (bool_decide_eq_false_2 _ H). cbn [negb].
    split; eexists; reflexivity.
  - split; eexists; reflexivity.
Qed.

Lemma knowledge_category_guard_witness :
  (exists detail,
     Index.get_knowledge_category lib_demo cfg_demo GitHub.host "secrets" world_demo
     = (Raise (HTTPException 400 detail), world_demo))
  /\ (exists detail,
        Index.save_knowledge_category lib_demo cfg_demo GitHub.host "secrets" "text" None
          world_demo
        = (Raise (HTTPException 400 detail), world_demo)).
Proof.
  apply (knowledge_category_guard lib_demo cfg_demo GitHub.host "secrets" "text" None
           world_demo).
  right. compute_done.
Defined.

(** On a faithful host, the text saved for a knowledge category is the
    text read back for it, with the revision of the stored file; the save
    writes one file, in the knowledge repository. *)
Theorem knowledge_round_trip
    (lib : pylib) (cfg : Index.config) (dir category content : string)
    (message : option string) (w : world GitHub.state) :
  let path := dir +:+ "/" +:+ category +:+ ".txt" in
  let repo := target_repo cfg (Index.GITHUB_KNOWLEDGE_REPO cfg) in
  Index.configured (Index.GITHUB_KNOWLEDGE_PATH cfg) = Some dir ->
  category ∈ Index.KNOWLEDGE_CATEGORIES ->
  readable_in lib cfg (Index.GITHUB_KNOWLEDGE_REPO cfg) (remote w) path ->
  b64decode lib (b64encode lib content) = Some content ->
  exists response w',
    Index.save_knowledge_category lib cfg GitHub.host category content message w
    = (Ok response, w')
    /\ GitHub.tree (remote w')
       = <[(repo, path) := b64encode lib content]> (GitHub.tree (remote w))
    /\ (Index.get_knowledge_category lib cfg GitHub.host category w').1
       = Ok (JObj [("status", JStr "success");
                   ("category", JStr category);
                   ("content", JStr content);
                   ("sha", JStr (GitHub.blob_sha (b64encode lib content)))]).
Proof.
  intros path repo Hdir Hcat Hread Hb64.
  destruct (index_text_round_trip lib cfg (Index.GITHUB_KNOWLEDGE_REPO cfg) path content
              (Index.default_message message) w Hread Hb64)
    as (c & w1 & saved & w2 & short_sha & Hget & Hsave & Hcommit & Htree & Hback).
  unfold Index.save_knowledge_category, Index.get_knowledge_category.
  rewrite Hdir, (bool_decide_eq_true_2 _ Hcat). cbn [negb]. fold path.
  unfold bind at 1. rewrite Hget. cbn [snd].
  unfold bind at 1. rewrite Hsave. unfold bind at 1. unfold lift at 1. rewrite Hcommit.
  eexists _, w2. split; [reflexivity|]. split; [exact Htree|].
  unfold bind.
  destruct (Index.github_get_file lib cfg GitHub.host path
              (Index.GITHUB_KNOWLEDGE_REPO cfg) w2) as [r w3].
  cbn [fst] in Hback. subst r. cbn [fst]. unfold ret. cbn [fst].
  unfold Index.or_empty. destruct content as [|a content]; reflexivity.
Qed.

Lemma knowledge_round_trip_witness :
  exists response w',
    Index.save_knowledge_category lib_demo cfg_demo GitHub.host "about_me" "I build things"
      None world_demo = (Ok response, w')
    /\ GitHub.tree (remote w')
       = <[("owner/bot", "knowledge/about_me.txt") := "b64:I build things"]>
           (GitHub.tree (remote world_demo))
    /\ (Index.get_knowledge_category lib_demo cfg_demo GitHub.host "about_me" w').1
       = Ok (JObj [("status", JStr "success");
                   ("category", JStr "about_me");
                   ("content", JStr "I build things");
                   ("sha", JStr (GitHub.blob_sha "b64:I build things"))]).
Proof.
  apply (knowledge_round_trip lib_demo cfg_demo "knowledge" "about_me" "I build things"
           None world_demo).
  - reflexivity.
  - compute_done.
  - right. split; vm_compute; reflexivity.
  - vm_compute. reflexivity.
Defined.

(** On a faithful host, the system instructions saved are the ones read
    back, with the revision of the stored file. *)
Theorem system_instructions_round_trip
    (lib : pylib) (cfg : Index.config) (path content : string)
    (message : option string) (w : world GitHub.state) :
  Index.configured (Index.GITHUB_SYS_INS_PATH cfg) = Some path ->
  readable_in lib cfg (Index.GITHUB_SYS_INS_REPO cfg) (remote w) path ->
  b64decode lib (b64encode lib content) = Some content ->
  exists response w',
    Index.save_system_instructions lib cfg GitHub.host content message w
    = (Ok response, w')
    /\ GitHub.tree (remote w')
       = <[(target_repo cfg (Index.GITHUB_SYS_INS_REPO cfg), path) := b64encode lib content]>
           (GitHub.tree (remote w))
    /\ (Index.get_system_instructions lib cfg GitHub.host w').1
       = Ok (JObj [("status", JStr "success");
                   ("content", JStr content);
                   ("sha", JStr (GitHub.blob_sha (b64encode lib content)))]).
Proof.
  intros Hpath Hread Hb64.
  destruct (index_text_round_trip lib cfg (Index.GITHUB_SYS_INS_REPO cfg) path content
              (Index.default_message message) w Hread Hb64)
    as (c & w1 & saved & w2 & short_sha & Hget & Hsave & Hcommit & Htree & Hback).
  unfold Index.save_system_instructions, Index.get_system_instructions.
  rewrite Hpath.
  unfold bind at 1. rewrite Hget. cbn [snd].
  unfold bind at 1. rewrite Hsave. unfold bind at 1. unfold lift at 1. rewrite Hcommit.
  eexists _, w2. split; [reflexivity|]. split; [exact Htree|].
  unfold bind.
  destruct (Index.github_get_file lib cfg GitHub.host path
              (Index.GITHUB_SYS_INS_REPO cfg) w2) as [r w3].
  cbn [fst] in Hback. subst r. cbn [fst]. unfold ret. cbn [fst].
  unfold Index.or_empty. destruct content as [|a content]; reflexivity.
Qed.

Lemma system_instructions_round_trip_witness :
  exists response w',
    Index.save_system_instructions lib_demo cfg_demo GitHub.host "Be brief." None world_demo
    = (Ok response, w')
    /\ GitHub.tree (remote w')
       = <[("owner/bot", "prompts/system.txt") := "b64:Be brief."]>
           (GitHub.tree (remote world_demo))
    /\ (Index.get_system_instructions lib_demo cfg_demo GitHub.host w').1
       = Ok (JObj [("status", JStr "success");
                   ("content", JStr "Be brief.");
                   ("sha", JStr (GitHub.blob_sha "b64:Be brief."))]).
Proof.
  apply (system_instructions_round_trip lib_demo cfg_demo "prompts/system.txt" "Be brief."
           None world_demo).
  - reflexivity.
  - right. split; vm_compute; reflexivity.
  - vm_compute. reflexivity.
Defined.

(** ** Cleanup of unused images in [index.py] *)

Section IndexCleanup.
Context {S : Type} (cfg : Index.config) (srv : server S).

Lemma for_each_ok {A} (l : list A) (body : A -> M S unit) (w : world S) :
  (forall x w0, (body x w0).1 = Ok tt) -> (for_each l body w).1 = Ok tt.
Proof.
  intros Hbody. revert w. induction l as [|x l IH]; intros w; [reflexivity|].
  cbn [for_each]. unfold bind. pose proof (Hbody x w) as Hx.
  destruct (body x w) as [r w1]. cbn [fst] in Hx. subst r. apply IH.
Qed.

(** the search through a listing sends nothing: the delete it ends in
    raises before any exchange *)
Lemma delete_listed_world (files : list json) (path filename : string) (w : world S) :
  (Index.delete_listed cfg srv files path filename w).2 = w.
Proof.
  induction files as [|f files IH]; [reflexivity|].
  cbn [Index.delete_listed]. unfold bind at 1. unfold lift at 1.
  destruct (Py.get f "name" JNull) as [name|e]; [|reflexivity].
  destruct name as [| | |nm| |]; try exact IH.
  destruct (String.eqb nm filename); [|exact IH].
  unfold bind at 1. unfold lift at 1.
  destruct (Py.item f "sha") as [sha|e]; reflexivity.
Qed.

Lemma list_directory_reads_only (path : string) (repo : option string) (w : world S) :
  reads_only srv w (Index.github_list_directory cfg srv path repo w).2.
Proof.
  unfold Index.github_list_directory, bind.
  pose proof (github_request_exchange cfg srv GET path JNull repo w ltac:(discriminate))
    as Hw.
  destruct (Index.github_request cfg srv GET path JNull repo w) as [[result|e] w'];
    cbn [snd] in Hw; subst w'.
  - destruct result; apply reads_only_get; reflexivity.
  - apply reads_only_get. reflexivity.
Qed.

(** one round of the loop: list the directory, search the listing *)
Lemma index_cleanup_step_run (dir filename : string) (w : world S) :
  catch (files <~ Index.github_list_directory cfg srv dir None ;;
         Index.delete_listed cfg srv files (dir +:+ "/" +:+ filename) filename)%M
        (fun _ => ret tt) w
  = (Ok tt, (Index.github_list_directory cfg srv dir None w).2).
Proof.
  unfold catch, bind at 1.
  destruct (Index.github_list_directory cfg srv dir None w) as [[files|e] w1];
    [|reflexivity].
  pose proof (delete_listed_world files (dir +:+ "/" +:+ filename) filename w1) as Hw.
  destruct (Index.delete_listed cfg srv files (dir +:+ "/" +:+ filename) filename w1)
    as [[[]|e] w2]; cbn [snd] in Hw; subst w2; reflexivity.
Qed.

Lemma index_cleanup_step (dir filename : string) (w : world S) :
  let step :=
    catch (files <~ Index.github_list_directory cfg srv dir None ;;
           Index.delete_listed cfg srv files (dir +:+ "/" +:+ filename) filename)%M
          (fun _ => ret tt) in
  (step w).1 = Ok tt /\ reads_only srv w (step w).2.
Proof.
  cbv zeta. rewrite index_cleanup_step_run. cbn [fst snd].
  split; [reflexivity|apply list_directory_reads_only].
Qed.

End IndexCleanup.

(** [cleanup_unused_images] of index.py removes nothing.  Whatever the
    server answers, every request it sends is a GET (the listing of the
    image directory): the delete of a listed file goes through
    [github_request], whose [client.delete(url, headers=headers,
    json=data)] is refused by httpx before anything is sent, and the
    loop swallows the error.  On a server whose state no GET changes the
    store is left as it was.  The cleanup raises nothing when every
    truthy ["image"] field of the two lists is a string. *)
Theorem index_cleanup_deletes_nothing
    {S : Type} (cfg : Index.config) (srv : server S)
    (news olds : list (list (string * json))) (w : world S) :
  exists r w' sent,
    Index.cleanup_unused_images cfg srv news olds w = (r, w')
    /\ trace w' = (trace w ++ sent)%list
    /\ Forall (fun x : request * option response => req_method x.1 = GET) sent
    /\ ((forall req st, req_method req = GET -> (serve srv req st).2 = st) ->
        remote w' = remote w)
    /\ (forall new_names old_names,
          Index.image_names news = Ok new_names ->
          Index.image_names olds = Ok old_names ->
          r = Ok tt).
Proof.
  assert (Hrun : reads_only srv w (Index.cleanup_unused_images cfg srv news olds w).2
                 /\ (forall new_names old_names,
                       Index.image_names news = Ok new_names ->
                       Index.image_names olds = Ok old_names ->
                       (Index.cleanup_unused_images cfg srv news olds w).1 = Ok tt)).
  { unfold Index.cleanup_unused_images.
    destruct (Index.configured (Index.GITHUB_PROJECT_IMAGES_PATH cfg)) as [dir|];
      [|split; [apply reads_only_refl|reflexivity]].
    unfold bind at 1. unfold lift at 1.
    destruct (Index.image_names news) as [new_images|e];
      [|split; [apply reads_only_refl|intros ? ? H; discriminate H]].
    unfold bind at 1. unfold lift at 1.
    destruct (Index.image_names olds) as [old_images|e];
      [|split; [apply reads_only_refl|intros ? ? _ H; discriminate H]].
    split.
    - apply for_each_reads_only. intros x w0.
      exact (proj2 (index_cleanup_step cfg srv dir x w0)).
    - intros _ _ _ _. apply for_each_ok. intros x w0.
      exact (proj1 (index_cleanup_step cfg srv dir x w0)). }
  destruct (Index.cleanup_unused_images cfg srv news olds w) as [r w'].
  cbn [fst snd] in Hrun. destruct Hrun as [[(sent & Htrace & Hsent) Hpure] Hok].
  exists r, w', sent. split; [reflexivity|]. split; [exact Htrace|].
  split; [exact Hsent|]. split; [exact Hpure|exact Hok].
Qed.

Definition project_with_image : list (string * json) :=
[("name", JStr "A"); ("image", JStr "/projects/a.webp")].

(** the old list has "a.webp", the new list has no project: the file
    stays in the store *)
Lemma index_cleanup_deletes_nothing_witness :
  exists w',
    Index.cleanup_unused_images cfg_demo GitHub.host [] [project_with_image]
      host_with_images = (Ok tt, w')
    /\ GitHub.tree (remote w') !! ("owner/site", "public/projects/a.webp") = Some "b64:A".
Proof.
  destruct (index_cleanup_deletes_nothing cfg_demo GitHub.host [] [project_with_image]
              host_with_images) as (r & w' & sent & Hrun & _ & _ & Hpure & Hok).
  exists w'. split.
  - rewrite Hrun. rewrite (Hok ∅ ({[ "a.webp" ]} ∪ ∅) eq_refl eq_refl). reflexivity.
  - rewrite (Hpure host_reads_are_pure). reflexivity.
Defined.

(** ** Reading before anything was saved *)

(** When the server answers 404 to every read, nothing is an error: the
    provider and index.py both return the empty project list, and the
    default (provider) or empty (index.py) contact, with no commit. *)
Theorem absent_files_read_empty
    {S : Type} (lib : pylib) (settings : Config.Settings) (cfg : Index.config)
    (srv : server S) (w : world S) :
  (forall req, req_method req = GET ->
     exists resp, (serve srv req (remote w)).1 = Some resp /\ status_code resp = 404) ->
  (GitHubProvider.get_projects lib settings srv w).1 = Ok (JArr [], JNull)
  /\ (GitHubProvider.get_contacts lib settings srv w).1
     = Ok (JObj [("email", JStr ""); ("socials", JObj [])], JNull)
  /\ (Index.get_projects lib cfg srv w).1
     = Ok (JObj [("status", JStr "success"); ("projects", JArr []); ("commit", JNull)])
  /\ (Index.get_contacts lib cfg srv w).1
     = Ok (JObj [("status", JStr "success"); ("contact", JObj []); ("commit", JNull)]).
Proof.
  intros H.
  assert (Hprov : forall path,
            (GitHubProvider._get_file lib settings srv path w).1 = Ok ("", JNull)).
  { intros path. unfold GitHubProvider._get_file, bind, send.
    destruct (H (GitHubProvider.get_request settings path) eq_refl) as (resp & Hr & H404).
    destruct (serve srv (GitHubProvider.get_request settings path) (remote w)) as [r s'].
    cbn [fst] in Hr. subst r. rewrite H404. reflexivity. }
  assert (Hidx : forall path,
            (Index.github_get_file lib cfg srv path None w).1 = Ok (JNull, JNull)).
  { intros path. unfold Index.github_get_file, Index.github_request, bind, catch, send.
    destruct (H (Index.make_request cfg GET path JNull None) eq_refl) as (resp & Hr & H404).
    destruct (serve srv (Index.make_request cfg GET path JNull None) (remote w)) as [r s'].
    cbn [fst] in Hr. subst r. rewrite H404. reflexivity. }
  split; [|split; [|split]].
  - unfold GitHubProvider.get_projects, bind.
    specialize (Hprov (Config.GITHUB_PROJECTS_PATH settings)).
    destruct (GitHubProvider._get_file lib settings srv _ w) as [r w'].
    cbn [fst] in Hprov. subst r. reflexivity.
  - unfold GitHubProvider.get_contacts, bind.
    specialize (Hprov (Config.GITHUB_CONTACTS_PATH settings)).
    destruct (GitHubProvider._get_file lib settings srv _ w) as [r w'].
    cbn [fst] in Hprov. subst r. reflexivity.
  - unfold Index.get_projects, bind.
    specialize (Hidx (Index.GITHUB_PROJECTS_PATH cfg)).
    destruct (Index.github_get_file lib cfg srv _ None w) as [r w'].
    cbn [fst] in Hidx. subst r. reflexivity.
  - unfold Index.get_contacts, bind.
    specialize (Hidx (Index.GITHUB_CONTACTS_PATH cfg)).
    destruct (Index.github_get_file lib cfg srv _ None w) as [r w'].
    cbn [fst] in Hidx. subst r. reflexivity.
Qed.

Lemma absent_files_read_empty_witness :
  (GitHubProvider.get_projects lib_demo settings_demo GitHub.host world_demo).1
    = Ok (JArr [], JNull)
  /\ (GitHubProvider.get_contacts lib_demo settings_demo GitHub.host world_demo).1
     = Ok (JObj [("email", JStr ""); ("socials", JObj [])], JNull)
  /\ (Index.get_projects lib_demo cfg_demo GitHub.host world_demo).1
     = Ok (JObj [("status", JStr "success"); ("projects", JArr []); ("commit", JNull)])
  /\ (Index.get_contacts lib_demo cfg_demo GitHub.host world_demo).1
     = Ok (JObj [("status", JStr "success"); ("contact", JObj []); ("commit", JNull)]).
Proof.
  apply (absent_files_read_empty lib_demo settings_demo cfg_demo GitHub.host world_demo).
  intros req Hreq. cbn [serve GitHub.host]. rewrite Hreq. cbn [fst].
  exists (GitHub.message 404 "Not Found"). split; [|reflexivity].
  unfold GitHub.get. cbn [remote world_demo empty_host GitHub.tree].
  rewrite lookup_empty. reflexivity.
Defined.

(** ** The upload route of [index.py] on a faithful host *)

(** For a file that passes validation and conversion, the upload of
    index.py stores the converted image under the generated name and
    answers with its URL when no file has that name.  When a file with
    the generated name exists, the upload fails with a 422 and the
    existing file is kept: the write carries no revision, so it never
    replaces an image. *)
Theorem index_upload_outcome
    (lib : pylib) (cfg : Index.config) (src : entropy) (dir : string)
    (file : UploadFile) (projectName webp : string) (w : world GitHub.state) :
  let filename := (Index.generate_image_filename src projectName (draws w)).1 in
  let key := (Index.GITHUB_REPO cfg, dir +:+ "/" +:+ filename) in
  Index.configured (Index.GITHUB_PROJECT_IMAGES_PATH cfg) = Some dir ->
  Index.validate_image file = Ok tt ->
  Index.convert_to_webp lib file 1200 = Ok webp ->
  exists w',
    GitHub.tree (remote w')
    = match GitHub.tree (remote w) !! key with
      | None => <[key := b64encode lib webp]> (GitHub.tree (remote w))
      | Some _ => GitHub.tree (remote w)
      end
    /\ Index.upload_project_image lib cfg GitHub.host src file projectName w
       = (match GitHub.tree (remote w) !! key with
          | None => Ok (JObj [("status", JStr "success");
                              ("imageUrl", JStr ("/projects/" +:+ filename));
                              ("filename", JStr filename)])
          | Some _ => Raise (HTTPException 422 "GitHub API error")
          end, w').
Proof.
  intros filename key Hdir Hval Hconv. subst filename key.
  unfold Index.upload_project_image. rewrite Hdir.
  unfold bind at 1. unfold lift at 1. rewrite Hval.
  unfold bind at 1. unfold lift at 1. rewrite Hconv.
  unfold bind at 1. unfold lift_rand at 1.
  destruct (Index.generate_image_filename src projectName (draws w)) as [filename n'].
  cbn [fst].
  unfold bind at 1.
  unfold Index.github_save_binary, Index.github_request, bind, catch, send.
  destruct (index_put_body cfg (dir +:+ "/" +:+ filename)
              ("Upload project image: " +:+ filename) (b64encode lib webp) JNull None)
    as (fields & Hbody & Hc & Hs).
  cbn [serve GitHub.host remote].
  set (req := Index.make_request cfg PUT (dir +:+ "/" +:+ filename) _ None) in *.
  assert (Hm : req_method req = PUT) by reflexivity.
  assert (Hr : req_repo req = Index.GITHUB_REPO cfg) by reflexivity.
  assert (Hp : req_path req = dir +:+ "/" +:+ filename) by reflexivity.
  rewrite Hm, Hr, Hp, Hbody. unfold GitHub.put. rewrite Hc, Hs.
  cbn [Py.truthy default from_option id].
  destruct (GitHub.tree (remote w) !! (Index.GITHUB_REPO cfg, dir +:+ "/" +:+ filename))
    as [current|].
  - cbn -[String.append]. eexists. split; [|reflexivity]. reflexivity.
  - cbn -[String.append GitHub.commit_sha GitHub.file_json].
    eexists. split; [|reflexivity]. reflexivity.
Qed.

(** a store where the name that will be drawn is taken *)
Definition host_with_demo : world GitHub.state :=
{| remote := {| GitHub.tree := {[ ("owner/site", "public/projects/demo-00000000.webp")
                                    := "b64:OLD" ]};
                GitHub.commits := 1 |};
   trace := [];
   draws := 0 |}.

Lemma index_upload_outcome_witness :
  exists w',
    GitHub.tree (remote w') = GitHub.tree (remote host_with_demo)
    /\ Index.upload_project_image lib_demo cfg_demo GitHub.host src_demo
         png_file "Demo" host_with_demo
       = (Raise (HTTPException 422 "GitHub API error"), w').
Proof.
  destruct (index_upload_outcome lib_demo cfg_demo src_demo
              "public/projects" png_file "Demo" "RIFF....WEBP" host_with_demo)
    as (w' & Htree & Hrun).
  - reflexivity.
  - reflexivity.
  - reflexivity.
  - exists w'. split; [exact Htree|exact Hrun].
Defined.

(** ** The upload route of the router on a faithful host *)

Lemma elem_of_names (l : list json) (s : string) :
  s ∈ ProjectsRouter.names l <-> JStr s ∈ l.
Proof.
  unfold ProjectsRouter.names. rewrite list_elem_of_omap. split.
  - intros (v & Hv & Hs). destruct v; try discriminate Hs. injection Hs as ->. exact Hv.
  - intros H. exists (JStr s). split; [exact H|reflexivity].
Qed.

(** For a file that passes validation and conversion, the upload of the
    router lists the image directory, draws a name with
    [generate_unique_filename] against the names listed, stores the
    converted image under it and answers with its URL; every other file
    is kept.  When one of the ten candidate names is not listed (and the
    name has no ['/']), no file had the chosen name: nothing is
    replaced. *)
Theorem router_upload_outcome
    (lib : pylib) (settings : Config.Settings) (src : entropy) (dir : string)
    (file : UploadFile) (projectName webp : string) (w : world GitHub.state) :
  GitHubProvider.images_path settings = Some dir ->
  GitHub.tree (remote w) !! (Config.GITHUB_REPO settings, dir) = None ->
  ImageService.validate_image file = (true, "") ->
  ImageService.convert_to_webp lib file = Ok webp ->
  exists listed w1 filename n' w',
    GitHubProvider.list_images settings GitHub.host w = (Ok listed, w1)
    /\ ImageService.generate_unique_filename src projectName
         (ProjectsRouter.names listed) (draws w) = (filename, n')
    /\ ProjectsRouter.upload_project_image lib settings GitHub.host src file projectName w
       = (Ok (JObj [("status", JStr "success");
                    ("imageUrl", JStr ("public/projects/" +:+ filename));
                    ("filename", JStr filename)]), w')
    /\ GitHub.tree (remote w')
       = <[(Config.GITHUB_REPO settings, dir +:+ "/" +:+ filename) := b64encode lib webp]>
           (GitHub.tree (remote w))
    /\ ((exists i, (i < 10)%nat
                   /\ ImageService.candidate src projectName (draws w) i
                        ∉ ProjectsRouter.names listed) ->
        GitHub.before "/" filename = None ->
        GitHub.tree (remote w) !! (Config.GITHUB_REPO settings, dir +:+ "/" +:+ filename)
        = None).
Proof.
  intros Hdir Hnofile Hval Hconv.
  pose proof (host_list_images settings dir Hdir w Hnofile) as Hlist.
  set (listed := omap (file_child (Config.GITHUB_REPO settings) dir)
                   (map_to_list (GitHub.tree (remote w)))) in *.
  set (w1 := {| remote := remote w; trace := _; draws := draws w |}) in *.
  destruct (ImageService.generate_unique_filename src projectName
              (ProjectsRouter.names listed) (draws w)) as [filename n'] eqn:Hgen.
  destruct (host_upload_image lib settings dir Hdir filename webp
              {| remote := remote w1; trace := trace w1; draws := n' |})
    as (commit & w' & Hup & Htree).
  exists listed, w1, filename, n', w'.
  split; [exact Hlist|]. split; [exact Hgen|]. split; [|split].
  - unfold ProjectsRouter.upload_project_image. rewrite Hval. cbn [negb].
    unfold bind at 1. unfold lift at 1. rewrite Hconv.
    unfold bind at 1. rewrite Hlist.
    unfold bind at 1. unfold lift_rand at 1. cbn [draws w1]. rewrite Hgen.
    unfold bind at 1. unfold catch at 1. rewrite Hup. reflexivity.
  - exact Htree.
  - intros (i & Hi & Hfree) Hname.
    assert (filename ∉ ProjectsRouter.names listed) as Hnew.
    { unfold ImageService.generate_unique_filename, rand_bind in Hgen.
      destruct (attempts_finds src (ImageService.sanitize_filename projectName)
                  (list_to_set (ProjectsRouter.names listed)) 10 (draws w))
        as (f & n1 & Hatt & Hf & _).
      { exists i. split; [exact Hi|]. intros Hin. apply Hfree.
        apply elem_of_list_to_set in Hin. exact Hin. }
      rewrite Hatt in Hgen. unfold rand_ret in Hgen. injection Hgen as <- _.
      intros Hin. apply Hf. apply elem_of_list_to_set. exact Hin. }
    destruct (GitHub.tree (remote w) !! (Config.GITHUB_REPO settings, dir +:+ "/" +:+ filename))
      as [content|] eqn:Hfile; [|reflexivity].
    exfalso. apply Hnew. apply elem_of_names. apply elem_of_file_children.
    split; [exact Hname|]. exists content. exact Hfile.
Qed.

Lemma router_upload_outcome_witness :
  exists listed w1 filename n' w',
    GitHubProvider.list_images settings_demo GitHub.host host_with_images = (Ok listed, w1)
    /\ ImageService.generate_unique_filename src_demo "My Project"
         (ProjectsRouter.names listed) (draws host_with_images) = (filename, n')
    /\ ProjectsRouter.upload_project_image lib_demo settings_demo GitHub.host src_demo
         png_file "My Project" host_with_images
       = (Ok (JObj [("status", JStr "success");
                    ("imageUrl", JStr ("public/projects/" +:+ filename));
                    ("filename", JStr filename)]), w')
    /\ GitHub.tree (remote w')
       = <[(Config.GITHUB_REPO settings_demo, "public/projects" +:+ "/" +:+ filename)
             := b64encode lib_demo "RIFF....WEBP"]>
           (GitHub.tree (remote host_with_images)).
Proof.
  destruct (router_upload_outcome lib_demo settings_demo src_demo "public/projects"
              png_file "My Project" "RIFF....WEBP" host_with_images)
    as (listed & w1 & filename & n' & w' & H1 & H2 & H3 & H4 & _).
  - reflexivity.
  - reflexivity.
  - reflexivity.
  - reflexivity.
  - exists listed, w1, filename, n', w'. repeat split; assumption.
Defined.

(** ** Endpoints behind [require_admin] *)

(** the answer to a request that was not let through *)
Definition unauthorized (r : Index.http_response) : Prop :=
  Index.http_status r = 401
  /\ Index.X_New_Token r = None
  /\ exists detail, Index.http_body r = JObj [("detail", JStr detail)].

(** No endpoint that depends on [require_admin] answers without a token
    that [decode_token] accepts: the status and body of the response are
    the endpoint's only for such a bearer token, and then the endpoint
    is given the token's claims; every other request is answered with a
    401 that carries a detail and no new token, whatever the endpoint. *)
Theorem admin_request_guard
    (cfg : Index.config) (clk : Index.clock) (auth : Index.authorization)
    (endpoint : Index.payload -> Z * json) :
  let r := Index.admin_request cfg clk auth endpoint in
  match auth with
  | Index.Bearer t =>
      match Index.decode_token cfg (Index.at_decode clk) t with
      | Ok user => (Index.http_status r, Index.http_body r) = endpoint user
      | Raise _ => unauthorized r
      end
  | _ => unauthorized r
  end.
Proof.
  intros r. subst r. unfold Index.admin_request, Index.require_admin, unauthorized.
  destruct auth as [|t|text].
  - cbn. split; [reflexivity|]. split; [reflexivity|]. eexists. reflexivity.
  - destruct (Index.decode_token cfg (Index.at_decode clk) t) as [user|e] eqn:Hdec.
    + destruct (negb _); destruct (endpoint user) as [status body]; reflexivity.
    + unfold Index.decode_token in Hdec. destruct t as [key algorithm claims|text].
      * destruct (String.eqb key (Index.JWT_SECRET cfg)
                  && String.eqb algorithm (Index.JWT_ALGORITHM cfg)).
        -- destruct (Qle_bool _ _); [|discriminate Hdec]. injection Hdec as <-.
           cbn. split; [reflexivity|]. split; [reflexivity|]. eexists. reflexivity.
        -- injection Hdec as <-.
           cbn. split; [reflexivity|]. split; [reflexivity|]. eexists. reflexivity.
      * injection Hdec as <-.
        cbn. split; [reflexivity|]. split; [reflexivity|]. eexists. reflexivity.
  - cbn. split; [reflexivity|]. split; [reflexivity|]. eexists. reflexivity.
Qed.
